(** * BHIMA: posting-journal edits and account opening balances

    A shallow embedding of two server controllers:

    - the [/journal] controller ([editTransaction], [transformColumns],
      [getTransactionDate], [lookupTransaction] and the query behind it,
      and further down the listing of full transactions, the edit history
      and the comments);
    - [finance/accounts/extra.js] ([getOpeningBalanceForDate] and its helper
      queries).

    JavaScript objects are finite maps from property names to values, SQL
    tables are lists of rows, promise chains are computations in a small
    state-and-error monad over the database, and the nondeterministic order
    in which concurrently issued lookups settle is an explicit oracle. *)

From Stdlib Require Import ZArith QArith Qabs Qround String List Lia DecimalString Sorted.
From stdpp Require Import base option list gmap strings.

Open Scope string_scope.
Open Scope list_scope.
Open Scope Z_scope.

(** ** JavaScript values *)

Module Js.

(** The values that travel between the request body, the controller and the
    database driver.  Numbers are exact rationals (binary floating point is
    not modelled); a [Date] carries its time value in milliseconds, [None]
    being an invalid date. *)
Inductive JsVal : Type :=
| JUndefined
| JNull
| JBool (b : bool)
| JNum (q : Q)
| JStr (s : string)
| JDate (t : option Z).

(** [Boolean(v)]: what an [if (v)] sees. *)
Definition truthy (v : JsVal) : bool :=
  match v with
  | JUndefined | JNull => false
  | JBool b => b
  | JNum q => negb (Qeq_bool q 0)
  | JStr s => negb (String.eqb s "")
  | JDate _ => true
  end.

(** [TimeClip]: a finite time value is truncated towards zero and rejected
    beyond 8.64e15 ms. *)
Definition timeClip (q : Q) : option Z :=
  let t := Z.quot (Qnum q) (Zpos (Qden q)) in
  if Z.abs t <=? 8640000000000000 then Some t else None.

Section Date.
(** [Date.parse] on strings is left to the engine. *)
Variable Date_parse : string -> option Z.

(** [new Date(v)] with a single argument. *)
Definition newDate (v : JsVal) : JsVal :=
  match v with
  | JDate t => JDate t
  | JStr s => JDate (Date_parse s)
  | JNum q => JDate (timeClip q)
  | JBool b => JDate (Some (if b then 1 else 0))
  | JNull => JDate (Some 0)
  | JUndefined => JDate None
  end.
End Date.

(** A JavaScript object with primitive properties. *)
Abbreviation Row := (gmap string JsVal).

(** Property read [row.k]: a missing property reads as [undefined]. *)
Definition prop (row : Row) (k : string) : JsVal := default JUndefined (row !! k).

End Js.
Export Js.

(** ** Errors and results *)

(** The error classes the controllers throw.  [BadRequest] carries its
    translation key (the human-readable message is not modelled);
    [TypeError] is the engine's own error for reading a property of
    [undefined]; [StoreFailure] is an error raised by the database. *)
Inductive Error : Type :=
| NotFound
| BadRequest (code : string)
| TypeError
| StoreFailure.

Inductive Result (A : Type) : Type :=
| Ok (a : A)
| Err (e : Error).
Arguments Ok {A} a.
Arguments Err {A} e.

#[global] Instance Result_ret : MRet Result := fun A a => Ok a.
#[global] Instance Result_bind : MBind Result := fun A B f m =>
  match m with
  | Ok a => f a
  | Err e => Err e
  end.

(** The value of a fulfilled result, forgetting which error rejected it. *)
Definition fulfilled {A} (r : Result A) : option A :=
  match r with
  | Ok a => Some a
  | Err _ => None
  end.

(** ** The posting journal controller *)

Module Journal.

(** *** The database as the controller sees it *)

(** Tables are lists of rows in storage order.  Only the columns the
    controller's statements mention matter. *)
Record Store : Type := {
  posting_journal : list Row;
  general_ledger : list Row;
  transaction_history : list Row;
  project : list Row;
  period : list Row;
  account : list Row;
  user : list Row;
  currency : list Row;
  enterprise : list Row;
  entity_map : list Row;
  document_map : list Row
}.

(** Column read: a missing column is SQL [NULL]. *)
Definition col (r : Row) (k : string) : JsVal := default JNull (r !! k).

(** SQL [a = b] as a [WHERE]/[ON] condition: true only for two non-NULL
    values of the same kind that are equal.  MySQL's implicit casts between
    kinds and its collations are outside the model. *)
Definition sqlEq (a b : JsVal) : bool :=
  match a, b with
  | JNum x, JNum y => Qeq_bool x y
  | JStr s, JStr t => String.eqb s t
  | JBool x, JBool y => Bool.eqb x y
  | JDate (Some s), JDate (Some t) => Z.eqb s t
  | _, _ => false
  end.

(** SQL [a < b] for [ORDER BY]: [NULL] sorts lowest. *)
Definition sqlLt (a b : JsVal) : bool :=
  match a, b with
  | JNull, JNull => false
  | JNull, _ => true
  | JNum x, JNum y => negb (Qle_bool y x)
  | JStr s, JStr t => String.ltb s t
  | JDate (Some s), JDate (Some t) => Z.ltb s t
  | _, _ => false
  end.

(** [JOIN t ON cond]: the rows of [t] matching the condition. *)
Definition innerJoin (t : list Row) (on : Row -> bool) : list Row :=
  List.filter on t.

(** [LEFT JOIN t ON cond]: as [innerJoin], or one all-NULL row. *)
Definition leftJoin (t : list Row) (on : Row -> bool) : list Row :=
  match List.filter on t with
  | [] => [∅]
  | ms => ms
  end.

(** [ORDER BY trans_date DESC], as a stable insertion sort (MySQL leaves
    the order of ties open). *)
Fixpoint insertDesc (x : Row) (l : list Row) : list Row :=
  match l with
  | [] => [x]
  | y :: l' =>
      if sqlLt (col x "trans_date") (col y "trans_date")
      then y :: insertDesc x l'
      else x :: y :: l'
  end.

Definition orderByTransDateDesc (l : list Row) : list Row :=
  foldr insertDesc [] l.

(** The [SELECT] list of [buildTransactionQuery]: the journal columns, the
    [posted] literal (MySQL returns [true]/[false] as 1/0) and the display
    columns of the joined tables. *)
Definition selectColumns (posted : bool) (p pro per a u c em dm1 dm2 : Row) : Row :=
  list_to_map
    [("uuid", col p "uuid"); ("posted", JNum (if posted then 1 else 0)%Q);
     ("project_id", col p "project_id"); ("fiscal_year_id", col p "fiscal_year_id");
     ("period_id", col p "period_id"); ("trans_id", col p "trans_id");
     ("trans_date", col p "trans_date"); ("record_uuid", col p "record_uuid");
     ("hrRecord", col dm1 "text"); ("description", col p "description");
     ("account_id", col p "account_id"); ("debit", col p "debit");
     ("credit", col p "credit"); ("debit_equiv", col p "debit_equiv");
     ("credit_equiv", col p "credit_equiv"); ("currency_id", col p "currency_id");
     ("currencyName", col c "name"); ("entity_uuid", col p "entity_uuid");
     ("hrEntity", col em "text"); ("reference_uuid", col p "reference_uuid");
     ("hrReference", col dm2 "text"); ("comment", col p "comment");
     ("origin_id", col p "origin_id"); ("user_id", col p "user_id");
     ("cc_id", col p "cc_id"); ("pc_id", col p "pc_id"); ("abbr", col pro "abbr");
     ("project_name", col pro "name"); ("period_start", col per "start_date");
     ("period_end", col per "end_date"); ("account_number", col a "number");
     ("account_label", col a "label"); ("display_name", col u "display_name")].

(** [buildTransactionQuery(options, posted)], evaluated, for the options
    [lookupTransaction] builds: only [record_uuid] is set, so of all the
    filters only [p.record_uuid = ?] applies. *)
Definition buildTransactionQuery (st : Store) (record_uuid : string) (posted : bool)
  : list Row :=
  let table := if posted then general_ledger st else posting_journal st in
  p ← table;
  pro ← innerJoin (project st) (fun r => sqlEq (col r "id") (col p "project_id"));
  per ← innerJoin (period st) (fun r => sqlEq (col r "id") (col p "period_id"));
  a ← innerJoin (account st) (fun r => sqlEq (col r "id") (col p "account_id"));
  u ← innerJoin (user st) (fun r => sqlEq (col r "id") (col p "user_id"));
  c ← innerJoin (currency st) (fun r => sqlEq (col r "id") (col p "currency_id"));
  em ← leftJoin (entity_map st) (fun r => sqlEq (col r "uuid") (col p "entity_uuid"));
  dm1 ← leftJoin (document_map st) (fun r => sqlEq (col r "uuid") (col p "record_uuid"));
  dm2 ← leftJoin (document_map st) (fun r => sqlEq (col r "uuid") (col p "reference_uuid"));
  if sqlEq (col p "record_uuid") (JStr record_uuid)
  then [selectColumns posted p pro per a u c em dm1 dm2]
  else [].

(** [naiveTransactionSearch(options, includeNonPosted)] without a [limit]:
    the journal alone, or ledger [UNION ALL] journal, newest first. *)
Definition naiveTransactionSearch (st : Store) (record_uuid : string)
    (includeNonPosted : bool) : list Row :=
  if negb includeNonPosted
  then orderByTransDateDesc (buildTransactionQuery st record_uuid false)
  else
    let posted := buildTransactionQuery st record_uuid true in
    let nonPosted := buildTransactionQuery st record_uuid false in
    orderByTransDateDesc (posted ++ nonPosted).

(** [find(options)]; [includeNonPosted] is the already evaluated test
    [options.includeNonPosted && Boolean(Number(options.includeNonPosted))]. *)
Definition find (st : Store) (record_uuid : string) (includeNonPosted : bool)
  : list Row :=
  if includeNonPosted
  then naiveTransactionSearch st record_uuid true
  else naiveTransactionSearch st record_uuid false.

(** [lookupTransaction(recordUuid)]: a 404 if nothing matches. *)
Definition lookupTransaction (st : Store) (recordUuid : string) : Result (list Row) :=
  let result := find st recordUuid true in
  if (length result =? 0)%nat then Err NotFound else Ok result.

(** *** Promises over the database *)

(** A promise chain reads the database and, at the commit, replaces it. *)
Definition Promise (A : Type) : Type := Store -> Result A * Store.

#[global] Instance Promise_ret : MRet Promise := fun A a st => (Ok a, st).
#[global] Instance Promise_bind : MBind Promise := fun A B f m st =>
  match m st with
  | (Ok a, st') => f a st'
  | (Err e, st') => (Err e, st')
  end.

(** [throw] inside a [then] callback. *)
Definition throw {A} (e : Error) : Promise A := fun st => (Err e, st).

(** A query that only reads. *)
Definition resolved {A} (f : Store -> Result A) : Promise A := fun st => (f st, st).

(** *** The atomic unit *)

(** The four statements [editTransaction] queues, with their parameters. *)
Inductive Query : Type :=
| REMOVE_JOURNAL_ROW (uuid : JsVal)
| UPDATE_JOURNAL_ROW (row : Row) (uuid : JsVal)
| INSERT_JOURNAL_ROW (row : Row)
| UPDATE_TRANSACTION_HISTORY (row : Row).

(** Modelled from the spec: [db.bid] and [db.convert] of [lib/db], which is
    not part of the sources, switch an identifier between its canonical
    string and its binary form "at the storage boundary"; both forms are the
    same string here. *)
Definition bid (v : JsVal) : JsVal := v.

(** Modelled from the spec: [db.convert(row, keys)] of [lib/db] applies
    [db.bid] to the listed properties of [row]. *)
Definition convert (row : Row) (keys : list string) : Row := row.

(** How the driver escapes the object of a [SET ?]: [undefined] is [NULL]. *)
Definition escape (v : JsVal) : JsVal :=
  match v with
  | JUndefined => JNull
  | _ => v
  end.

Definition withJournal (st : Store) (rows : list Row) : Store :=
  {| posting_journal := rows;
     general_ledger := general_ledger st;
     transaction_history := transaction_history st;
     project := project st; period := period st; account := account st;
     user := user st; currency := currency st; enterprise := enterprise st;
     entity_map := entity_map st; document_map := document_map st |}.

Definition withHistory (st : Store) (rows : list Row) : Store :=
  {| posting_journal := posting_journal st;
     general_ledger := general_ledger st;
     transaction_history := rows;
     project := project st; period := period st; account := account st;
     user := user st; currency := currency st; enterprise := enterprise st;
     entity_map := entity_map st; document_map := document_map st |}.

Definition hasUuid (t : list Row) (uuid : JsVal) : bool :=
  existsb (fun r => sqlEq (col r "uuid") uuid) t.

(** The object bound to a [SET ?] has no property: the driver then writes
    [SET] with nothing after it, which the database refuses. *)
Definition noAssignment (row : Row) : bool :=
  match map_to_list row with
  | [] => true
  | _ => false
  end.

(** One statement against the store.  [uuid] is the primary key of both
    tables: inserting a duplicate is refused.  An update that assigns
    nothing is refused as malformed. *)
Definition runQuery (st : Store) (q : Query) : Result Store :=
  match q with
  | REMOVE_JOURNAL_ROW uuid =>
      Ok (withJournal st
            (List.filter (fun r => negb (sqlEq (col r "uuid") uuid)) (posting_journal st)))
  | UPDATE_JOURNAL_ROW row uuid =>
      if noAssignment row
      then Err StoreFailure
      else
        Ok (withJournal st
              ((fun r => if sqlEq (col r "uuid") uuid then (escape <$> row) ∪ r else r)
                 <$> posting_journal st))
  | INSERT_JOURNAL_ROW row =>
      if hasUuid (posting_journal st) (col (escape <$> row) "uuid")
      then Err StoreFailure
      else Ok (withJournal st (posting_journal st ++ [escape <$> row]))
  | UPDATE_TRANSACTION_HISTORY row =>
      if hasUuid (transaction_history st) (col (escape <$> row) "uuid")
      then Err StoreFailure
      else Ok (withHistory st (transaction_history st ++ [escape <$> row]))
  end.

Fixpoint runQueries (st : Store) (queries : list Query) : Result Store :=
  match queries with
  | [] => Ok st
  | q :: rest => st' ← runQuery st q; runQueries st' rest
  end.

(** Modelled from the spec: [db.transaction()] of [lib/db], which is not part
    of the sources.  [addQuery] only queues a statement; [execute] runs the
    queue as one atomic unit: "if the atomic unit fails for any reason, none
    of the mutations are visible". *)
Definition execute (transaction : list Query) : Promise unit := fun st =>
  match runQueries st transaction with
  | Ok st' => (Ok (), st')
  | Err e => (Err e, st)
  end.

(** *** What the controller takes from its environment *)

Class Platform : Type := {
  (** the engine's [Date.parse] *)
  Date_parse : string -> option Z;
  (** the stored function [GetExchangeRate(enterprise, currency, date)] *)
  GetExchangeRate : JsVal -> JsVal -> JsVal -> JsVal;
  (** [FiscalService.lookupFiscalYearByDate(date)], resolving to an object
      with [fiscal_year_id], [id], [locked] and [label] *)
  lookupFiscalYearByDate : JsVal -> Result Row
}.

(** A request [PUT /journal/:record_uuid].  [changed] lists the properties of
    the [changed] object, key and value, in iteration order. *)
Record Request : Type := {
  record_uuid : string;
  added : list Row;
  changed : list (string * Row);
  removed : list Row;
  user_id : JsVal
}.

(** What is not determined by the request and the store: the order in which
    the lookups of each batch settle, and the identifier [uuid()] draws. *)
Record Oracle : Type := {
  addedOrder : list nat;
  changedOrder : list nat;
  historyUuid : string
}.

(** *** transformColumns *)

(** The four lookups, each with the values bound to its placeholders. *)
Inductive Lookup : Type :=
| ACCOUNT_NUMBER_QUERY (number : JsVal)
| ENTITY_QUERY (text : JsVal)
| REFERENCE_QUERY (text : JsVal)
| EXCHANGE_RATE_QUERY (amount currencyId currencyId' transDate projectId : JsVal).

(** The five completion handlers pushed on [assignments]; which row each
    one closes over is recorded next to it, in [Pending]. *)
Inductive Assignment : Type :=
| SetAccountId
| SetEntityUuid
| SetReferenceUuid
| SetDebit
| SetCredit.

#[global] Instance Assignment_eq_dec : EqDecision Assignment.
Proof. solve_decision. Defined.

(** One index of the parallel arrays [databaseRequests], [databaseValues]
    and [assignments]; [target] is the position, in the batch, of the row
    object the handler closes over. *)
Record Pending : Type := {
  request : Lookup;
  target : nat;
  assignment : Assignment
}.

(** SQL [a * b] on two numbers, and [NULL] when an operand is [NULL].
    MySQL casts an operand of another kind (a numeric string, a boolean) to
    a number first; these casts are outside the model, which answers
    [NULL] there too: the statements about conversions take amounts that
    are numbers. *)
Definition sqlTimes (a b : JsVal) : JsVal :=
  match a, b with
  | JNum x, JNum y => JNum (Qred (x * y))
  | _, _ => JNull
  end.

Section Transform.
Context `{Platform}.

(** [db.exec(request, values)] for the four lookups. *)
Definition exec (st : Store) (q : Lookup) : list Row :=
  match q with
  | ACCOUNT_NUMBER_QUERY number =>
      (fun r => {[ "id" := col r "id" ]}) <$>
        List.filter (fun r => sqlEq (col r "number") number) (account st)
  | ENTITY_QUERY text =>
      (fun r => {[ "uuid" := col r "uuid" ]}) <$>
        List.filter (fun r => sqlEq (col r "text") text) (entity_map st)
  | REFERENCE_QUERY text =>
      (fun r => {[ "uuid" := col r "uuid" ]}) <$>
        List.filter (fun r => sqlEq (col r "text") text) (document_map st)
  | EXCHANGE_RATE_QUERY amount currencyId currencyId' transDate projectId =>
      e ← enterprise st;
      p ← innerJoin (project st) (fun p => sqlEq (col e "id") (col p "enterprise_id"));
      if sqlEq (col p "id") projectId
      then [ {[ "amount" :=
                 sqlTimes amount
                   (if sqlEq (col e "currency_id") currencyId
                    then JNum 1
                    else GetExchangeRate (col e "id") currencyId' transDate) ]} ]
      else []
  end.

(** The body of a completion handler, run on the lookup's result against
    the row it closes over. *)
Definition assign (a : Assignment) (result : list Row) (row : Row) : Result Row :=
  match a with
  | SetAccountId =>
      match result with
      | [] => Err (BadRequest "POSTING_JOURNAL.ERRORS.EDIT_INVALID_ACCOUNT")
      | r0 :: _ => Ok (<["account_id" := prop r0 "id"]> row)
      end
  | SetEntityUuid =>
      match result with
      | [] => Err (BadRequest "POSTING_JOURNAL.ERRORS.EDIT_INVALID_ENTITY")
      | r0 :: _ => Ok (<["entity_uuid" := prop r0 "uuid"]> row)
      end
  | SetReferenceUuid =>
      match result with
      | [] => Err (BadRequest "POSTING_JOURNAL.ERRORS.EDIT_INVALID_REFERENCE")
      | r0 :: _ => Ok (<["reference_uuid" := prop r0 "uuid"]> row)
      end
  | SetDebit =>
      match result with
      | [] => Err TypeError
      | r0 :: _ =>
          let amount := prop r0 "amount" in
          if negb (truthy amount)
          then Err (BadRequest "POSTING_JOURNAL.ERRORS.MISSING_EXCHANGE_RATE")
          else Ok (<["debit" := amount]> row)
      end
  | SetCredit =>
      match result with
      | [] => Err TypeError
      | r0 :: _ =>
          let amount := prop r0 "amount" in
          if negb (truthy amount)
          then Err (BadRequest "POSTING_JOURNAL.ERRORS.MISSING_EXCHANGE_RATE")
          else Ok (<["credit" := amount]> row)
      end
  end.

(** The callback of [_.each(rows, ...)] on the row at position [index]:
    the row as the loop leaves it, and what it pushed on the arrays. *)
Definition eachRow (newRecord : bool) (first setFiscalData : Row)
    (index : nat) (row : Row) : Result (Row * list Pending) :=
  let projectId := prop first "project_id" in
  let transactionDate := prop first "trans_date" in
  let currencyId := prop first "currency_id" in
  if newRecord && negb (truthy (prop row "account_number"))
  then Err (BadRequest "POSTING_JOURNAL.ERRORS.EDIT_INVALID_ACCOUNT")
  else
    let '(row, pushed) :=
      if truthy (prop row "account_number")
      then (delete "account_number" row,
            [ {| request := ACCOUNT_NUMBER_QUERY (prop row "account_number");
                 target := index; assignment := SetAccountId |} ])
      else (row, []) in
    let row := if truthy (prop row "account_name") then delete "account_name" row else row in
    let row := if truthy (prop row "account_label") then delete "account_label" row else row in
    let '(row, pushed) :=
      if truthy (prop row "hrEntity")
      then (delete "hrEntity" row,
            pushed ++ [ {| request := ENTITY_QUERY (prop row "hrEntity");
                           target := index; assignment := SetEntityUuid |} ])
      else (row, pushed) in
    let '(row, pushed) :=
      if truthy (prop row "hrReference")
      then (delete "hrReference" row,
            pushed ++ [ {| request := REFERENCE_QUERY (prop row "hrReference");
                           target := index; assignment := SetReferenceUuid |} ])
      else (row, pushed) in
    let pushed :=
      if truthy (prop row "debit_equiv")
      then
        let transDate :=
          newDate Date_parse
            (if truthy (prop row "trans_date") then prop row "trans_date" else transactionDate) in
        pushed ++ [ {| request := EXCHANGE_RATE_QUERY (prop row "debit_equiv")
                                    currencyId currencyId transDate projectId;
                       target := index; assignment := SetDebit |} ]
      else pushed in
    let pushed :=
      if truthy (prop row "credit_equiv")
      then
        let transDate :=
          newDate Date_parse
            (if truthy (prop row "trans_date") then prop row "trans_date" else transactionDate) in
        pushed ++ [ {| request := EXCHANGE_RATE_QUERY (prop row "credit_equiv")
                                    currencyId currencyId transDate projectId;
                       target := index; assignment := SetCredit |} ]
      else pushed in
    let row :=
      if truthy (prop row "trans_date")
      then
        <["period_id" := prop setFiscalData "id"]>
          (<["fiscal_year_id" := prop setFiscalData "fiscal_year_id"]>
             (<["trans_date" := newDate Date_parse (prop row "trans_date")]> row))
      else row in
    Ok (row, pushed).

(** The whole [_.each] loop, from position [index] on: the rows after the
    loop and the arrays it filled.  A [throw] in the callback ends it. *)
Fixpoint each (newRecord : bool) (first setFiscalData : Row)
    (index : nat) (rows : list Row) : Result (list Row * list Pending) :=
  match rows with
  | [] => Ok ([], [])
  | row :: rest =>
      '(row', pushed) ← eachRow newRecord first setFiscalData index row;
      '(rest', pushed') ← each newRecord first setFiscalData (S index) rest;
      Ok (row' :: rest', pushed ++ pushed')
  end.

(** One promise of [promises] settling: its lookup's result goes through
    its handler, which mutates the row it closes over or throws. *)
Definition complete (st : Store) (job : Pending) (rows : list Row) : Result (list Row) :=
  match rows !! target job with
  | None => Err TypeError
  | Some row =>
      row' ← assign (assignment job) (exec st (request job)) row;
      Ok (<[target job := row']> rows)
  end.

(** [q.all(promises)]: the promises settle one at a time in an order the
    controller does not choose.  [picks] is that choice: at each step its
    head, modulo the number of promises still pending, says which of them
    settles next.  The first rejection rejects the whole. *)
Fixpoint settleN (n : nat) (st : Store) (picks : list nat)
    (pending : list Pending) (rows : list Row) : Result (list Row) :=
  match n with
  | O => Ok rows
  | S n' =>
      let k := (hd O picks `mod` length pending)%nat in
      match pending !! k with
      | None => Ok rows
      | Some job =>
          rows' ← complete st job rows;
          settleN n' st (tl picks) (delete k pending) rows'
      end
  end.

Definition settle (st : Store) (picks : list nat)
    (pending : list Pending) (rows : list Row) : Result (list Row) :=
  settleN (length pending) st picks pending rows.

(** [transformColumns(rows, newRecord, transactionToEdit, setFiscalData)]. *)
Definition transformColumns (st : Store) (picks : list nat) (rows : list Row)
    (newRecord : bool) (transactionToEdit : list Row) (setFiscalData : Row)
  : Result (list Row) :=
  match transactionToEdit with
  | [] => Err TypeError
  | first :: _ =>
      '(rows', pending) ← each newRecord first setFiscalData O rows;
      settle st picks pending rows'
  end.

End Transform.

(** *** getTransactionDate and editTransaction *)

(** [getTransactionDate(changedRows, oldRows)]: the values of the [changed]
    object after the old rows, those with a truthy [trans_date] kept, and
    the last date popped off ([undefined] if there is none). *)
Definition getTransactionDate (changedRows : list (string * Row)) (oldRows : list Row)
  : JsVal :=
  let changes := changedRows.*2 in
  let rows := oldRows ++ changes in
  List.last
    ((fun row => prop row "trans_date") <$>
       List.filter (fun row => truthy (prop row "trans_date")) rows)
    JUndefined.

Section Edit.
Context `{Platform}.

(** The chain of [editTransaction] from its second [then] on: the lock
    check, the two transforms, the queue and the commit.  [transaction]
    is the queue as built so far, [transactionToEdit] the loaded rows. *)
Definition editWithFiscalYear (req : Request) (o : Oracle) (transaction : list Query)
    (transactionToEdit : list Row) (fiscalYear : Row) : Promise (list Row) :=
  if truthy (prop fiscalYear "locked")
  then throw (BadRequest "POSTING_JOURNAL.ERRORS.CLOSED_FISCAL_YEAR")
  else
    result ← resolved (fun st =>
      transformColumns st (addedOrder o) (added req) true transactionToEdit fiscalYear);
    let transaction := transaction ++
      ((fun row =>
          INSERT_JOURNAL_ROW
            (convert row ["uuid"; "record_uuid"; "entity_uuid"; "reference_uuid"]))
         <$> result) in
    result ← resolved (fun st =>
      transformColumns st (changedOrder o) (changed req).*2 false transactionToEdit fiscalYear);
    let transaction := transaction ++
      ((fun '(uid, row) =>
          UPDATE_JOURNAL_ROW (convert row ["entity_uuid"]) (bid (JStr uid)))
         <$> zip (changed req).*1 result) in
    match transactionToEdit with
    | [] => throw TypeError
    | row :: _ =>
        let transactionHistory : Row :=
          {[ "uuid" := bid (JStr (historyUuid o));
             "record_uuid" := bid (prop row "record_uuid");
             "user_id" := user_id req ]} in
        let transaction := transaction ++ [UPDATE_TRANSACTION_HISTORY transactionHistory] in
        execute transaction;;
        resolved (fun st => lookupTransaction st (record_uuid req))
    end.

(** [editTransaction(req, res, next)]: the outcome handed to [res] or to
    [next], and the database afterwards. *)
Definition editTransaction (req : Request) (o : Oracle) : Promise (list Row) :=
  let rowsChanged := changed req in
  let rowsAdded := added req in
  let rowsRemoved := removed req in
  let transaction :=
    (fun row => REMOVE_JOURNAL_ROW (bid (prop row "uuid"))) <$> rowsRemoved in
  transactionToEdit ← resolved (fun st => lookupTransaction st (record_uuid req));
  match transactionToEdit with
  | [] => throw TypeError
  | first :: _ =>
      let posted := prop first "posted" in
      if truthy posted
      then throw (BadRequest "POSTING_JOURNAL.ERRORS.TRANSACTION_ALREADY_POSTED")
      else
        let allRowsRemoved :=
          (length rowsAdded =? 0)%nat
          && (length transactionToEdit <=? length rowsRemoved)%nat in
        let singleRow :=
          (Z.of_nat (length rowsAdded) - Z.of_nat (length rowsRemoved)
           + Z.of_nat (length transactionToEdit) =? 1) in
        if allRowsRemoved || singleRow
        then throw (BadRequest "POSTING_JOURNAL.ERRORS.TRANSACTION_MUST_CONTAIN_ROWS")
        else
          let transDate := getTransactionDate rowsChanged transactionToEdit in
          fiscalYear ← resolved (fun _ => lookupFiscalYearByDate transDate);
          editWithFiscalYear req o transaction transactionToEdit fiscalYear
  end.

End Edit.

End Journal.

(** ** Account opening balances ([accounts/extra.js]) *)

Module AccountExtras.

(** *** Tables *)

(** Stored dates and the JavaScript [Date] parameter are time values in
    milliseconds (UTC).  Stored amounts are [DECIMAL]s: exact rationals. *)
Record fiscal_year : Type := {
  fy_id : Z;
  fy_start_date : Z;
  fy_end_date : Z
}.

(** Period 0 of a fiscal year "does not have a valid end date entry": its
    dates are [NULL]. *)
Record period : Type := {
  p_id : Z;
  p_fiscal_year_id : Z;
  p_number : Z;
  p_start_date : option Z;
  p_end_date : option Z
}.

Record period_total : Type := {
  pt_account_id : Z;
  pt_period_id : Z;
  pt_debit : Q;
  pt_credit : Q
}.

Record general_ledger : Type := {
  gl_account_id : Z;
  gl_period_id : Z;
  gl_trans_date : Z;
  gl_debit : Q;
  gl_credit : Q;
  gl_debit_equiv : Q;
  gl_credit_equiv : Q
}.

Record Database : Type := {
  fiscal_years : list fiscal_year;
  periods : list period;
  period_totals : list period_total;
  ledger : list general_ledger
}.

(** *** SQL expressions *)

(** [DATE(x)]: the time value of the midnight that starts [x]'s day. *)
Definition DATE (t : Z) : Z := t / 86400000 * 86400000.

(** A condition is true, false or, with a [NULL] operand, unknown. *)
Definition sqlCmp (cmp : Z -> Z -> bool) (a b : option Z) : option bool :=
  match a, b with
  | Some x, Some y => Some (cmp x y)
  | _, _ => None
  end.

Definition sqlOr (a b : option bool) : option bool :=
  match a, b with
  | Some true, _ | _, Some true => Some true
  | Some false, Some false => Some false
  | _, _ => None
  end.

Definition sqlAnd (a b : option bool) : option bool :=
  match a, b with
  | Some false, _ | _, Some false => Some false
  | Some true, Some true => Some true
  | _, _ => None
  end.

(** [WHERE] keeps a row only when its condition is true. *)
Definition isTrue (c : option bool) : bool := default false c.

(** [SUM] is [NULL] over no rows; [IFNULL(x, 0)] then makes it zero. *)
Definition SUM (l : list Q) : option Q :=
  match l with
  | [] => None
  | _ => Some (Qred (foldr Qplus 0%Q l))
  end.

Definition IFNULL (x : option Q) (d : Q) : Q := default d x.

(** The comparison a [dateOperator] string stands for once spliced into
    the statement. *)
Definition dateOperatorCmp (dateOperator : string) : Z -> Z -> bool :=
  if String.eqb dateOperator "<=" then Z.leb
  else if String.eqb dateOperator "<" then Z.ltb
  else fun _ _ => false.

(** Modelled from the spec: [db.one] of [lib/db], which is not part of the
    sources, resolves to the row a single-row query returns; the resolver
    "fails with [NotFound]" when there is none (the only failure the spec
    names). *)
Definition one {A} (rows : list A) : Result A :=
  match rows with
  | [] => Err NotFound
  | r :: _ => Ok r
  end.

(** *** The queries *)

(** [getFiscalYearForDate(date)] *)
Definition getFiscalYearForDate (db : Database) (date : Z) : Result Z :=
  data ← one (List.filter
                (fun f => (fy_start_date f <=? DATE date) && (DATE date <=? fy_end_date f))
                (fiscal_years db));
  Ok (fy_id data).

(** [getPeriodForDate(date)] *)
Definition getPeriodForDate (db : Database) (date : Z) : Result Z :=
  data ← one (List.filter
                (fun p => isTrue (sqlAnd (sqlCmp Z.leb (p_start_date p) (Some (DATE date)))
                                         (sqlCmp Z.leb (Some (DATE date)) (p_end_date p))))
                (periods db));
  Ok (p_id data).

(** The three columns every balance query selects, as the database
    computes them: exact decimals. *)
Record Balance : Type := {
  debit : Q;
  credit : Q;
  balance : Q
}.

(** [period_total JOIN period ON period.id = period_total.period_id] *)
Definition joinPeriod (db : Database) : list (period_total * period) :=
  pt ← period_totals db;
  p ← List.filter (fun p => p_id p =? pt_period_id pt) (periods db);
  [(pt, p)].

(** [getPeriodAccountBalanceUntilDate(accountId, date, fiscalYearId)] *)
Definition getPeriodAccountBalanceUntilDate (db : Database)
    (accountId date fiscalYearId : Z) : Result Balance :=
  let periodCondition (p : period) :=
    sqlOr (Some (p_number p =? 0))
          (sqlCmp Z.ltb (DATE <$> p_end_date p) (Some (DATE date))) in
  let rows :=
    List.filter
      (fun '(pt, p) =>
         isTrue (sqlAnd (sqlAnd (Some (pt_account_id pt =? accountId)) (periodCondition p))
                        (Some (p_fiscal_year_id p =? fiscalYearId))))
      (joinPeriod db) in
  one [ {| debit := IFNULL (SUM ((fun '(pt, _) => pt_debit pt) <$> rows)) 0;
           credit := IFNULL (SUM ((fun '(pt, _) => pt_credit pt) <$> rows)) 0;
           balance := IFNULL (SUM ((fun '(pt, _) => pt_debit pt - pt_credit pt)%Q <$> rows)) 0 |} ].

(** [getComputedAccountBalanceUntilDate(accountId, date, periodId, includeMaxDate)] *)
Definition getComputedAccountBalanceUntilDate (db : Database)
    (accountId date periodId : Z) (includeMaxDate : bool) : Result Balance :=
  let dateOperator := if includeMaxDate then "<=" else "<" in
  let rows :=
    List.filter
      (fun l =>
         (gl_account_id l =? accountId)
         && dateOperatorCmp dateOperator (DATE (gl_trans_date l)) (DATE date)
         && (gl_period_id l =? periodId))
      (ledger db) in
  one [ {| debit := IFNULL (SUM (gl_debit <$> rows)) 0;
           credit := IFNULL (SUM (gl_credit <$> rows)) 0;
           balance := IFNULL (SUM ((fun l => gl_debit_equiv l - gl_credit_equiv l)%Q <$> rows)) 0 |} ].

(** *** JavaScript Numbers *)

(** A Number is an IEEE 754 binary64 value; it is represented here by the
    rational it holds exactly.  Infinities, NaN and the sign of zero are
    not represented: no sum of [DECIMAL] columns comes near the largest
    finite value. *)

(** [2 ^ e] for any integer [e]. *)
Definition pow2 (e : Z) : Q :=
  if 0 <=? e then inject_Z (2 ^ e) else 1 # Z.to_pos (2 ^ (- e)).

(** The integer [l] with [2 ^ l <= a < 2 ^ (l + 1)], for [a > 0]. *)
Definition log2Floor (a : Q) : Z :=
  let l := Z.log2 (Qnum a) - Z.log2 (Zpos (Qden a)) in
  if Qle_bool (pow2 l) a then l else l - 1.

(** The integer nearest to [x], the even one of two that are equally
    near. *)
Definition roundHalfEven (x : Q) : Z :=
  let f := Qfloor x in
  match (x - inject_Z f ?= 1 # 2)%Q with
  | Lt => f
  | Gt => f + 1
  | Eq => if Z.even f then f else f + 1
  end.

(** The Number nearest to [q] (round to nearest, ties to even; 53 bits of
    precision, gradual underflow below [2 ^ -1022]): what the driver makes
    of a [DECIMAL] it hands to JavaScript, and what an arithmetic
    operation makes of its exact result.  The fraction is reduced first,
    so that equal rationals give the same Number. *)
Definition double (q : Q) : Q :=
  let q := Qred q in
  if Qeq_bool q 0 then 0%Q
  else
    let a := Qabs q in
    let e := Z.max (log2Floor a - 52) (-1074) in
    let m := roundHalfEven (a / pow2 e) in
    let r := Qred (inject_Z m * pow2 e) in
    if Qle_bool 0 q then r else (- r)%Q.

(** [x + y] on Numbers. *)
Definition jsPlus (x y : Q) : Q := double (x + y).

(** *** Number.prototype.toFixed *)

Definition digits (n : Z) : string := NilZero.string_of_uint (N.to_uint (Z.to_N n)).

(** [x.toFixed(4)] for the Number holding [x], [|x| < 1e21]: the integer
    nearest to [|x| * 10^4], the larger one on a tie, with a point before
    its last four digits. *)
Definition toFixed4 (x : Q) : string :=
  let n := Qfloor (Qabs x * 10000 + (1 # 2)) in
  ((if Qle_bool 0 x then "" else "-")
   ++ digits (n / 10000) ++ "."
   ++ String.substring 1 4 (digits (10000 + n mod 10000)))%string.

(** The object [getOpeningBalanceForDate] resolves to. *)
Record OpeningBalance : Type := {
  ob_balance : string;
  ob_credit : string;
  ob_debit : string
}.

(** [getOpeningBalanceForDate(accountId, date, includeMaxDate = true)].
    The columns of the two result rows reach JavaScript as Numbers,
    [double], and are added as such. *)
Definition getOpeningBalanceForDate (db : Database) (accountId date : Z)
    (includeMaxDate : bool) : Result OpeningBalance :=
  let balance0 := 0%Q in
  let credit0 := 0%Q in
  let debit0 := 0%Q in
  fiscalYearId ← getFiscalYearForDate db date;
  previousPeriodClosing ← getPeriodAccountBalanceUntilDate db accountId date fiscalYearId;
  let balance1 := jsPlus balance0 (double (balance previousPeriodClosing)) in
  let credit1 := jsPlus credit0 (double (credit previousPeriodClosing)) in
  let debit1 := jsPlus debit0 (double (debit previousPeriodClosing)) in
  periodId ← getPeriodForDate db date;
  runningPeriod ← getComputedAccountBalanceUntilDate db accountId date periodId includeMaxDate;
  Ok {| ob_balance := toFixed4 (jsPlus balance1 (double (balance runningPeriod)));
        ob_credit := toFixed4 (jsPlus credit1 (double (credit runningPeriod)));
        ob_debit := toFixed4 (jsPlus debit1 (double (debit runningPeriod))) |}.

End AccountExtras.

(** ** The other endpoints of the journal controller *)

Module JournalQueries.
Import Journal.

(** *** Full transactions *)

(** [a === b] on the values a result row holds.  Two [Date]s are [===]
    only when they are one object, which no two values of a result set
    are. *)
Definition strictEq (a b : JsVal) : bool :=
  match a, b with
  | JUndefined, JUndefined => true
  | JNull, JNull => true
  | JBool x, JBool y => Bool.eqb x y
  | JNum x, JNum y => Qeq_bool x y
  | JStr s, JStr t => String.eqb s t
  | _, _ => false
  end.

(** [arr.indexOf(value) === idx] for the [value] at position [idx] of
    [arr]: no earlier position holds a value [===] to it. *)
Definition firstOccurrence (arr : list JsVal) (idx : nat) (value : JsVal) : bool :=
  negb (existsb (fun earlier => strictEq earlier value) (take idx arr)).

(** [arr.filter((value, idx, arr) => arr.indexOf(value) === idx)] *)
Definition unique (arr : list JsVal) : list JsVal :=
  omap id (imap (fun idx value =>
                   if firstOccurrence arr idx value then Some value else None) arr).

(** [buildTransactionQuery(options, posted)], evaluated, for the options
    [postProcessFullTransactions] builds: only [record_uuids] is set to
    filter on, so of all the filters only [p.record_uuid IN (?)]
    applies. *)
Definition buildTransactionQuery (st : Store) (record_uuids : list JsVal) (posted : bool)
  : list Row :=
  let record_uuids := bid <$> record_uuids in
  let table := if posted then general_ledger st else posting_journal st in
  p ← table;
  pro ← innerJoin (project st) (fun r => sqlEq (col r "id") (col p "project_id"));
  per ← innerJoin (period st) (fun r => sqlEq (col r "id") (col p "period_id"));
  a ← innerJoin (account st) (fun r => sqlEq (col r "id") (col p "account_id"));
  u ← innerJoin (user st) (fun r => sqlEq (col r "id") (col p "user_id"));
  c ← innerJoin (currency st) (fun r => sqlEq (col r "id") (col p "currency_id"));
  em ← leftJoin (entity_map st) (fun r => sqlEq (col r "uuid") (col p "entity_uuid"));
  dm1 ← leftJoin (document_map st) (fun r => sqlEq (col r "uuid") (col p "record_uuid"));
  dm2 ← leftJoin (document_map st) (fun r => sqlEq (col r "uuid") (col p "reference_uuid"));
  if existsb (fun v => sqlEq (col p "record_uuid") v) record_uuids
  then [selectColumns posted p pro per a u c em dm1 dm2]
  else [].

(** [naiveTransactionSearch(options, includeNonPosted)] for these options,
    which set no [limit]. *)
Definition naiveTransactionSearch (st : Store) (record_uuids : list JsVal)
    (includeNonPosted : bool) : list Row :=
  if negb includeNonPosted
  then orderByTransDateDesc (buildTransactionQuery st record_uuids false)
  else
    let posted := buildTransactionQuery st record_uuids true in
    let nonPosted := buildTransactionQuery st record_uuids false in
    orderByTransDateDesc (posted ++ nonPosted).

(** [find(options)] for these options; [includeNonPosted] is the already
    evaluated test
    [options.includeNonPosted && Boolean(Number(options.includeNonPosted))]. *)
Definition find (st : Store) (record_uuids : list JsVal) (includeNonPosted : bool)
  : list Row :=
  if includeNonPosted
  then naiveTransactionSearch st record_uuids true
  else naiveTransactionSearch st record_uuids false.

(** [postProcessFullTransactions(rows, includeNonPosted)] *)
Definition postProcessFullTransactions (st : Store) (rows : list Row)
    (includeNonPosted : bool) : list Row :=
  let records := unique ((fun row => prop row "record_uuid") <$> rows) in
  find st records includeNonPosted.

(** [list(req, res, next)], here [listJournal]: the rows sent with status
    200.  The filters of
    [req.query] are parsed by [lib/filter], which is not part of the
    sources: what [find(req.query)] resolves to is the parameter
    [journalResults].  [includeNonPosted] and [showFullTransactions] are
    the evaluated tests on the options of these names. *)
Definition listJournal (st : Store) (journalResults : list Row)
    (includeNonPosted showFullTransactions : bool) : list Row :=
  let hasEmptyResults := (length journalResults =? 0)%nat in
  let hasFullTransactions := showFullTransactions in
  if negb hasEmptyResults && hasFullTransactions
  then postProcessFullTransactions st journalResults includeNonPosted
  else journalResults.

(** *** The edit history *)

(** [getTransactionEditHistory(req, res, next)]: the rows sent as JSON for
    [req.params.uuid].  The statement has no [ORDER BY]: the database may
    return these rows in any order, of which the list is one. *)
Definition getTransactionEditHistory (st : Store) (uuid : string) : list Row :=
  h ← transaction_history st;
  u ← innerJoin (user st) (fun u => sqlEq (col u "id") (col h "user_id"));
  if sqlEq (col h "record_uuid") (bid (JStr uuid))
  then [ {[ "display_name" := col u "display_name"; "timestamp" := col h "timestamp" ]} ]
  else [].

(** *** Comments *)

Definition withLedger (st : Store) (rows : list Row) : Store :=
  {| posting_journal := posting_journal st;
     general_ledger := rows;
     transaction_history := transaction_history st;
     project := project st; period := period st; account := account st;
     user := user st; currency := currency st; enterprise := enterprise st;
     entity_map := entity_map st; document_map := document_map st |}.

(** [UPDATE t SET comment = ? WHERE uuid IN ?] on the rows of a table. *)
Definition updateComment (comment : JsVal) (uids : list JsVal) (t : list Row) : list Row :=
  (fun r =>
     if existsb (fun uid => sqlEq (col r "uuid") uid) uids
     then <["comment" := escape comment]> r
     else r) <$> t.

(** [commentPostingJournal(req, res, next)] for the [uuids] and the
    [comment] of [req.body.params].  The two updates write different
    tables, so the order in which they settle does not show.  An empty
    array is escaped to [()], and [IN ()] is refused by the database. *)
Definition commentPostingJournal (uuids : list JsVal) (comment : JsVal) : Promise unit :=
  fun st =>
    let uids := bid <$> uuids in
    match uids with
    | [] => (Err StoreFailure, st)
    | _ =>
        (Ok (),
         withLedger
           (withJournal st (updateComment comment uids (posting_journal st)))
           (updateComment comment uids (general_ledger st)))
    end.

End JournalQueries.

(** ** Vocabulary for the statements about the journal controller *)

Module JournalSpec.
Import Journal.

(** *** The edit as a whole *)

(** The deletions queued before anything is looked up. *)
Definition removals (req : Request) : list Query :=
  (fun row => REMOVE_JOURNAL_ROW (bid (prop row "uuid"))) <$> removed req.

(** The whole queue, once both batches are transformed. *)
Definition queued (req : Request) (o : Oracle) (first : Row)
    (result result' : list Row) : list Query :=
  ((removals req
    ++ ((fun row =>
           INSERT_JOURNAL_ROW
             (convert row ["uuid"; "record_uuid"; "entity_uuid"; "reference_uuid"]))
          <$> result))
   ++ ((fun '(uid, row) =>
          UPDATE_JOURNAL_ROW (convert row ["entity_uuid"]) (bid (JStr uid)))
         <$> zip (changed req).*1 result'))
  ++ [UPDATE_TRANSACTION_HISTORY
        {[ "uuid" := bid (JStr (historyUuid o));
           "record_uuid" := bid (prop first "record_uuid");
           "user_id" := user_id req ]}].

(** An outcome is a success. *)
Definition succeeded {A} (r : Result A) : bool :=
  match r with
  | Ok _ => true
  | Err _ => false
  end.

(** The rows of one of the two batches of an edit, the added rows
    ([newRecord]) or the changed ones, and the order its lookups are made
    to settle in. *)
Definition batchRows (req : Request) (newRecord : bool) : list Row :=
  if newRecord then added req else (changed req).*2.

Definition batchOrder (o : Oracle) (newRecord : bool) : list nat :=
  if newRecord then addedOrder o else changedOrder o.

(** The row count an edit would leave: existing - removed + added. *)
Definition rowsLeft (req : Request) (existing : list Row) : Z :=
  Z.of_nat (length existing) - Z.of_nat (length (removed req))
  + Z.of_nat (length (added req)).

(** The controller's own test, [allRowsRemoved || singleRow]. *)
Definition tooFewRows (req : Request) (existing : list Row) : bool :=
  ((length (added req) =? 0)%nat && (length existing <=? length (removed req))%nat)
  || (Z.of_nat (length (added req)) - Z.of_nat (length (removed req))
      + Z.of_nat (length existing) =? 1).

(** The last truthy [trans_date] of a sequence of rows, if it has one. *)
Definition lastDate (rows : list Row) : option JsVal :=
  last (List.filter truthy ((fun row => prop row "trans_date") <$> rows)).

(** The effective date as the controller computes it: from the changed
    rows, else from the existing ones. *)
Definition effectiveDate (changed : list (string * Row)) (existing : list Row) : JsVal :=
  default (default JUndefined (lastDate existing)) (lastDate changed.*2).

(** The effective date with the added rows consulted between the two. *)
Definition dateWithAdded (changed : list (string * Row)) (added existing : list Row)
  : JsVal :=
  default (default (default JUndefined (lastDate existing)) (lastDate added))
    (lastDate changed.*2).

Section Edit.
Context `{Platform}.

(** An edit that resolves the fiscal year of [date] and carries on. *)
Definition resolveThen (date : JsVal) (req : Request) (o : Oracle)
    (existing : list Row) : Promise (list Row) :=
  fiscalYear ← resolved (fun _ => lookupFiscalYearByDate date);
  editWithFiscalYear req o (removals req) existing fiscalYear.

(** Every row of [rows] that has a truthy [trans_date] is, in [out],
    dated by a [Date] and stamped with the ids of [fiscalYear]. *)
Definition stamped (fiscalYear : Row) (rows out : list Row) : Prop :=
  forall (i : nat) (row : Row),
    rows !! i = Some row -> truthy (prop row "trans_date") = true ->
    exists row' : Row,
      out !! i = Some row'
      /\ row' !! "trans_date" = Some (newDate Date_parse (prop row "trans_date"))
      /\ row' !! "fiscal_year_id" = Some (prop fiscalYear "fiscal_year_id")
      /\ row' !! "period_id" = Some (prop fiscalYear "id").
End Edit.

(** *** The transform pipeline *)

(** The property a completion handler writes. *)
Definition fieldOf (a : Assignment) : string :=
  match a with
  | SetAccountId => "account_id"
  | SetEntityUuid => "entity_uuid"
  | SetReferenceUuid => "reference_uuid"
  | SetDebit => "debit"
  | SetCredit => "credit"
  end.

(** The value a completion handler extracts from a result, or the error it
    throws; neither depends on the row. *)
Definition extract (a : Assignment) (result : list Row) : Result JsVal :=
  match a, result with
  | SetAccountId, [] => Err (BadRequest "POSTING_JOURNAL.ERRORS.EDIT_INVALID_ACCOUNT")
  | SetAccountId, r0 :: _ => Ok (prop r0 "id")
  | SetEntityUuid, [] => Err (BadRequest "POSTING_JOURNAL.ERRORS.EDIT_INVALID_ENTITY")
  | SetEntityUuid, r0 :: _ => Ok (prop r0 "uuid")
  | SetReferenceUuid, [] => Err (BadRequest "POSTING_JOURNAL.ERRORS.EDIT_INVALID_REFERENCE")
  | SetReferenceUuid, r0 :: _ => Ok (prop r0 "uuid")
  | (SetDebit | SetCredit), [] => Err TypeError
  | (SetDebit | SetCredit), r0 :: _ =>
      if truthy (prop r0 "amount")
      then Ok (prop r0 "amount")
      else Err (BadRequest "POSTING_JOURNAL.ERRORS.MISSING_EXCHANGE_RATE")
  end.

Section Transform.
Context `{Platform}.

(** What a scheduled lookup resolves to against a database. *)
Definition outcome (st : Store) (job : Pending) : Result JsVal :=
  extract (assignment job) (exec st (request job)).

(** The promises settling in the order of a list. *)
Fixpoint runAll (st : Store) (jobs : list Pending) (rows : list Row)
  : Result (list Row) :=
  match jobs with
  | [] => Ok rows
  | job :: jobs' => rows' ← complete st job rows; runAll st jobs' rows'
  end.

(** The error of the first lookup, in the order of a list, that does not
    deliver. *)
Fixpoint firstError (st : Store) (jobs : list Pending) : option Error :=
  match jobs with
  | [] => None
  | job :: jobs' =>
      match outcome st job with
      | Err e => Some e
      | Ok _ => firstError st jobs'
      end
  end.

(** The order an oracle makes [n] pending promises settle in. *)
Fixpoint settleOrder (n : nat) (picks : list nat) (pending : list Pending)
  : list Pending :=
  match n with
  | O => []
  | S n' =>
      let k := (hd O picks `mod` length pending)%nat in
      match pending !! k with
      | None => []
      | Some job => job :: settleOrder n' (tl picks) (delete k pending)
      end
  end.

(** The lookups the loop schedules for one row, read off the row as it
    enters the loop. *)
Definition lookupsOf (first : Row) (index : nat) (row : Row) : list Pending :=
  let transDate :=
    newDate Date_parse
      (if truthy (prop row "trans_date") then prop row "trans_date"
       else prop first "trans_date") in
  (if truthy (prop row "account_number")
   then [ {| request := ACCOUNT_NUMBER_QUERY (prop row "account_number");
             target := index; assignment := SetAccountId |} ] else [])
  ++ (if truthy (prop row "hrEntity")
      then [ {| request := ENTITY_QUERY (prop row "hrEntity");
                target := index; assignment := SetEntityUuid |} ] else [])
  ++ (if truthy (prop row "hrReference")
      then [ {| request := REFERENCE_QUERY (prop row "hrReference");
                target := index; assignment := SetReferenceUuid |} ] else [])
  ++ (if truthy (prop row "debit_equiv")
      then [ {| request := EXCHANGE_RATE_QUERY (prop row "debit_equiv")
                             (prop first "currency_id") (prop first "currency_id")
                             transDate (prop first "project_id");
                target := index; assignment := SetDebit |} ] else [])
  ++ (if truthy (prop row "credit_equiv")
      then [ {| request := EXCHANGE_RATE_QUERY (prop row "credit_equiv")
                             (prop first "currency_id") (prop first "currency_id")
                             transDate (prop first "project_id");
                target := index; assignment := SetCredit |} ] else []).

Fixpoint lookupsFrom (first : Row) (index : nat) (rows : list Row) : list Pending :=
  match rows with
  | [] => []
  | row :: rest => lookupsOf first index row ++ lookupsFrom first (S index) rest
  end.

(** [delete row.k] under [if (row.k)]. *)
Definition dropTruthy (k : string) (row : Row) : Row :=
  if truthy (prop row k) then delete k row else row.

(** A row as the loop leaves it. *)
Definition afterLoop (setFiscalData : Row) (row : Row) : Row :=
  let row' :=
    dropTruthy "hrReference"
      (dropTruthy "hrEntity"
         (dropTruthy "account_label"
            (dropTruthy "account_name" (dropTruthy "account_number" row)))) in
  if truthy (prop row "trans_date")
  then <["period_id" := prop setFiscalData "id"]>
         (<["fiscal_year_id" := prop setFiscalData "fiscal_year_id"]>
            (<["trans_date" := newDate Date_parse (prop row "trans_date")]> row'))
  else row'.

(** A lookup can deliver: its row exists and its handler does not throw. *)
Definition delivers (st : Store) (n : nat) (job : Pending) : Prop :=
  (target job < n)%nat /\ exists v, outcome st job = Ok v.
End Transform.

(** The row and the property a scheduled lookup writes. *)
Definition key (job : Pending) : nat * string :=
  (target job, fieldOf (assignment job)).

(** Some lookup in [jobs] writes property [k] of row [i]. *)
Definition touches (jobs : list Pending) (i : nat) (k : string) : Prop :=
  Exists (fun job => key job = (i, k)) jobs.


(** *** Rate conversions *)

Inductive Side : Type := Debit | Credit.

Definition equivOf (side : Side) : string :=
  match side with Debit => "debit_equiv" | Credit => "credit_equiv" end.

Definition amountOf (side : Side) : string :=
  match side with Debit => "debit" | Credit => "credit" end.

Definition handlerOf (side : Side) : Assignment :=
  match side with Debit => SetDebit | Credit => SetCredit end.

Section Conversion.
Context `{Platform}.

(** The conversion the loop schedules for one side of a row. *)
Definition conversionOf (first : Row) (index : nat) (row : Row) (side : Side)
  : Pending :=
  {| request :=
       EXCHANGE_RATE_QUERY (prop row (equivOf side))
         (prop first "currency_id") (prop first "currency_id")
         (newDate Date_parse
            (if truthy (prop row "trans_date") then prop row "trans_date"
             else prop first "trans_date"))
         (prop first "project_id");
     target := index;
     assignment := handlerOf side |}.

(** The [amount] of the first row a conversion returns, if it returns
    one. *)
Definition convertedAmount (st : Store) (job : Pending) : option JsVal :=
  (fun r0 => prop r0 "amount") <$> head (exec st (request job)).

(** A scheduled lookup fails: its handler throws, whatever the row. *)
Definition rejects (st : Store) (job : Pending) : Prop :=
  exists e, forall row, assign (assignment job) (exec st (request job)) row = Err e.

(** A conversion comes back with an amount that counts as missing: [NULL],
    or a genuine zero. *)
Definition falsyAmount (st : Store) (job : Pending) : Prop :=
  exists a, convertedAmount st job = Some a /\ truthy a = false.

(** The lookups an edit schedules for one of its batches, as issued and
    in the order they settle; and what the batch resolves to. *)
Definition scheduled (req : Request) (first : Row) (newRecord : bool) : list Pending :=
  lookupsFrom first O (batchRows req newRecord).

Definition settled (req : Request) (o : Oracle) (first : Row) (newRecord : bool)
  : list Pending :=
  settleOrder (length (scheduled req first newRecord)) (batchOrder o newRecord)
    (scheduled req first newRecord).

Definition batch (st : Store) (req : Request) (o : Oracle) (existing : list Row)
    (fiscalYear : Row) (newRecord : bool) : Result (list Row) :=
  transformColumns st (batchOrder o newRecord) (batchRows req newRecord) newRecord
    existing fiscalYear.
End Conversion.

(** Every equivalent amount that counts as set is a number. *)
Definition isNumber (v : JsVal) : bool :=
  match v with
  | JNum _ => true
  | _ => false
  end.

Definition numericAmounts (rows : list Row) : bool :=
  forallb
    (fun row =>
       (negb (truthy (prop row "debit_equiv")) || isNumber (prop row "debit_equiv"))
       && (negb (truthy (prop row "credit_equiv")) || isNumber (prop row "credit_equiv")))
    rows.

End JournalSpec.

(** ** Vocabulary for the statements about opening balances *)

Module AccountExtrasSpec.
Import AccountExtras.

(** A period total and its period count towards the balance before [date]:
    the total is the account's, the period belongs to the fiscal year, and
    the period is number 0 or has an end date on a day before [date]'s. *)
Definition beforePeriodOf (accountId date fiscalYearId : Z)
    (row : period_total * period) : Prop :=
  pt_account_id row.1 = accountId
  /\ p_fiscal_year_id row.2 = fiscalYearId
  /\ (p_number row.2 = 0
      \/ exists end_date, p_end_date row.2 = Some end_date /\ DATE end_date < DATE date).

#[global] Instance beforePeriodOf_dec accountId date fiscalYearId row :
  Decision (beforePeriodOf accountId date fiscalYearId row).
Proof.
  unfold beforePeriodOf.
  destruct (p_end_date row.2) as [end_date|].
  - destruct (decide (pt_account_id row.1 = accountId
                      /\ p_fiscal_year_id row.2 = fiscalYearId
                      /\ (p_number row.2 = 0 \/ DATE end_date < DATE date)))
      as [Hyes|Hno].
    + left. destruct Hyes as (? & ? & [?|?]); eauto 6.
    + right. intros (? & ? & [?|(e & [= <-] & ?)]); apply Hno; auto.
  - destruct (decide (pt_account_id row.1 = accountId
                      /\ p_fiscal_year_id row.2 = fiscalYearId /\ p_number row.2 = 0))
      as [Hyes|Hno].
    + left. destruct Hyes as (? & ? & ?); auto.
    + right. intros (? & ? & [?|(e & [=] & ?)]). apply Hno; auto.
Defined.

(** A ledger line counts towards the running balance of a period up to
    [date]: it is the account's, in the period, and dated on a day before
    [date]'s, or on that very day when [includeMaxDate] is set. *)
Definition inPeriodUntil (accountId date periodId : Z) (includeMaxDate : bool)
    (line : general_ledger) : Prop :=
  gl_account_id line = accountId
  /\ gl_period_id line = periodId
  /\ if includeMaxDate
     then DATE (gl_trans_date line) <= DATE date
     else DATE (gl_trans_date line) < DATE date.

#[global] Instance inPeriodUntil_dec accountId date periodId includeMaxDate line :
  Decision (inPeriodUntil accountId date periodId includeMaxDate line).
Proof. unfold inPeriodUntil. destruct includeMaxDate; apply _. Defined.

(** The sum of a column over rows, as a plain sum. *)
Definition sumOf {A} (column : A -> Q) (rows : list A) : Q :=
  foldr Qplus 0%Q (column <$> rows).

(** [IFNULL(SUM(column), 0)] over a list of rows. *)
Definition total {A} (column : A -> Q) (rows : list A) : Q :=
  IFNULL (SUM (column <$> rows)) 0.

End AccountExtrasSpec.

(** ** Vocabulary for the effects of an edit *)

Module JournalEffects.
Import Journal.

(** The properties of a submitted row that carry a human-readable code or
    a display text instead of a column value. *)
Definition codeFields : list string :=
  ["account_number"; "account_name"; "account_label"; "hrEntity"; "hrReference"].

(** All the properties the loop of [transformColumns] reacts to. *)
Definition editableFields : list string :=
  codeFields ++ ["debit_equiv"; "credit_equiv"; "trans_date"].

(** No row carries a code or a display text that counts as set. *)
Definition codeFree (rows : list Row) : Prop :=
  Forall (fun row : Row => forall k, k ∈ codeFields -> truthy (prop row k) = false) rows.

(** Two databases agree on every table but the posting journal and the
    transaction history. *)
Definition sameElsewhere (st st' : Store) : Prop :=
  general_ledger st' = general_ledger st
  /\ project st' = project st
  /\ period st' = period st
  /\ account st' = account st
  /\ user st' = user st
  /\ currency st' = currency st
  /\ enterprise st' = enterprise st
  /\ entity_map st' = entity_map st
  /\ document_map st' = document_map st.

(** The history row of an edit as the database stores it. *)
Definition historyEntry (req : Request) (o : Oracle) : Row :=
  {[ "uuid" := JStr (historyUuid o);
     "record_uuid" := JStr (record_uuid req);
     "user_id" := escape (user_id req) ]}.

(** A statement against the posting journal. *)
Definition journalOnly (q : Query) : Prop :=
  match q with
  | UPDATE_TRANSACTION_HISTORY _ => False
  | _ => True
  end.

(** A journal row is named by one of the [removed] rows of a request. *)
Definition listed (removed : list Row) (r : Row) : bool :=
  existsb (fun row => sqlEq (col r "uuid") (bid (prop row "uuid"))) removed.

(** A statement does not name the journal row [r]: it neither deletes nor
    updates the row with [r]'s [uuid]. *)
Definition spares (r : Row) (q : Query) : Prop :=
  match q with
  | REMOVE_JOURNAL_ROW uuid => sqlEq (col r "uuid") uuid = false
  | UPDATE_JOURNAL_ROW _ uuid => sqlEq (col r "uuid") uuid = false
  | INSERT_JOURNAL_ROW _ => True
  | UPDATE_TRANSACTION_HISTORY _ => True
  end.

(** None of the keys of [changed] is the [uuid] of [r]. *)
Definition unchangedBy (changed : list (string * Row)) (r : Row) : Prop :=
  Forall (fun uid => sqlEq (col r "uuid") (bid (JStr uid)) = false) changed.*1.

(** No row is immediately followed by one with a later [trans_date]. *)
Definition newestFirst (rows : list Row) : Prop :=
  Sorted (fun a b => sqlLt (col a "trans_date") (col b "trans_date") = false) rows.

(** The three codes a row may carry in the place of an identifier. *)
Inductive Code : Type := AccountNumber | EntityCode | ReferenceCode.

(** The property of a submitted row holding the code ... *)
Definition codeField (code : Code) : string :=
  match code with
  | AccountNumber => "account_number"
  | EntityCode => "hrEntity"
  | ReferenceCode => "hrReference"
  end.

(** ... the property the identifier is written to ... *)
Definition idField (code : Code) : string :=
  match code with
  | AccountNumber => "account_id"
  | EntityCode => "entity_uuid"
  | ReferenceCode => "reference_uuid"
  end.

(** ... the table the code is looked up in, the column it is compared
    with and the column the identifier is read from. *)
Definition codeTable (st : Store) (code : Code) : list Row :=
  match code with
  | AccountNumber => account st
  | EntityCode => entity_map st
  | ReferenceCode => document_map st
  end.

Definition codeColumn (code : Code) : string :=
  match code with
  | AccountNumber => "number"
  | EntityCode => "text"
  | ReferenceCode => "text"
  end.

Definition idColumn (code : Code) : string :=
  match code with
  | AccountNumber => "id"
  | EntityCode => "uuid"
  | ReferenceCode => "uuid"
  end.

(** The lookup the loop schedules for a code of the row at [index]. *)
Definition codeLookup (index : nat) (row : Row) (code : Code) : Pending :=
  match code with
  | AccountNumber =>
      {| request := ACCOUNT_NUMBER_QUERY (prop row "account_number");
         target := index; assignment := SetAccountId |}
  | EntityCode =>
      {| request := ENTITY_QUERY (prop row "hrEntity");
         target := index; assignment := SetEntityUuid |}
  | ReferenceCode =>
      {| request := REFERENCE_QUERY (prop row "hrReference");
         target := index; assignment := SetReferenceUuid |}
  end.


(** The names under which an edit history lists its users. *)
Definition editors (history : list Row) : list JsVal :=
  (fun r => prop r "display_name") <$> history.

End JournalEffects.

(** ** Vocabulary for further statements about opening balances *)

Module BalanceTerms.
Import AccountExtras.

(** A ledger line of the account and the period, dated on [date]'s day. *)
Definition onDayOf (accountId date periodId : Z) (line : general_ledger) : Prop :=
  gl_account_id line = accountId
  /\ gl_period_id line = periodId
  /\ DATE (gl_trans_date line) = DATE date.

#[global] Instance onDayOf_dec accountId date periodId line :
  Decision (onDayOf accountId date periodId line).
Proof. unfold onDayOf. apply _. Defined.

(** The opening balance of an account nothing was ever booked on. *)
Definition zeroBalance : OpeningBalance :=
  {| ob_balance := "0.0000"; ob_credit := "0.0000"; ob_debit := "0.0000" |}.

(** A fiscal year, or a period with both its dates, covers a day. *)
Definition fiscalYearCovers (day : Z) (f : fiscal_year) : Prop :=
  fy_start_date f <= day <= fy_end_date f.

Definition periodCovers (day : Z) (p : period) : Prop :=
  exists s e, p_start_date p = Some s /\ p_end_date p = Some e /\ s <= day <= e.

End BalanceTerms.

(** ** Sample data

    A small database, a platform and a few requests on which the
    statements below are exercised. *)

Module Sample.
Import Journal.

Definition jan01 : Z := 1704067200000.  (* 2024-01-01T00:00:00Z *)
Definition feb01 : Z := 1706745600000.  (* 2024-02-01T00:00:00Z *)
Definition feb15 : Z := 1707955200000.  (* 2024-02-15T00:00:00Z *)
Definition mar01 : Z := 1709251200000.  (* 2024-03-01T00:00:00Z *)

Definition sampleParse (s : string) : option Z :=
  if String.eqb s "2024-01-01" then Some jan01
  else if String.eqb s "2024-02-15" then Some feb15
  else None.

(** Fiscal year 3 is 2024, open, with periods 201 (January) and 202
    (February); anything earlier falls in the locked fiscal year 2. *)
Definition sampleFiscalYear (date : JsVal) : Result Row :=
  match newDate sampleParse date with
  | JDate (Some t) =>
      if (jan01 <=? t) && (t <? feb01)
      then Ok {[ "fiscal_year_id" := JNum 3; "id" := JNum 201;
                 "locked" := JNum 0; "label" := JStr "FY2024" ]}
      else if (feb01 <=? t) && (t <? mar01)
      then Ok {[ "fiscal_year_id" := JNum 3; "id" := JNum 202;
                 "locked" := JNum 0; "label" := JStr "FY2024" ]}
      else if t <? jan01
      then Ok {[ "fiscal_year_id" := JNum 2; "id" := JNum 112;
                 "locked" := JNum 1; "label" := JStr "FY2023" ]}
      else Err NotFound
  | _ => Err NotFound
  end.

(** Currency 2 converts at a rate of 2, currency 3 has no rate. *)
Definition sampleRate (enterprise currency date : JsVal) : JsVal :=
  if sqlEq currency (JNum 2) then JNum 2 else JNull.

Definition platform : Platform := {|
  Date_parse := sampleParse;
  GetExchangeRate := sampleRate;
  lookupFiscalYearByDate := sampleFiscalYear
|}.

Definition journalRow (uuid record : string) (trans_date account currencyId : Z) : Row :=
  list_to_map
    [ ("uuid", JStr uuid); ("record_uuid", JStr record); ("trans_id", JStr "TPA1");
      ("trans_date", JDate (Some trans_date)); ("project_id", JNum 1);
      ("period_id", JNum 201); ("fiscal_year_id", JNum 3);
      ("account_id", JNum (inject_Z account)); ("user_id", JNum 1);
      ("currency_id", JNum (inject_Z currencyId));
      ("debit", JNum 10); ("credit", JNum 0);
      ("debit_equiv", JNum 20); ("credit_equiv", JNum 0) ].

(** Transaction [R1] waits in the journal (currency 2), [R3] too (currency
    3, no rate); [R2] is posted. *)
Definition store : Store := {|
  posting_journal :=
    [ journalRow "a1" "R1" jan01 10 2; journalRow "a2" "R1" jan01 11 2;
      journalRow "c1" "R3" jan01 10 3; journalRow "c2" "R3" jan01 11 3 ];
  general_ledger :=
    [ journalRow "b1" "R2" jan01 10 2; journalRow "b2" "R2" jan01 11 2 ];
  transaction_history := [];
  project := [ {[ "id" := JNum 1; "enterprise_id" := JNum 1;
                  "abbr" := JStr "TPA"; "name" := JStr "Test Project A" ]} ];
  period := [ {[ "id" := JNum 201; "start_date" := JDate (Some jan01) ]};
              {[ "id" := JNum 202; "start_date" := JDate (Some feb01) ]} ];
  account := [ {[ "id" := JNum 10; "number" := JNum 1100; "label" := JStr "Cash" ]};
               {[ "id" := JNum 11; "number" := JNum 2200; "label" := JStr "Sales" ]} ];
  user := [ {[ "id" := JNum 1; "display_name" := JStr "Admin" ]} ];
  currency := [ {[ "id" := JNum 1; "name" := JStr "Franc" ]};
                {[ "id" := JNum 2; "name" := JStr "Dollar" ]};
                {[ "id" := JNum 3; "name" := JStr "Euro" ]} ];
  enterprise := [ {[ "id" := JNum 1; "currency_id" := JNum 1 ]} ];
  entity_map := [ {[ "uuid" := JStr "e1"; "text" := JStr "PA.TPA.1" ]} ];
  document_map := [ {[ "uuid" := JStr "d1"; "text" := JStr "IV.TPA.1" ]} ]
|}.

Definition oracle : Oracle :=
  {| addedOrder := []; changedOrder := []; historyUuid := "h1" |}.


(** The rows [lookupTransaction] loads for [R1] and for [R3]. *)
Definition loadedR1 : list Row := find store "R1" true.
Definition loadedR3 : list Row := find store "R3" true.

(** Requests. *)
Definition editPosted : Request :=
  {| record_uuid := "R2"; added := []; changed := [];
     removed := [ {[ "uuid" := JStr "b1" ]} ]; user_id := JNum 1 |}.

Definition editLeavingOneRow : Request :=
  {| record_uuid := "R1"; added := []; changed := [];
     removed := [ {[ "uuid" := JStr "a1" ]} ]; user_id := JNum 1 |}.

Definition newRow (uuid : string) (account_number : Z) : Row :=
  {[ "uuid" := JStr uuid; "record_uuid" := JStr "R1"; "trans_id" := JStr "TPA1";
     "project_id" := JNum 1; "user_id" := JNum 1; "currency_id" := JNum 2;
     "account_number" := JNum (inject_Z account_number);
     "debit_equiv" := JNum 7 ]}.

(** Three rows removed from a transaction of two, one row added. *)
Definition editRemovingTooMany : Request :=
  {| record_uuid := "R1";
     added := [ <["trans_date" := JStr "2024-01-01"]> (newRow "n1" 1100) ];
     changed := [];
     removed := [ {[ "uuid" := JStr "a1" ]}; {[ "uuid" := JStr "a2" ]};
                  {[ "uuid" := JStr "c1" ]} ];
     user_id := JNum 1 |}.

Definition editUnknownAccount : Request :=
  {| record_uuid := "R1"; added := [ newRow "n1" 9999 ]; changed := [];
     removed := []; user_id := JNum 1 |}.

Definition editRedated : Request :=
  {| record_uuid := "R1"; added := [];
     changed := [ ("a1", {[ "trans_date" := JStr "2024-02-15" ]}) ];
     removed := []; user_id := JNum 1 |}.

Definition editAddingDated : Request :=
  {| record_uuid := "R1";
     added := [ <["trans_date" := JStr "2024-02-15"]> (newRow "n1" 1100) ];
     changed := []; removed := []; user_id := JNum 1 |}.

(** Batches for [transformColumns]. *)
Definition twoAccounts : list Row :=
  [ {[ "account_number" := JNum 1100 ]}; {[ "account_number" := JNum 2200 ]} ].

Definition convertedRow : Row := {[ "debit_equiv" := JNum 7 ]}.

Definition unknownAccountNoRate : list Row :=
  [ {[ "account_number" := JNum 9999; "debit_equiv" := JNum 5 ]} ].

(** Edits that change one row: a [debit_equiv] of 7 on row [a1] of [R1];
    an unknown account number and a [debit_equiv] of 5 on row [c1] of
    [R3]. *)
Definition editConverted : Request :=
  {| record_uuid := "R1"; added := []; changed := [ ("a1", convertedRow) ];
     removed := []; user_id := JNum 1 |}.

Definition editUnknownAccountNoRate : Request :=
  {| record_uuid := "R3"; added := [];
     changed := [ ("c1", {[ "account_number" := JNum 9999; "debit_equiv" := JNum 5 ]}) ];
     removed := []; user_id := JNum 1 |}.

Definition fiscal2024 : Row :=
  {[ "fiscal_year_id" := JNum 3; "id" := JNum 201;
     "locked" := JNum 0; "label" := JStr "FY2024" ]}.


(** A database for the balance queries: fiscal year 3 is 2024, with the
    opening period 200 (number 0, no dates), January (201) and February
    (202).  Account 10 has an opening total and nothing else; account 11
    has one ledger line in February, booked in a foreign currency. *)
Definition dec31 : Z := 1735603200000.  (* 2024-12-31T00:00:00Z *)
Definition jan31 : Z := 1706659200000.  (* 2024-01-31T00:00:00Z *)
Definition feb10 : Z := 1707523200000.  (* 2024-02-10T00:00:00Z *)
Definition feb29 : Z := 1709164800000.  (* 2024-02-29T00:00:00Z *)

Definition books : AccountExtras.Database := {|
  AccountExtras.fiscal_years :=
    [ {| AccountExtras.fy_id := 3; AccountExtras.fy_start_date := jan01;
         AccountExtras.fy_end_date := dec31 |} ];
  AccountExtras.periods :=
    [ {| AccountExtras.p_id := 200; AccountExtras.p_fiscal_year_id := 3;
         AccountExtras.p_number := 0; AccountExtras.p_start_date := None;
         AccountExtras.p_end_date := None |};
      {| AccountExtras.p_id := 201; AccountExtras.p_fiscal_year_id := 3;
         AccountExtras.p_number := 1; AccountExtras.p_start_date := Some jan01;
         AccountExtras.p_end_date := Some jan31 |};
      {| AccountExtras.p_id := 202; AccountExtras.p_fiscal_year_id := 3;
         AccountExtras.p_number := 2; AccountExtras.p_start_date := Some feb01;
         AccountExtras.p_end_date := Some feb29 |} ];
  AccountExtras.period_totals :=
    [ {| AccountExtras.pt_account_id := 10; AccountExtras.pt_period_id := 200;
         AccountExtras.pt_debit := 100; AccountExtras.pt_credit := 0 |} ];
  AccountExtras.ledger :=
    [ {| AccountExtras.gl_account_id := 11; AccountExtras.gl_period_id := 202;
         AccountExtras.gl_trans_date := feb10;
         AccountExtras.gl_debit := 10; AccountExtras.gl_credit := 0;
         AccountExtras.gl_debit_equiv := 5; AccountExtras.gl_credit_equiv := 0 |} ]
|}.

(** The same calendar, with an opening total of nineteen digits on
    account 10, 900719925474099.1234, and one ledger line of 0.1 on the
    2024-02-10. *)
Definition largeBooks : AccountExtras.Database := {|
  AccountExtras.fiscal_years := AccountExtras.fiscal_years books;
  AccountExtras.periods := AccountExtras.periods books;
  AccountExtras.period_totals :=
    [ {| AccountExtras.pt_account_id := 10; AccountExtras.pt_period_id := 200;
         AccountExtras.pt_debit := 9007199254740991234 # 10000;
         AccountExtras.pt_credit := 0 |} ];
  AccountExtras.ledger :=
    [ {| AccountExtras.gl_account_id := 10; AccountExtras.gl_period_id := 202;
         AccountExtras.gl_trans_date := feb10;
         AccountExtras.gl_debit := 1 # 10; AccountExtras.gl_credit := 0;
         AccountExtras.gl_debit_equiv := 1 # 10; AccountExtras.gl_credit_equiv := 0 |} ]
|}.

End Sample.

(** ** Further sample data *)

Module Scenarios.
Import Journal.

(** The sample database with a third transaction waiting in the journal:
    [R4], three rows in the enterprise's own currency. *)
Definition store : Store :=
  withJournal Sample.store
    (posting_journal Sample.store
     ++ [ Sample.journalRow "d1" "R4" Sample.jan01 10 1;
          Sample.journalRow "d2" "R4" Sample.jan01 11 1;
          Sample.journalRow "d3" "R4" Sample.jan01 11 1 ]).

Definition loadedR4 : list Row := find store "R4" true.

Definition y2023 : Z := 1672531200000.  (* 2023-01-01T00:00:00Z *)

Definition fiscal2023 : Row :=
  {[ "fiscal_year_id" := JNum 2; "id" := JNum 112;
     "locked" := JNum 1; "label" := JStr "FY2023" ]}.

(** Requests. *)
Definition editBackdated : Request :=
  {| record_uuid := "R1"; added := [];
     changed := [ ("a1", {[ "trans_date" := JNum (inject_Z y2023) ]}) ];
     removed := []; user_id := JNum 1 |}.

Definition editRemovingOne : Request :=
  {| record_uuid := "R4"; added := []; changed := [];
     removed := [ {[ "uuid" := JStr "d3" ]} ]; user_id := JNum 1 |}.

Definition editNothing : Request :=
  {| record_uuid := "R1"; added := []; changed := []; removed := [];
     user_id := JNum 1 |}.

(** The sample oracle with its lookups settling in another order. *)
Definition otherOrder : Oracle :=
  {| addedOrder := [1; 0]%nat; changedOrder := [2; 1]%nat; historyUuid := "h1" |}.

(** Rows for [transformColumns]. *)
Definition describedRow : Row := {[ "description" := JStr "Paid in cash" ]}.

Definition unnamedRow : Row := {[ "debit_equiv" := JNum 7 ]}.

(** What the filters of a listing found: one row of [R1]. *)
Definition hit : Row := {[ "uuid" := JStr "a1"; "record_uuid" := JStr "R1" ]}.

(** The sample books with a line booked on another account, 99. *)
Definition otherBooks : AccountExtras.Database := {|
  AccountExtras.fiscal_years := AccountExtras.fiscal_years Sample.books;
  AccountExtras.periods := AccountExtras.periods Sample.books;
  AccountExtras.period_totals := AccountExtras.period_totals Sample.books;
  AccountExtras.ledger :=
    {| AccountExtras.gl_account_id := 99; AccountExtras.gl_period_id := 202;
       AccountExtras.gl_trans_date := Sample.feb10;
       AccountExtras.gl_debit := 1; AccountExtras.gl_credit := 0;
       AccountExtras.gl_debit_equiv := 1; AccountExtras.gl_credit_equiv := 0 |}
    :: AccountExtras.ledger Sample.books
|}.

End Scenarios.

(** ** The journal controller: facts *)

Module JournalFacts.
Import Journal JournalSpec.

Section Facts.
Context `{Platform}.

(** *** Unfolding the promise chain *)

Lemma bind_resolved {A B} (f : Store -> Result A) (k : A -> Promise B) st :
  (resolved f ≫= k) st =
  match f st with
  | Ok a => k a st
  | Err e => (Err e, st)
  end.
Proof. unfold mbind, Promise_bind, resolved. destruct (f st); reflexivity. Qed.

Lemma lookupTransaction_cons st recordUuid rows :
  lookupTransaction st recordUuid = Ok rows ->
  exists first rest, rows = first :: rest.
Proof.
  unfold lookupTransaction.
  destruct (find st recordUuid true) as [|first rest]; simpl.
  - discriminate.
  - intros [= <-]. eauto.
Qed.

Lemma lookupTransaction_find st recordUuid :
  (length (find st recordUuid true) =? 0)%nat = false ->
  lookupTransaction st recordUuid = Ok (find st recordUuid true).
Proof. intros Hlen. unfold lookupTransaction. cbv zeta. by rewrite Hlen. Qed.

Lemma lookupTransaction_find_cons st recordUuid :
  (length (find st recordUuid true) =? 0)%nat = false ->
  lookupTransaction st recordUuid
  = Ok (default ∅ (head (find st recordUuid true)) :: tail (find st recordUuid true)).
Proof.
  intros Hlen. rewrite (lookupTransaction_find _ _ Hlen).
  by destruct (find st recordUuid true).
Qed.

Lemma resolveThen_unfold date req o existing st :
  resolveThen date req o existing st =
  match lookupFiscalYearByDate date with
  | Ok fiscalYear => editWithFiscalYear req o (removals req) existing fiscalYear st
  | Err e => (Err e, st)
  end.
Proof. unfold resolveThen. by rewrite bind_resolved. Qed.

Lemma editTransaction_loaded req o st first rest :
  lookupTransaction st (record_uuid req) = Ok (first :: rest) ->
  editTransaction req o st =
  if truthy (prop first "posted")
  then (Err (BadRequest "POSTING_JOURNAL.ERRORS.TRANSACTION_ALREADY_POSTED"), st)
  else if tooFewRows req (first :: rest)
  then (Err (BadRequest "POSTING_JOURNAL.ERRORS.TRANSACTION_MUST_CONTAIN_ROWS"), st)
  else resolveThen (getTransactionDate (changed req) (first :: rest)) req o
         (first :: rest) st.
Proof.
  intros Hload. unfold editTransaction. rewrite bind_resolved, Hload.
  destruct (truthy (prop first "posted")); [reflexivity|].
  unfold tooFewRows.
  match goal with |- context [if ?c then throw _ else _] => destruct c end;
    reflexivity.
Qed.

Lemma editTransaction_not_loaded req o st e :
  lookupTransaction st (record_uuid req) = Err e ->
  editTransaction req o st = (Err e, st).
Proof. intros Hload. unfold editTransaction. by rewrite bind_resolved, Hload. Qed.

Lemma editWithFiscalYear_unfold req o st first rest fiscalYear :
  editWithFiscalYear req o (removals req) (first :: rest) fiscalYear st =
  if truthy (prop fiscalYear "locked")
  then (Err (BadRequest "POSTING_JOURNAL.ERRORS.CLOSED_FISCAL_YEAR"), st)
  else
    match transformColumns st (addedOrder o) (added req) true (first :: rest)
            fiscalYear with
    | Err e => (Err e, st)
    | Ok result =>
        match transformColumns st (changedOrder o) (changed req).*2 false
                (first :: rest) fiscalYear with
        | Err e => (Err e, st)
        | Ok result' =>
            match runQueries st (queued req o first result result') with
            | Err e => (Err e, st)
            | Ok st' => (lookupTransaction st' (record_uuid req), st')
            end
        end
    end.
Proof.
  unfold editWithFiscalYear.
  destruct (truthy (prop fiscalYear "locked")); [reflexivity|].
  rewrite bind_resolved.
  destruct (transformColumns st (addedOrder o) (added req) true (first :: rest) fiscalYear)
    as [result|e]; [|reflexivity].
  rewrite bind_resolved.
  destruct (transformColumns st (changedOrder o) (changed req).*2 false (first :: rest)
              fiscalYear) as [result'|e]; [|reflexivity].
  unfold mbind, Promise_bind, execute, queued.
  destruct (runQueries st _) as [st'|e]; reflexivity.
Qed.

(** *** The effective date *)

Lemma last_filter_app {A} (f : A -> bool) (l k : list A) d :
  List.last (List.filter f (l ++ k)) d =
  default (default d (last (List.filter f l))) (last (List.filter f k)).
Proof.
  rewrite List.filter_app.
  destruct (List.filter f k) as [|x k'] using rev_ind.
  - rewrite app_nil_r. simpl.
    destruct (List.filter f l) as [|y l'] using rev_ind; [reflexivity|].
    by rewrite List.last_last, last_snoc.
  - by rewrite app_assoc, List.last_last, last_snoc.
Qed.

Lemma getTransactionDate_effectiveDate changedRows oldRows :
  getTransactionDate changedRows oldRows = effectiveDate changedRows oldRows.
Proof.
  unfold getTransactionDate, effectiveDate, lastDate. cbv zeta.
  assert (Hswap : forall rows : list Row,
    (fun row => prop row "trans_date")
      <$> List.filter (fun row => truthy (prop row "trans_date")) rows
    = List.filter truthy ((fun row => prop row "trans_date") <$> rows)).
  { induction rows as [|row rows IH]; simpl; [reflexivity|].
    destruct (truthy (prop row "trans_date")); simpl; [f_equal|]; apply IH. }
  rewrite Hswap, fmap_app. apply last_filter_app.
Qed.

(** *** The transform pipeline *)

Lemma assign_extract a result row :
  assign a result row = v ← extract a result; Ok (<[fieldOf a := v]> row).
Proof.
  destruct a, result as [|r0 ?]; simpl; try reflexivity;
    destruct (truthy (prop r0 "amount")); reflexivity.
Qed.

Lemma complete_outcome st job rows :
  complete st job rows =
  match rows !! target job with
  | None => Err TypeError
  | Some row =>
      v ← outcome st job;
      Ok (<[target job := <[fieldOf (assignment job) := v]> row]> rows)
  end.
Proof.
  unfold complete, outcome. destruct (rows !! target job); [|reflexivity].
  rewrite assign_extract. destruct (extract _ _); reflexivity.
Qed.

Lemma prop_delete_ne (row : Row) k k' : k <> k' -> prop (delete k row) k' = prop row k'.
Proof. intros. unfold prop. by rewrite lookup_delete_ne. Qed.

Lemma prop_dropTruthy_ne (row : Row) k k' :
  k <> k' -> prop (dropTruthy k row) k' = prop row k'.
Proof.
  intros. unfold dropTruthy. destruct (truthy (prop row k)); [|reflexivity].
  by apply prop_delete_ne.
Qed.

Lemma push_if {A} (c : bool) (l : list A) (x : A) :
  (if c then l ++ [x] else l) = l ++ (if c then [x] else []).
Proof. destruct c; [reflexivity|]. by rewrite app_nil_r. Qed.

Lemma eachRow_spec newRecord first setFiscalData index row :
  eachRow newRecord first setFiscalData index row =
  if newRecord && negb (truthy (prop row "account_number"))
  then Err (BadRequest "POSTING_JOURNAL.ERRORS.EDIT_INVALID_ACCOUNT")
  else Ok (afterLoop setFiscalData row, lookupsOf first index row).
Proof.
  unfold eachRow, afterLoop, lookupsOf.
  destruct (newRecord && negb (truthy (prop row "account_number"))); [reflexivity|].
  set (r1 := dropTruthy "account_number" row).
  set (r2 := dropTruthy "account_name" r1).
  set (r3 := dropTruthy "account_label" r2).
  set (r4 := dropTruthy "hrEntity" r3).
  set (r5 := dropTruthy "hrReference" r4).
  assert (He : prop r3 "hrEntity" = prop row "hrEntity").
  { subst r3 r2 r1. by rewrite !prop_dropTruthy_ne. }
  assert (Hr : prop r4 "hrReference" = prop row "hrReference").
  { subst r4 r3 r2 r1. by rewrite !prop_dropTruthy_ne. }
  assert (Hd : prop r5 "debit_equiv" = prop row "debit_equiv").
  { subst r5 r4 r3 r2 r1. by rewrite !prop_dropTruthy_ne. }
  assert (Hc : prop r5 "credit_equiv" = prop row "credit_equiv").
  { subst r5 r4 r3 r2 r1. by rewrite !prop_dropTruthy_ne. }
  assert (Ht : prop r5 "trans_date" = prop row "trans_date").
  { subst r5 r4 r3 r2 r1. by rewrite !prop_dropTruthy_ne. }
  assert (Hsplit :
    (if truthy (prop row "account_number")
     then (delete "account_number" row,
           [ {| request := ACCOUNT_NUMBER_QUERY (prop row "account_number");
                target := index; assignment := SetAccountId |} ])
     else (row, [])) =
    (r1, if truthy (prop row "account_number")
         then [ {| request := ACCOUNT_NUMBER_QUERY (prop row "account_number");
                   target := index; assignment := SetAccountId |} ]
         else [])).
  { subst r1. unfold dropTruthy. by destruct (truthy (prop row "account_number")). }
  rewrite Hsplit. cbv beta iota zeta.
  change (if truthy (prop r1 "account_name") then delete "account_name" r1 else r1)
    with r2.
  change (if truthy (prop r2 "account_label") then delete "account_label" r2 else r2)
    with r3.
  set (p1 := if truthy (prop row "account_number") then _ else _).
  assert (Hsplit2 : forall q,
    (if truthy (prop r3 "hrEntity")
     then (delete "hrEntity" r3, p1 ++ [q]) else (r3, p1)) =
    (r4, p1 ++ if truthy (prop row "hrEntity") then [q] else [])).
  { intros q. subst r4. unfold dropTruthy. rewrite <- He.
    destruct (truthy (prop r3 "hrEntity")); [reflexivity|]. by rewrite app_nil_r. }
  rewrite Hsplit2. cbv beta iota zeta.
  set (p2 := p1 ++ _).
  assert (Hsplit3 : forall q,
    (if truthy (prop r4 "hrReference")
     then (delete "hrReference" r4, p2 ++ [q]) else (r4, p2)) =
    (r5, p2 ++ if truthy (prop row "hrReference") then [q] else [])).
  { intros q. subst r5. unfold dropTruthy. rewrite <- Hr.
    destruct (truthy (prop r4 "hrReference")); [reflexivity|]. by rewrite app_nil_r. }
  rewrite Hsplit3. cbv beta iota zeta.
  subst p2 p1. rewrite Hd, Hc, Ht, He, Hr, !push_if, <- !app_assoc. reflexivity.
Qed.


Lemma each_spec newRecord first setFiscalData rows : forall index,
  each newRecord first setFiscalData index rows =
  if newRecord && existsb (fun row => negb (truthy (prop row "account_number"))) rows
  then Err (BadRequest "POSTING_JOURNAL.ERRORS.EDIT_INVALID_ACCOUNT")
  else Ok (afterLoop setFiscalData <$> rows, lookupsFrom first index rows).
Proof.
  induction rows as [|row rest IH]; intros index; simpl.
  - by rewrite andb_false_r.
  - rewrite eachRow_spec, IH.
    destruct newRecord; simpl; [|reflexivity].
    destruct (truthy (prop row "account_number")); simpl; [|reflexivity].
    destruct (existsb _ rest); reflexivity.
Qed.

Lemma transformColumns_spec st picks rows newRecord first rest setFiscalData :
  transformColumns st picks rows newRecord (first :: rest) setFiscalData =
  if newRecord && existsb (fun row => negb (truthy (prop row "account_number"))) rows
  then Err (BadRequest "POSTING_JOURNAL.ERRORS.EDIT_INVALID_ACCOUNT")
  else settle st picks (lookupsFrom first O rows) (afterLoop setFiscalData <$> rows).
Proof.
  unfold transformColumns. rewrite each_spec.
  destruct (newRecord && _); reflexivity.
Qed.

(** *** The oracle only permutes *)

Lemma settleN_runAll st n : forall picks pending rows,
  settleN n st picks pending rows = runAll st (settleOrder n picks pending) rows.
Proof.
  induction n as [|n IH]; intros picks pending rows; simpl; [reflexivity|].
  destruct (pending !! _) as [job|]; simpl; [|reflexivity].
  destruct (complete st job rows) as [rows'|e]; simpl; [apply IH|reflexivity].
Qed.

Lemma settleOrder_perm n : forall picks pending,
  length pending = n -> settleOrder n picks pending ≡ₚ pending.
Proof.
  induction n as [|n IH]; intros picks pending Hlen; simpl.
  - destruct pending; [reflexivity|discriminate].
  - assert (Hk : (hd O picks `mod` length pending < length pending)%nat).
    { apply Nat.mod_upper_bound. lia. }
    destruct (lookup_lt_is_Some_2 _ _ Hk) as [job Hjob]. rewrite Hjob.
    etrans; [|symmetry; exact (delete_Permutation pending _ job Hjob)].
    constructor. apply IH. rewrite length_delete by eauto. lia.
Qed.

Lemma settle_runAll st picks pending rows :
  exists order, order ≡ₚ pending /\ settle st picks pending rows = runAll st order rows.
Proof.
  exists (settleOrder (length pending) picks pending). split.
  - by apply settleOrder_perm.
  - apply settleN_runAll.
Qed.


(** *** Settling in a fixed order *)

Lemma runAll_length st jobs : forall rows out,
  runAll st jobs rows = Ok out -> length out = length rows.
Proof.
  induction jobs as [|job jobs IH]; intros rows out; simpl.
  - by intros [= <-].
  - rewrite complete_outcome.
    destruct (rows !! target job) as [row|]; [|discriminate].
    destruct (outcome st job) as [v|e]; simpl; [|discriminate].
    intros Hrun. apply IH in Hrun. by rewrite length_insert in Hrun.
Qed.

Lemma runAll_delivers st jobs : forall rows,
  (exists out, runAll st jobs rows = Ok out) <->
  Forall (delivers st (length rows)) jobs.
Proof.
  induction jobs as [|job jobs IH]; intros rows; simpl.
  - split; [constructor | eauto].
  - rewrite complete_outcome, Forall_cons. unfold delivers at 1.
    destruct (rows !! target job) as [row|] eqn:Hrow.
    + apply lookup_lt_Some in Hrow as Hlt.
      destruct (outcome st job) as [v|e]; simpl.
      * rewrite IH, length_insert. split; [intros ?|intros [_ ?]]; eauto.
      * split; [intros [? [=]] | intros [[_ [? [=]]] _]].
    + apply lookup_ge_None in Hrow.
      split; [intros [? [=]] | intros [[? _] _]; lia].
Qed.

Lemma runAll_spec st jobs : forall rows out,
  NoDup (key <$> jobs) ->
  runAll st jobs rows = Ok out ->
  (forall job, job ∈ jobs ->
     exists v row', outcome st job = Ok v /\ out !! target job = Some row'
                    /\ row' !! fieldOf (assignment job) = Some v)
  /\ (forall i row k, rows !! i = Some row -> ~ touches jobs i k ->
        exists row', out !! i = Some row' /\ row' !! k = row !! k).
Proof.
  induction jobs as [|job jobs IH]; intros rows out Hnodup; simpl.
  - intros [= <-]. split.
    + intros job Hin. by apply elem_of_nil in Hin.
    + intros i row k Hrow _. eauto.
  - rewrite complete_outcome.
    destruct (rows !! target job) as [row0|] eqn:Hrow0; [|discriminate].
    destruct (outcome st job) as [v|e] eqn:Hv; simpl; [|discriminate].
    intros Hrun. rewrite fmap_cons in Hnodup. apply NoDup_cons in Hnodup as [Hfresh Hnodup].
    destruct (IH _ _ Hnodup Hrun) as [IHin IHout].
    assert (Hlt := lookup_lt_Some _ _ _ Hrow0).
    split.
    + intros job' [->|Hin]%elem_of_cons; [|by apply IHin].
      destruct (IHout (target job) (<[fieldOf (assignment job) := v]> row0)
                  (fieldOf (assignment job))) as (row' & Hout & Hk).
      * by rewrite list_lookup_insert_eq.
      * intros Htouch. apply Hfresh. apply Exists_exists in Htouch as (j & Hj & Hkey).
        apply list_elem_of_fmap. exists j. split; [symmetry; exact Hkey|done].
      * exists v, row'. rewrite Hk, lookup_insert_eq. eauto.
    + intros i row k Hrow Huntouched.
      assert (Hhead : key job <> (i, k)).
      { intros Hkey. apply Huntouched. by constructor. }
      assert (Htail : ~ touches jobs i k).
      { intros Htouch. apply Huntouched. by constructor 2. }
      destruct (decide (i = target job)) as [->|Hne].
      * destruct (IHout (target job) (<[fieldOf (assignment job) := v]> row0) k)
          as (row' & Hout & Hk); [by rewrite list_lookup_insert_eq | done |].
        exists row'. split; [done|]. rewrite Hk, lookup_insert_ne.
        -- congruence.
        -- intros Heq. apply Hhead. unfold key. by rewrite Heq.
      * destruct (IHout i row k) as (row' & Hout & Hk); [|done|eauto].
        by rewrite list_lookup_insert_ne.
Qed.

(** Two runs over the same lookups, in any two orders, that both come
    through leave the same rows. *)
Lemma runAll_order_irrelevant st jobs jobs' rows out out' :
  jobs ≡ₚ jobs' -> NoDup (key <$> jobs) ->
  runAll st jobs rows = Ok out -> runAll st jobs' rows = Ok out' ->
  out = out'.
Proof.
  intros Hperm Hnodup Hrun Hrun'.
  assert (Hnodup' : NoDup (key <$> jobs')) by by rewrite <- Hperm.
  destruct (runAll_spec _ _ _ _ Hnodup Hrun) as [Hin Hout].
  destruct (runAll_spec _ _ _ _ Hnodup' Hrun') as [Hin' Hout'].
  apply runAll_length in Hrun, Hrun'.
  apply list_eq. intros i.
  destruct (rows !! i) as [row|] eqn:Hrow.
  - assert (Hlt := lookup_lt_Some _ _ _ Hrow).
    destruct (lookup_lt_is_Some_2 out i) as [r Hr]; [lia|].
    destruct (lookup_lt_is_Some_2 out' i) as [r' Hr']; [lia|].
    rewrite Hr, Hr'. f_equal. apply map_eq. intros k.
    destruct (decide (touches jobs i k)) as [Htouch|Hnot].
    + apply Exists_exists in Htouch as (job & Hjob & Hkey).
      injection Hkey as <- <-.
      destruct (Hin job Hjob) as (v & r1 & Hv & Hr1 & Hk).
      assert (Hjob' : job ∈ jobs') by by rewrite <- Hperm.
      destruct (Hin' job Hjob') as (v' & r1' & Hv' & Hr1' & Hk').
      congruence.
    + assert (Hnot' : ~ touches jobs' i k).
      { unfold touches in *. by rewrite <- Hperm. }
      destruct (Hout i row k Hrow Hnot) as (r1 & Hr1 & Hk).
      destruct (Hout' i row k Hrow Hnot') as (r1' & Hr1' & Hk').
      congruence.
  - apply lookup_ge_None in Hrow.
    rewrite !(proj2 (lookup_ge_None _ _)) by lia. reflexivity.
Qed.

(** Whether a run comes through does not depend on the order either. *)
Lemma runAll_fulfilled_perm st jobs jobs' rows :
  jobs ≡ₚ jobs' -> NoDup (key <$> jobs) ->
  fulfilled (runAll st jobs rows) = fulfilled (runAll st jobs' rows).
Proof.
  intros Hperm Hnodup.
  destruct (runAll st jobs rows) as [out|e] eqn:Hrun,
           (runAll st jobs' rows) as [out'|e'] eqn:Hrun'; simpl.
  - f_equal. eapply runAll_order_irrelevant; eauto.
  - exfalso. assert (Hok : exists out, runAll st jobs rows = Ok out) by eauto.
    apply runAll_delivers in Hok. rewrite Hperm in Hok.
    apply runAll_delivers in Hok as [? ?]. congruence.
  - exfalso. assert (Hok : exists out, runAll st jobs' rows = Ok out) by eauto.
    apply runAll_delivers in Hok. rewrite <- Hperm in Hok.
    apply runAll_delivers in Hok as [? ?]. congruence.
  - reflexivity.
Qed.


(** *** What the loop schedules *)

Lemma lookupsOf_assignments first index row :
  NoDup (assignment <$> lookupsOf first index row).
Proof.
  unfold lookupsOf.
  destruct (truthy (prop row "account_number")), (truthy (prop row "hrEntity")),
    (truthy (prop row "hrReference")), (truthy (prop row "debit_equiv")),
    (truthy (prop row "credit_equiv")); simpl;
    apply (bool_decide_unpack _); vm_compute; exact I.
Qed.

Lemma lookupsOf_target first index row job :
  job ∈ lookupsOf first index row -> target job = index.
Proof.
  revert job. apply Forall_forall. unfold lookupsOf.
  destruct (truthy (prop row "account_number")), (truthy (prop row "hrEntity")),
    (truthy (prop row "hrReference")), (truthy (prop row "debit_equiv")),
    (truthy (prop row "credit_equiv")); simpl; repeat constructor.
Qed.

Lemma fieldOf_inj : Inj (=) (=) fieldOf.
Proof. intros a b Hab. destruct a, b; (reflexivity || discriminate Hab). Qed.

Lemma lookupsOf_keys first index row :
  NoDup (key <$> lookupsOf first index row).
Proof.
  assert (Hkeys : key <$> lookupsOf first index row =
                  (fun a => (index, fieldOf a)) <$> (assignment <$> lookupsOf first index row)).
  { rewrite <- list_fmap_compose. apply Forall_fmap_ext_1, Forall_forall.
    intros job Hjob. unfold key, compose. by rewrite (lookupsOf_target _ _ _ _ Hjob). }
  rewrite Hkeys. apply NoDup_fmap_2; [|apply lookupsOf_assignments].
  intros a b [= Hab]. by apply fieldOf_inj.
Qed.

Lemma lookupsFrom_elem_of first rows : forall index job,
  job ∈ lookupsFrom first index rows <->
  exists i row, rows !! i = Some row /\ job ∈ lookupsOf first (index + i) row.
Proof.
  induction rows as [|row rest IH]; intros index job; simpl.
  - rewrite elem_of_nil. split; [done|]. by intros (i & r & Hr & _).
  - rewrite elem_of_app, IH. split.
    + intros [Hjob | (i & r & Hr & Hjob)].
      * exists O, row. by rewrite Nat.add_0_r.
      * exists (S i), r. by rewrite Nat.add_succ_r.
    + intros ([|i] & r & Hr & Hjob); simpl in Hr.
      * left. injection Hr as ->. by rewrite Nat.add_0_r in Hjob.
      * right. exists i, r. by rewrite Nat.add_succ_r in Hjob.
Qed.

Lemma lookupsFrom_keys first rows : forall index,
  NoDup (key <$> lookupsFrom first index rows).
Proof.
  induction rows as [|row rest IH]; intros index; simpl; [constructor|].
  rewrite fmap_app. apply NoDup_app. split; [apply lookupsOf_keys|].
  split; [|apply IH].
  intros k (job & -> & Hjob)%list_elem_of_fmap (job' & Hkey & Hjob')%list_elem_of_fmap.
  apply lookupsOf_target in Hjob.
  apply lookupsFrom_elem_of in Hjob' as (i & r & _ & Hjob').
  apply lookupsOf_target in Hjob'.
  unfold key in Hkey. injection Hkey as Ht _. lia.
Qed.


(** *** transformColumns, batch by batch *)

Lemma each_Ok newRecord first setFiscalData rows rows' pending :
  each newRecord first setFiscalData O rows = Ok (rows', pending) ->
  rows' = afterLoop setFiscalData <$> rows /\ pending = lookupsFrom first O rows.
Proof.
  rewrite each_spec. destruct (newRecord && _); [discriminate|].
  by intros [= <- <-].
Qed.

Lemma transformColumns_Ok st picks rows newRecord first rest setFiscalData out :
  transformColumns st picks rows newRecord (first :: rest) setFiscalData = Ok out ->
  each newRecord first setFiscalData O rows
    = Ok (afterLoop setFiscalData <$> rows, lookupsFrom first O rows)
  /\ exists order, order ≡ₚ lookupsFrom first O rows
       /\ runAll st order (afterLoop setFiscalData <$> rows) = Ok out.
Proof.
  rewrite transformColumns_spec, each_spec.
  destruct (newRecord && _); [discriminate|]. intros Hsettle. split; [reflexivity|].
  destruct (settle_runAll st picks (lookupsFrom first O rows)
              (afterLoop setFiscalData <$> rows)) as (order & Hperm & Heq).
  exists order. by rewrite <- Heq.
Qed.

Lemma transformColumns_order_irrelevant st picks picks' rows newRecord existing
    setFiscalData :
  fulfilled (transformColumns st picks rows newRecord existing setFiscalData) =
  fulfilled (transformColumns st picks' rows newRecord existing setFiscalData).
Proof.
  destruct existing as [|first rest]; [reflexivity|].
  rewrite !transformColumns_spec. destruct (newRecord && _); [reflexivity|].
  destruct (settle_runAll st picks (lookupsFrom first O rows)
              (afterLoop setFiscalData <$> rows)) as (order & Hperm & ->).
  destruct (settle_runAll st picks' (lookupsFrom first O rows)
              (afterLoop setFiscalData <$> rows)) as (order' & Hperm' & ->).
  apply runAll_fulfilled_perm.
  - by rewrite Hperm, Hperm'.
  - rewrite Hperm. apply lookupsFrom_keys.
Qed.

(** What a successful batch leaves in its rows. *)
Lemma transformColumns_rows st picks rows newRecord first rest setFiscalData out :
  transformColumns st picks rows newRecord (first :: rest) setFiscalData = Ok out ->
  length out = length rows
  /\ (forall job, job ∈ lookupsFrom first O rows ->
        exists v row', outcome st job = Ok v /\ out !! target job = Some row'
                       /\ row' !! fieldOf (assignment job) = Some v)
  /\ (forall i row k, rows !! i = Some row ->
        ~ touches (lookupsFrom first O rows) i k ->
        exists row', out !! i = Some row'
                     /\ row' !! k = afterLoop setFiscalData row !! k).
Proof.
  intros (_ & order & Hperm & Hrun)%transformColumns_Ok.
  assert (Hnodup : NoDup (key <$> order)).
  { rewrite Hperm. apply lookupsFrom_keys. }
  destruct (runAll_spec _ _ _ _ Hnodup Hrun) as [Hin Hout].
  split; [|split].
  - apply runAll_length in Hrun. by rewrite length_fmap in Hrun.
  - intros job Hjob. apply Hin. by rewrite Hperm.
  - intros i row k Hrow Hnot. apply Hout.
    + by rewrite list_lookup_fmap, Hrow.
    + unfold touches in *. by rewrite Hperm.
Qed.


(** *** Lookups that fail *)

Lemma rejects_outcome st job :
  rejects st job <-> exists e, outcome st job = Err e.
Proof.
  unfold rejects, outcome. split.
  - intros [e He]. specialize (He ∅). rewrite assign_extract in He.
    destruct (extract _ _); [discriminate|eauto].
  - intros [e He]. exists e. intros row. by rewrite assign_extract, He.
Qed.

Lemma runAll_Err st jobs : forall rows e,
  runAll st jobs rows = Err e ->
  (exists job, job ∈ jobs /\ outcome st job = Err e) \/ e = TypeError.
Proof.
  induction jobs as [|job jobs IH]; intros rows e; simpl; [discriminate|].
  rewrite complete_outcome.
  destruct (rows !! target job) as [row|]; [|intros [= <-]; by right].
  destruct (outcome st job) as [v|e'] eqn:Hv; simpl.
  - intros Hrun. apply IH in Hrun as [(job' & Hin & He)|Heq]; [left|by right].
    exists job'. split; [by constructor|done].
  - intros [= <-]. left. exists job. split; [by constructor|done].
Qed.

Lemma transformColumns_rejects st picks rows newRecord first rest setFiscalData
    rows' pending job :
  each newRecord first setFiscalData O rows = Ok (rows', pending) ->
  job ∈ pending -> rejects st job ->
  exists e, transformColumns st picks rows newRecord (first :: rest) setFiscalData = Err e.
Proof.
  intros [-> ->]%each_Ok Hjob [e He]%rejects_outcome.
  destruct (transformColumns st picks rows newRecord (first :: rest) setFiscalData)
    as [out|e'] eqn:Hrun; [|eauto].
  apply transformColumns_rows in Hrun as (_ & Hin & _).
  destruct (Hin job Hjob) as (v & _ & Hv & _). congruence.
Qed.

(** *** Edits that are refused *)

Lemma editTransaction_posted st req o first rest :
  lookupTransaction st (record_uuid req) = Ok (first :: rest) ->
  truthy (prop first "posted") = true ->
  editTransaction req o st =
  (Err (BadRequest "POSTING_JOURNAL.ERRORS.TRANSACTION_ALREADY_POSTED"), st).
Proof.
  intros Hload Hposted. by rewrite (editTransaction_loaded _ _ _ _ _ Hload), Hposted.
Qed.

(** C5.  A transaction whose loaded rows report [posted] is never edited:
    whatever the request says, [editTransaction] fails with
    [TRANSACTION_ALREADY_POSTED] and leaves the database as it was. *)
Theorem posted_transaction_cannot_be_edited st req o existing :
  lookupTransaction st (record_uuid req) = Ok existing ->
  Forall (fun row => truthy (prop row "posted") = true) existing ->
  editTransaction req o st =
  (Err (BadRequest "POSTING_JOURNAL.ERRORS.TRANSACTION_ALREADY_POSTED"), st).
Proof.
  intros Hload Hposted.
  destruct (lookupTransaction_cons _ _ _ Hload) as (first & rest & ->).
  apply Forall_cons in Hposted as [Hfirst _].
  by apply editTransaction_posted with first rest.
Qed.

(** Where the row-count check refuses.  For a transaction that loads and
    is not posted, an edit that would leave exactly one row, or fewer than
    two with no row added, fails with [TRANSACTION_MUST_CONTAIN_ROWS] and
    leaves the database as it was. *)
Lemma too_few_rows_is_rejected st req o existing :
  lookupTransaction st (record_uuid req) = Ok existing ->
  (forall first, head existing = Some first -> truthy (prop first "posted") = false) ->
  rowsLeft req existing < 2 ->
  rowsLeft req existing = 1 \/ added req = [] ->
  editTransaction req o st =
  (Err (BadRequest "POSTING_JOURNAL.ERRORS.TRANSACTION_MUST_CONTAIN_ROWS"), st).
Proof.
  intros Hload Hunposted Hcount Hcase.
  destruct (lookupTransaction_cons _ _ _ Hload) as (first & rest & ->).
  rewrite (editTransaction_loaded _ _ _ _ _ Hload).
  rewrite (Hunposted first eq_refl).
  assert (tooFewRows req (first :: rest) = true) as ->; [|reflexivity].
  unfold tooFewRows, rowsLeft in *. apply orb_true_iff.
  destruct (Z.eq_dec (Z.of_nat (length (first :: rest)) - Z.of_nat (length (removed req))
                      + Z.of_nat (length (added req))) 1) as [Hone|Hnot].
  - right. apply Z.eqb_eq. lia.
  - left. destruct Hcase as [?|Hnone]; [contradiction|].
    rewrite Hnone in *. apply andb_true_iff. split.
    + reflexivity.
    + apply Nat.leb_le. simpl length in *. lia.
Qed.

(** Where it does not.  An edit that adds a row and would leave no row,
    or a negative count, passes the check and goes on to resolve the
    fiscal year. *)
Lemma no_row_left_is_not_rejected st req o existing :
  lookupTransaction st (record_uuid req) = Ok existing ->
  (forall first, head existing = Some first -> truthy (prop first "posted") = false) ->
  rowsLeft req existing < 1 ->
  added req <> [] ->
  editTransaction req o st =
  resolveThen (getTransactionDate (changed req) existing) req o existing st.
Proof.
  intros Hload Hunposted Hcount Hadded.
  destruct (lookupTransaction_cons _ _ _ Hload) as (first & rest & ->).
  rewrite (editTransaction_loaded _ _ _ _ _ Hload).
  rewrite (Hunposted first eq_refl).
  assert (tooFewRows req (first :: rest) = false) as ->; [|reflexivity].
  unfold tooFewRows, rowsLeft in *. apply orb_false_iff. split.
  - apply andb_false_iff. left. apply Nat.eqb_neq.
    destruct (added req); [done|]. cbn [length]. lia.
  - apply Z.eqb_neq. lia.
Qed.


(** C4.  When a lookup scheduled for the added rows, or for the changed
    rows, fails, the edit fails and the database is as it was before: no
    deletion, insertion, update or history record has been executed. *)
Theorem failed_lookup_leaves_database_unchanged st req o first rest fiscalYear :
  lookupTransaction st (record_uuid req) = Ok (first :: rest) ->
  lookupFiscalYearByDate (getTransactionDate (changed req) (first :: rest))
    = Ok fiscalYear ->
  (exists rows' pending job,
      each true first fiscalYear O (added req) = Ok (rows', pending)
      /\ job ∈ pending /\ rejects st job)
  \/ (exists rows' pending job,
        each false first fiscalYear O (changed req).*2 = Ok (rows', pending)
        /\ job ∈ pending /\ rejects st job) ->
  exists e, editTransaction req o st = (Err e, st).
Proof.
  intros Hload Hfy Hfails.
  rewrite (editTransaction_loaded _ _ _ _ _ Hload).
  destruct (truthy (prop first "posted")); [eauto|].
  destruct (tooFewRows req (first :: rest)); [eauto|].
  rewrite resolveThen_unfold, Hfy, editWithFiscalYear_unfold.
  destruct (truthy (prop fiscalYear "locked")); [eauto|].
  destruct Hfails as [(rows' & pending & job & Heach & Hjob & Hrej)
                     |(rows' & pending & job & Heach & Hjob & Hrej)].
  - destruct (transformColumns_rejects st (addedOrder o) _ _ _ rest _ _ _ _
                Heach Hjob Hrej) as [e ->]. eauto.
  - destruct (transformColumns st (addedOrder o) (added req) true (first :: rest)
                fiscalYear) as [result|e]; [|eauto].
    destruct (transformColumns_rejects st (changedOrder o) _ _ _ rest _ _ _ _
                Heach Hjob Hrej) as [e ->]. eauto.
Qed.


(** *** The effective date and the fiscal stamp *)

Lemma lastDate_snoc rows row :
  truthy (prop row "trans_date") = true ->
  lastDate (rows ++ [row]) = Some (prop row "trans_date").
Proof.
  intros Hdate. unfold lastDate.
  rewrite fmap_app, List.filter_app. simpl. rewrite Hdate. apply last_snoc.
Qed.

(** C2, as amended.  Once a transaction is loaded, found unposted and
    left with enough rows, the fiscal year is resolved for the last truthy
    [trans_date] among the changed rows, in their iteration order, else
    for the last one among the existing rows as loaded; the added rows are
    not consulted.  In particular a date on the last changed row is the
    date the fiscal year is resolved for. *)
Theorem fiscal_year_is_resolved_for_changed_else_existing_date st req o existing :
  lookupTransaction st (record_uuid req) = Ok existing ->
  (forall first, head existing = Some first -> truthy (prop first "posted") = false) ->
  tooFewRows req existing = false ->
  editTransaction req o st
    = resolveThen (effectiveDate (changed req) existing) req o existing st
  /\ (forall changes uid row,
        changed req = changes ++ [(uid, row)] ->
        truthy (prop row "trans_date") = true ->
        effectiveDate (changed req) existing = prop row "trans_date").
Proof.
  intros Hload Hunposted Hrows. split.
  - destruct (lookupTransaction_cons _ _ _ Hload) as (first & rest & ->).
    rewrite (editTransaction_loaded _ _ _ _ _ Hload).
    by rewrite (Hunposted first eq_refl), Hrows, getTransactionDate_effectiveDate.
  - intros changes uid row -> Hdate. unfold effectiveDate.
    rewrite fmap_app. change ([(uid, row)].*2) with [row].
    by rewrite lastDate_snoc.
Qed.

Lemma untouched_by_lookups jobs i k :
  (forall a, fieldOf a <> k) -> ~ touches jobs i k.
Proof.
  intros Hk (job & _ & Hkey)%Exists_exists.
  injection Hkey as _ Hfield. by apply Hk in Hfield.
Qed.

Lemma transformColumns_stamps st picks rows newRecord existing setFiscalData out :
  transformColumns st picks rows newRecord existing setFiscalData = Ok out ->
  stamped setFiscalData rows out.
Proof.
  destruct existing as [|first rest]; [discriminate|].
  intros (_ & _ & Hout)%transformColumns_rows i row Hrow Hdate.
  destruct (Hout i row "trans_date" Hrow) as (row' & Hrow' & Hd).
  { apply untouched_by_lookups. by intros []. }
  destruct (Hout i row "fiscal_year_id" Hrow) as (? & ? & Hf).
  { apply untouched_by_lookups. by intros []. }
  destruct (Hout i row "period_id" Hrow) as (? & ? & Hp).
  { apply untouched_by_lookups. by intros []. }
  simplify_eq. exists row'. split; [done|].
  rewrite Hd, Hf, Hp. unfold afterLoop. rewrite Hdate. split_and!.
  - rewrite !lookup_insert_ne by done. apply lookup_insert_eq.
  - rewrite lookup_insert_ne by done. apply lookup_insert_eq.
  - apply lookup_insert_eq.
Qed.

(** What an edit that succeeds has gone through. *)
Lemma editTransaction_succeeded req o st :
  succeeded (editTransaction req o st).1 = true ->
  exists first rest fiscalYear result result' st',
    lookupTransaction st (record_uuid req) = Ok (first :: rest)
    /\ lookupFiscalYearByDate (getTransactionDate (changed req) (first :: rest))
         = Ok fiscalYear
    /\ transformColumns st (addedOrder o) (added req) true (first :: rest) fiscalYear
         = Ok result
    /\ transformColumns st (changedOrder o) (changed req).*2 false (first :: rest)
          fiscalYear = Ok result'
    /\ runQueries st (queued req o first result result') = Ok st'
    /\ (editTransaction req o st).2 = st'.
Proof.
  destruct (lookupTransaction st (record_uuid req)) as [existing|e] eqn:Hload.
  2:{ by rewrite (editTransaction_not_loaded _ _ _ _ Hload). }
  destruct (lookupTransaction_cons _ _ _ Hload) as (first & rest & ->).
  rewrite (editTransaction_loaded _ _ _ _ _ Hload).
  destruct (truthy (prop first "posted")); [discriminate|].
  destruct (tooFewRows req (first :: rest)); [discriminate|].
  rewrite resolveThen_unfold.
  destruct (lookupFiscalYearByDate _) as [fiscalYear|e] eqn:Hfy; [|discriminate].
  rewrite editWithFiscalYear_unfold.
  destruct (truthy (prop fiscalYear "locked")); [discriminate|].
  destruct (transformColumns st (addedOrder o) _ _ _ _) as [result|e] eqn:Hadd;
    [|discriminate].
  destruct (transformColumns st (changedOrder o) _ _ _ _) as [result'|e] eqn:Hchg;
    [|discriminate].
  destruct (runQueries st _) as [st'|e] eqn:Hrun; [|discriminate].
  intros _. exists first, rest, fiscalYear, result, result', st'. done.
Qed.

(** C3.  Every row that enters a batch with a truthy [trans_date] leaves a
    fulfilled [transformColumns] with that date turned into a [Date], with
    [fiscal_year_id] set to the [fiscal_year_id] and [period_id] set to the
    [id] of the calendar entry the batch was given; and in an edit that
    succeeds both batches, added and changed, were given the entry the
    fiscal service resolved for the edit's effective date. *)
Theorem dated_rows_are_stamped_with_resolved_fiscal_year :
  (forall st picks rows newRecord existing setFiscalData out,
     transformColumns st picks rows newRecord existing setFiscalData = Ok out ->
     stamped setFiscalData rows out)
  /\ (forall v, exists t, newDate Date_parse v = JDate t)
  /\ (forall req o st,
        succeeded (editTransaction req o st).1 = true ->
        exists existing fiscalYear result result',
          lookupTransaction st (record_uuid req) = Ok existing
          /\ lookupFiscalYearByDate (getTransactionDate (changed req) existing)
               = Ok fiscalYear
          /\ transformColumns st (addedOrder o) (added req) true existing fiscalYear
               = Ok result
          /\ transformColumns st (changedOrder o) (changed req).*2 false existing
                fiscalYear = Ok result'
          /\ runQueries st (queued req o (default ∅ (head existing)) result result')
               = Ok (editTransaction req o st).2
          /\ stamped fiscalYear (added req) result
          /\ stamped fiscalYear (changed req).*2 result').
Proof.
  split_and!.
  - apply transformColumns_stamps.
  - intros []; simpl; eauto.
  - intros req o st
      (first & rest & fiscalYear & result & result' & st' & Hload & Hfy & Hadd
       & Hchg & Hrun & Hst)%editTransaction_succeeded.
    exists (first :: rest), fiscalYear, result, result'.
    rewrite Hst. repeat split; try done.
    + by apply transformColumns_stamps in Hadd.
    + by apply transformColumns_stamps in Hchg.
Qed.


(** *** Rate conversions *)

Lemma conversionOf_scheduled first index row side :
  truthy (prop row (equivOf side)) = true ->
  conversionOf first index row side ∈ lookupsOf first index row.
Proof.
  intros Hequiv. unfold lookupsOf, conversionOf. rewrite !elem_of_app.
  destruct side; simpl in *; rewrite Hequiv.
  - do 3 right. left. apply list_elem_of_singleton. reflexivity.
  - do 4 right. apply list_elem_of_singleton. reflexivity.
Qed.

Lemma conversion_outcome_Ok st job side v :
  assignment job = handlerOf side ->
  outcome st job = Ok v <-> convertedAmount st job = Some v /\ truthy v = true.
Proof.
  intros Hside. unfold outcome, convertedAmount. rewrite Hside.
  destruct side, (exec st (request job)) as [|r0 ?]; simpl;
    try (split; [discriminate | by intros [[=] _]]);
    destruct (truthy (prop r0 "amount")) eqn:Hamount; split;
    try discriminate; try (intros [= <-]; done); try (intros [[= <-] ?]; congruence).
Qed.

Lemma conversion_outcome_missing st job :
  outcome st job = Err (BadRequest "POSTING_JOURNAL.ERRORS.MISSING_EXCHANGE_RATE") <->
  exists side a, assignment job = handlerOf side
                 /\ convertedAmount st job = Some a /\ truthy a = false.
Proof.
  unfold outcome, convertedAmount. split.
  - destruct (assignment job) eqn:Ha, (exec st (request job)) as [|r0 ?]; simpl;
      try discriminate;
      destruct (truthy (prop r0 "amount")) eqn:Hamount; try discriminate; intros _.
    + exists Debit. eauto.
    + exists Credit. eauto.
  - intros (side & a & -> & Hhead & Hfalsy).
    destruct (exec st (request job)) as [|r0 ?]; [discriminate|].
    injection Hhead as <-. destruct side; simpl; by rewrite Hfalsy.
Qed.

(** *** The first lookup to fail *)

Lemma firstError_Some st jobs e :
  firstError st jobs = Some e -> exists job, job ∈ jobs /\ outcome st job = Err e.
Proof.
  induction jobs as [|job jobs IH]; simpl; [discriminate|].
  destruct (outcome st job) as [v|e'] eqn:Hv.
  - intros (job' & Hin & He)%IH. exists job'. split; [by constructor|done].
  - intros [= <-]. exists job. split; [by constructor|done].
Qed.

Lemma firstError_None st jobs :
  firstError st jobs = None <-> Forall (fun job => exists v, outcome st job = Ok v) jobs.
Proof.
  induction jobs as [|job jobs IH]; simpl.
  - split; [constructor|done].
  - rewrite Forall_cons. destruct (outcome st job) as [v|e].
    + rewrite IH. split; [eauto|by intros [_ ?]].
    + split; [discriminate|]. by intros [[? [=]] _].
Qed.

Lemma firstError_fails st jobs job e :
  job ∈ jobs -> outcome st job = Err e -> exists e', firstError st jobs = Some e'.
Proof.
  intros Hin He. destruct (firstError st jobs) as [e'|] eqn:Hfirst; [eauto|].
  apply firstError_None in Hfirst. rewrite Forall_forall in Hfirst.
  destruct (Hfirst job Hin) as [v Hv]. congruence.
Qed.

Lemma firstError_first st before job after e :
  Forall (fun job' => exists v, outcome st job' = Ok v) before ->
  outcome st job = Err e ->
  firstError st (before ++ job :: after) = Some e.
Proof.
  intros Hbefore He. induction Hbefore as [|job' before [v Hv] _ IH]; simpl.
  - by rewrite He.
  - by rewrite Hv.
Qed.

Lemma runAll_firstError st jobs : forall rows,
  Forall (fun job => (target job < length rows)%nat) jobs ->
  match firstError st jobs with
  | Some e => runAll st jobs rows = Err e
  | None => exists out, runAll st jobs rows = Ok out
  end.
Proof.
  induction jobs as [|job jobs IH]; intros rows Hrange; simpl; [eauto|].
  apply Forall_cons in Hrange as [Hjob Hrange].
  rewrite complete_outcome.
  destruct (lookup_lt_is_Some_2 _ _ Hjob) as [row ->].
  destruct (outcome st job) as [v|e]; simpl; [|reflexivity].
  apply IH. by rewrite length_insert.
Qed.

Lemma lookupsFrom_in_range first rows job :
  job ∈ lookupsFrom first O rows -> (target job < length rows)%nat.
Proof.
  intros (i & row & Hrow & Hjob)%lookupsFrom_elem_of.
  apply lookupsOf_target in Hjob. apply lookup_lt_Some in Hrow. simpl in Hjob. lia.
Qed.

(** A batch whose loop completes reports the error of the first lookup,
    in the order they settle, that fails; it succeeds when none does. *)
Lemma transformColumns_firstError st picks rows newRecord first rest setFiscalData :
  newRecord && existsb (fun row => negb (truthy (prop row "account_number"))) rows
    = false ->
  let pending := lookupsFrom first O rows in
  match firstError st (settleOrder (length pending) picks pending) with
  | Some e =>
      transformColumns st picks rows newRecord (first :: rest) setFiscalData = Err e
  | None =>
      exists out,
        transformColumns st picks rows newRecord (first :: rest) setFiscalData = Ok out
  end.
Proof.
  intros Hloop pending. rewrite transformColumns_spec, Hloop.
  unfold settle. fold pending. rewrite settleN_runAll.
  apply runAll_firstError. apply Forall_forall. intros job Hjob.
  rewrite (settleOrder_perm _ picks pending eq_refl) in Hjob.
  rewrite length_fmap. by apply lookupsFrom_in_range in Hjob.
Qed.

Lemma loop_completes (newRecord : bool) rows :
  (newRecord = true -> Forall (fun row => truthy (prop row "account_number") = true) rows) ->
  newRecord && existsb (fun row => negb (truthy (prop row "account_number"))) rows
  = false.
Proof.
  destruct newRecord; [|done]. intros Hall. specialize (Hall eq_refl). simpl.
  induction Hall as [|row rows Hrow _ IH]; [done|]. simpl. by rewrite Hrow.
Qed.

(** *** The two batches of an edit *)

Lemma lookupTransaction_Err st recordUuid e :
  lookupTransaction st recordUuid = Err e -> e = NotFound.
Proof.
  unfold lookupTransaction. cbv zeta.
  destruct (length (find st recordUuid true) =? 0)%nat; [by intros [= <-]|done].
Qed.

Lemma runQuery_Err st q e : runQuery st q = Err e -> e = StoreFailure.
Proof.
  destruct q as [uuid|row uuid|row|row]; cbn [runQuery].
  - discriminate.
  - destruct (noAssignment row); [by intros [= <-]|discriminate].
  - destruct (hasUuid _ _); [by intros [= <-]|discriminate].
  - destruct (hasUuid _ _); [by intros [= <-]|discriminate].
Qed.

Lemma runQueries_Err queries : forall st e,
  runQueries st queries = Err e -> e = StoreFailure.
Proof.
  induction queries as [|q queries IH]; intros st e; cbn [runQueries]; [discriminate|].
  destruct (runQuery st q) as [st'|e'] eqn:Hq; cbn [mbind Result_bind].
  - apply IH.
  - intros [= <-]. by apply runQuery_Err in Hq.
Qed.

(** An edit that passes its checks runs the batch of the added rows, then
    that of the changed rows, then the queue. *)
Lemma editTransaction_batches st req o first rest fiscalYear :
  lookupTransaction st (record_uuid req) = Ok (first :: rest) ->
  truthy (prop first "posted") = false ->
  tooFewRows req (first :: rest) = false ->
  lookupFiscalYearByDate (getTransactionDate (changed req) (first :: rest))
    = Ok fiscalYear ->
  truthy (prop fiscalYear "locked") = false ->
  editTransaction req o st =
  match batch st req o (first :: rest) fiscalYear true with
  | Err e => (Err e, st)
  | Ok result =>
      match batch st req o (first :: rest) fiscalYear false with
      | Err e => (Err e, st)
      | Ok result' =>
          match runQueries st (queued req o first result result') with
          | Err e => (Err e, st)
          | Ok st' => (lookupTransaction st' (record_uuid req), st')
          end
      end
  end.
Proof.
  intros Hload Hposted Hrows Hfy Hlocked.
  rewrite (editTransaction_loaded _ _ _ _ _ Hload), Hposted, Hrows.
  rewrite resolveThen_unfold, Hfy, editWithFiscalYear_unfold, Hlocked.
  reflexivity.
Qed.

Lemma batch_firstError st req o first rest fiscalYear (b : bool) :
  Forall (fun row => truthy (prop row "account_number") = true) (added req) ->
  match firstError st (settled req o first b) with
  | Some e => batch st req o (first :: rest) fiscalYear b = Err e
  | None => exists out, batch st req o (first :: rest) fiscalYear b = Ok out
  end.
Proof.
  intros Hadded. unfold settled, scheduled, batch.
  apply transformColumns_firstError. apply loop_completes.
  intros ->. exact Hadded.
Qed.

Lemma batch_Err st req o first rest fiscalYear (b : bool) e :
  Forall (fun row => truthy (prop row "account_number") = true) (added req) ->
  batch st req o (first :: rest) fiscalYear b = Err e
  <-> firstError st (settled req o first b) = Some e.
Proof.
  intros Hadded.
  pose proof (batch_firstError st req o first rest fiscalYear b Hadded) as Hbatch.
  destruct (firstError st (settled req o first b)) as [e'|].
  - rewrite Hbatch. split; intros [= ->]; reflexivity.
  - destruct Hbatch as [out ->]. split; discriminate.
Qed.

Lemma settled_perm req o first (b : bool) :
  settled req o first b ≡ₚ scheduled req first b.
Proof. unfold settled. by apply settleOrder_perm. Qed.

(** C6, as amended.  Take an edit that passes its checks (the transaction
    loads, is not posted, enough rows are left, the fiscal year resolves
    and is open), whose added rows all name an account and whose
    equivalent amounts are numbers, and a row of one of its two batches
    with a truthy [debit_equiv] (or [credit_equiv]).  One rate conversion
    is scheduled for that row and side, and it fails with
    [MISSING_EXCHANGE_RATE] exactly when the converted amount is falsy, a
    genuine zero included.  Each batch fails with the error of the first of
    its lookups, in the order they settle, that fails, and the edit with
    that of the added rows' batch, else with that of the changed rows'
    batch.  So when the converted amount is falsy the edit fails and
    writes nothing, with [MISSING_EXCHANGE_RATE] if no lookup of the edit
    fails with another error, or none fails before this conversion
    settles; when the edit fails with [MISSING_EXCHANGE_RATE] some
    conversion of the edit returned a falsy amount; and when every other
    lookup of the edit delivers, the edit fails with
    [MISSING_EXCHANGE_RATE] if and only if the converted amount is
    falsy.  When the edit succeeds the row's [debit] (or [credit]), in
    the rows its batch hands to the queue, is the converted amount. *)
Theorem conversion_sets_amount_or_rejects st req o first rest fiscalYear
    (newRecord : bool) i row side :
  lookupTransaction st (record_uuid req) = Ok (first :: rest) ->
  truthy (prop first "posted") = false ->
  tooFewRows req (first :: rest) = false ->
  lookupFiscalYearByDate (getTransactionDate (changed req) (first :: rest))
    = Ok fiscalYear ->
  truthy (prop fiscalYear "locked") = false ->
  Forall (fun row => truthy (prop row "account_number") = true) (added req) ->
  numericAmounts (added req) = true ->
  numericAmounts (changed req).*2 = true ->
  batchRows req newRecord !! i = Some row ->
  truthy (prop row (equivOf side)) = true ->
  let missing := BadRequest "POSTING_JOURNAL.ERRORS.MISSING_EXCHANGE_RATE" in
  let job := conversionOf first i row side in
  let lookups := scheduled req first true ++ scheduled req first false in
  job ∈ scheduled req first newRecord
  /\ (forall row0,
        assign (assignment job) (exec st (request job)) row0 = Err missing
        <-> falsyAmount st job)
  /\ (outcome st job = Err missing <-> falsyAmount st job)
  /\ (forall (b : bool) e,
        batch st req o (first :: rest) fiscalYear b = Err e
        <-> firstError st (settled req o first b) = Some e)
  /\ (forall e, e <> NotFound -> e <> StoreFailure ->
        ((editTransaction req o st).1 = Err e
         <-> firstError st (settled req o first true) = Some e
             \/ (firstError st (settled req o first true) = None
                 /\ firstError st (settled req o first false) = Some e)))
  /\ (falsyAmount st job -> exists e, editTransaction req o st = (Err e, st))
  /\ (falsyAmount st job ->
      (forall job' e, job' ∈ lookups -> outcome st job' = Err e -> e = missing) ->
      editTransaction req o st = (Err missing, st))
  /\ (falsyAmount st job ->
      forall before after,
        settled req o first newRecord = before ++ job :: after ->
        Forall (fun job' => exists v, outcome st job' = Ok v) before ->
        (newRecord = false -> firstError st (settled req o first true) = None) ->
        editTransaction req o st = (Err missing, st))
  /\ ((editTransaction req o st).1 = Err missing ->
      exists job' side',
        job' ∈ lookups /\ assignment job' = handlerOf side' /\ falsyAmount st job')
  /\ ((forall job', job' ∈ lookups -> job' = job \/ exists v, outcome st job' = Ok v) ->
      ((editTransaction req o st).1 = Err missing <-> falsyAmount st job))
  /\ (succeeded (editTransaction req o st).1 = true ->
      exists out a row',
        batch st req o (first :: rest) fiscalYear newRecord = Ok out
        /\ convertedAmount st job = Some a /\ truthy a = true
        /\ out !! i = Some row' /\ row' !! amountOf side = Some a).
Proof.
  intros Hload Hposted Hrows Hfy Hlocked Hadded _ _ Hrow Hequiv missing job lookups.
  pose proof (editTransaction_batches st req o first rest fiscalYear Hload Hposted
                Hrows Hfy Hlocked) as Hedit.
  pose proof (fun b => batch_firstError st req o first rest fiscalYear b Hadded)
    as Hbatch.
  assert (Hjob : job ∈ scheduled req first newRecord).
  { apply lookupsFrom_elem_of. exists i, row. split; [done|].
    by apply conversionOf_scheduled. }
  assert (Hhandler : outcome st job = Err missing <-> falsyAmount st job).
  { unfold missing. rewrite conversion_outcome_missing. unfold falsyAmount. split.
    - intros (side' & a & _ & ? & ?). eauto.
    - intros (a & ? & ?). exists side, a. done. }
  assert (Herror : forall e, e <> NotFound -> e <> StoreFailure ->
    ((editTransaction req o st).1 = Err e
     <-> firstError st (settled req o first true) = Some e
         \/ (firstError st (settled req o first true) = None
             /\ firstError st (settled req o first false) = Some e))).
  { intros e Hnf Hsf. rewrite Hedit.
    pose proof (Hbatch true) as Htrue. pose proof (Hbatch false) as Hfalse.
    destruct (firstError st (settled req o first true)) as [e1|].
    { rewrite Htrue. cbn [fst]. split.
      - intros [= ->]. by left.
      - intros [[= ->]|[[=] _]]. reflexivity. }
    destruct Htrue as [result ->].
    destruct (firstError st (settled req o first false)) as [e2|].
    { rewrite Hfalse. cbn [fst]. split.
      - intros [= ->]. by right.
      - intros [[=]|[_ [= ->]]]. reflexivity. }
    destruct Hfalse as [result' ->].
    split; [|by intros [[=]|[_ [=]]]].
    destruct (runQueries st _) as [st'|e'] eqn:Hrun; cbn [fst].
    - intros He. by apply lookupTransaction_Err in He.
    - intros [= ->]. by apply runQueries_Err in Hrun. }
  assert (Hfails : forall e, outcome st job = Err e ->
    exists e', editTransaction req o st = (Err e', st)).
  { intros e He. rewrite Hedit.
    assert (Hsettled : job ∈ settled req o first newRecord) by by rewrite settled_perm.
    destruct (firstError_fails _ _ _ _ Hsettled He) as [e' He'].
    pose proof (Hbatch true) as Htrue. pose proof (Hbatch false) as Hfalse.
    destruct (firstError st (settled req o first true)) as [e1|] eqn:H1.
    { rewrite Htrue. eauto. }
    destruct Htrue as [result ->].
    destruct newRecord; [congruence|].
    rewrite He' in Hfalse. rewrite Hfalse. eauto. }
  assert (Hmasked : falsyAmount st job ->
    (forall job' e, job' ∈ lookups -> outcome st job' = Err e -> e = missing) ->
    editTransaction req o st = (Err missing, st)).
  { intros Hfalsy%Hhandler Honly.
    destruct (Hfails _ Hfalsy) as [e He]. rewrite He. do 2 f_equal.
    assert (Hin : forall (b : bool) e',
               firstError st (settled req o first b) = Some e' -> e' = missing).
    { intros b e' (job' & Hjob' & He')%firstError_Some.
      apply (Honly job' e'); [|done]. rewrite settled_perm in Hjob'.
      unfold lookups. rewrite elem_of_app. destruct b; auto. }
    rewrite Hedit in He.
    pose proof (Hbatch true) as Htrue. pose proof (Hbatch false) as Hfalse.
    destruct (firstError st (settled req o first true)) as [e1|] eqn:H1.
    { rewrite Htrue in He. injection He as <-. by apply (Hin true). }
    destruct Htrue as [result Hresult]. rewrite Hresult in He.
    destruct (firstError st (settled req o first false)) as [e2|] eqn:H2.
    { rewrite Hfalse in He. injection He as <-. by apply (Hin false). }
    exfalso.
    assert (Hsettled : job ∈ settled req o first newRecord) by by rewrite settled_perm.
    destruct (firstError_fails _ _ _ _ Hsettled Hfalsy) as [e' He'].
    destruct newRecord; congruence. }
  assert (Honlyif : (editTransaction req o st).1 = Err missing ->
    exists job' side',
      job' ∈ lookups /\ assignment job' = handlerOf side' /\ falsyAmount st job').
  { intros He. apply Herror in He; [|done|done].
    assert (Hsome : exists b : bool,
               firstError st (settled req o first b) = Some missing).
    { destruct He as [?|[_ ?]]; eauto. }
    destruct Hsome as (b & (job' & Hjob' & He')%firstError_Some).
    apply conversion_outcome_missing in He' as (side' & a & Hside & Ha & Hfalsy).
    exists job', side'. split_and!; [|done|by exists a].
    rewrite settled_perm in Hjob'. unfold lookups. rewrite elem_of_app.
    destruct b; auto. }
  split_and!; try done.
  - intros row0. rewrite <- Hhandler, assign_extract. fold (outcome st job).
    destruct (outcome st job) as [v|e]; cbn [mbind Result_bind].
    + split; discriminate.
    + split; intros [= ->]; reflexivity.
  - intros b e. by apply batch_Err.
  - intros Hfalsy%Hhandler. by apply Hfails in Hfalsy.
  - intros Hfalsy%Hhandler before after Hsettled Hbefore Hadd.
    pose proof (firstError_first st before job after missing Hbefore Hfalsy) as Hfirst.
    rewrite <- Hsettled in Hfirst.
    rewrite Hedit.
    pose proof (Hbatch true) as Htrue. pose proof (Hbatch false) as Hfalse.
    destruct newRecord.
    + rewrite Hfirst in Htrue. by rewrite Htrue.
    + rewrite (Hadd eq_refl) in Htrue. destruct Htrue as [result ->].
      rewrite Hfirst in Hfalse. by rewrite Hfalse.
  - intros Hothers. split.
    + intros (job' & side' & Hjob' & Hside & Hfalsy)%Honlyif.
      destruct (Hothers job' Hjob') as [->|[v Hv]]; [done|].
      destruct Hfalsy as (a & Ha & Hfalsy).
      assert (Hmissing : outcome st job' = Err missing).
      { apply conversion_outcome_missing. by exists side', a. }
      congruence.
    + intros Hfalsy. rewrite (Hmasked Hfalsy); [reflexivity|].
      intros job' e Hjob' He. destruct (Hothers job' Hjob') as [->|[v Hv]].
      * apply Hhandler in Hfalsy. congruence.
      * congruence.
  - rewrite Hedit. intros Hok.
    assert (Hboth : forall b : bool,
               exists out, batch st req o (first :: rest) fiscalYear b = Ok out).
    { destruct (batch st req o (first :: rest) fiscalYear true) as [result|e] eqn:Htrue;
        [|discriminate Hok].
      destruct (batch st req o (first :: rest) fiscalYear false) as [result'|e]
        eqn:Hfalse; [|discriminate Hok].
      intros []; eauto. }
    destruct (Hboth newRecord) as [out Hout]. exists out.
    pose proof Hout as Hrun. unfold batch in Hrun.
    apply transformColumns_rows in Hrun as (_ & Hin & _).
    destruct (Hin job Hjob) as (v & row' & Hv & Hrow' & Hfield).
    apply (conversion_outcome_Ok _ _ side) in Hv as [Ha Htruthy]; [|done].
    exists v, row'. split_and!; try done. by destruct side.
Qed.


(** *** Results and the rows that asked for them *)

Lemma each_eachRow newRecord first setFiscalData rows rows' pending i row :
  each newRecord first setFiscalData O rows = Ok (rows', pending) ->
  rows !! i = Some row ->
  eachRow newRecord first setFiscalData i row
    = Ok (afterLoop setFiscalData row, lookupsOf first i row).
Proof.
  rewrite each_spec, eachRow_spec. intros Heach Hrow.
  destruct newRecord; [|reflexivity]. simpl in *.
  destruct (existsb _ rows) eqn:Hex; [discriminate|].
  destruct (truthy (prop row "account_number")) eqn:Hacc; [reflexivity|].
  assert (Hin : In row rows) by (apply list_elem_of_In; by eapply list_elem_of_lookup_2).
  assert (existsb (fun row => negb (truthy (prop row "account_number"))) rows = true).
  { apply existsb_exists. exists row. by rewrite Hacc. }
  congruence.
Qed.

(** Every order of the pending promises is the order of some oracle. *)
Lemma settleOrder_complete order : forall pending,
  order ≡ₚ pending ->
  exists picks, settleOrder (length pending) picks pending = order.
Proof.
  induction order as [|job order IH]; intros pending Hperm.
  - apply Permutation.Permutation_nil in Hperm. subst pending. by exists [].
  - assert (Hjob : job ∈ pending) by (rewrite <- Hperm; by constructor).
    apply list_elem_of_lookup in Hjob as [k Hk].
    assert (Hlt := lookup_lt_Some _ _ _ Hk).
    destruct (IH (delete k pending)) as [picks Hpicks].
    { apply (Permutation_cons_inv (a := job)).
      by rewrite Hperm, <- (delete_Permutation pending k job Hk). }
    exists (k :: picks).
    replace (length pending) with (S (length (delete k pending)))
      by (rewrite length_delete by eauto; lia).
    simpl. rewrite Nat.mod_small by done. by rewrite Hk, Hpicks.
Qed.

(** C9.  When a batch succeeds under one settling order it succeeds with
    the same rows under every other, the scheduled lookups settling in any
    order whatever; each lookup scheduled from a row has left the value its
    handler extracts in its own property of that same row; and every other
    property of every row is as the loop left it. *)
Theorem lookup_results_land_on_their_own_rows st picks picks' rows newRecord
    first rest setFiscalData rows' pending out :
  each newRecord first setFiscalData O rows = Ok (rows', pending) ->
  transformColumns st picks rows newRecord (first :: rest) setFiscalData = Ok out ->
  transformColumns st picks' rows newRecord (first :: rest) setFiscalData = Ok out
  /\ length out = length rows
  /\ (forall job, job ∈ pending ->
        exists (row row1 : Row) pushed v (row' : Row),
          rows !! target job = Some row
          /\ eachRow newRecord first setFiscalData (target job) row = Ok (row1, pushed)
          /\ job ∈ pushed
          /\ (forall row0,
                assign (assignment job) (exec st (request job)) row0
                = Ok (<[fieldOf (assignment job) := v]> row0))
          /\ out !! target job = Some row'
          /\ row' !! fieldOf (assignment job) = Some v)
  /\ (forall i (row1 : Row) k,
        rows' !! i = Some row1 ->
        (forall job, job ∈ pending -> target job = i ->
                     fieldOf (assignment job) <> k) ->
        exists row' : Row, out !! i = Some row' /\ row' !! k = row1 !! k).
Proof.
  intros Heach Hrun.
  destruct (each_Ok _ _ _ _ _ _ Heach) as [Hrows' Hpending].
  destruct (transformColumns_rows _ _ _ _ _ _ _ _ Hrun) as (Hlen & Hin & Hout).
  split_and!.
  - assert (Heq := transformColumns_order_irrelevant st picks picks' rows newRecord
                     (first :: rest) setFiscalData).
    rewrite Hrun in Heq.
    destruct (transformColumns st picks' _ _ _ _); cbn [fulfilled] in Heq;
      [by injection Heq as <- | discriminate Heq].
  - done.
  - intros job Hjob. rewrite Hpending in Hjob.
    destruct (Hin job Hjob) as (v & row' & Hv & Hrow' & Hfield).
    apply lookupsFrom_elem_of in Hjob as (i & row & Hrow & Hjob). simpl in Hjob.
    assert (Hi := lookupsOf_target _ _ _ _ Hjob). subst i.
    exists row, (afterLoop setFiscalData row), (lookupsOf first (target job) row), v, row'.
    split_and!; try done.
    + by eapply each_eachRow.
    + intros row0. rewrite assign_extract. fold (outcome st job). by rewrite Hv.
  - intros i row1 k Hrow1 Hfree. rewrite Hrows' in Hrow1.
    apply list_lookup_fmap_Some in Hrow1 as (row & -> & Hrow).
    apply (Hout i row k Hrow).
    intros (job & Hjob & Hkey)%Exists_exists. injection Hkey as Ht Hk.
    rewrite <- Hpending in Hjob. by apply (Hfree job Hjob Ht).
Qed.

End Facts.

End JournalFacts.

(** ** The journal controller on the sample data *)

Module JournalExamples.
Import Journal JournalSpec JournalFacts.

(** Both sample transactions load, and what loads for [R1] is unposted. *)
Lemma loadedR1_cons :
  lookupTransaction Sample.store "R1"
  = Ok (default ∅ (head Sample.loadedR1) :: tail Sample.loadedR1).
Proof. apply lookupTransaction_find_cons. vm_compute. reflexivity. Qed.

Lemma loadedR1_unposted first :
  head (default ∅ (head Sample.loadedR1) :: tail Sample.loadedR1) = Some first ->
  truthy (prop first "posted") = false.
Proof. intros [= <-]. vm_compute. reflexivity. Qed.

(** C5 on the sample: an edit of the posted transaction [R2]. *)
Lemma posted_transaction_cannot_be_edited_witness :
  editTransaction (H := Sample.platform) Sample.editPosted Sample.oracle Sample.store =
  (Err (BadRequest "POSTING_JOURNAL.ERRORS.TRANSACTION_ALREADY_POSTED"), Sample.store).
Proof.
  apply (@posted_transaction_cannot_be_edited Sample.platform Sample.store
           Sample.editPosted Sample.oracle (find Sample.store "R2" true)).
  - apply lookupTransaction_find. vm_compute. reflexivity.
  - apply (bool_decide_unpack _). vm_compute. exact I.
Defined.

(** One of the two rows of [R1] removed: the edit is refused. *)
Example one_row_left_is_rejected :
  editTransaction (H := Sample.platform) Sample.editLeavingOneRow Sample.oracle
    Sample.store =
  (Err (BadRequest "POSTING_JOURNAL.ERRORS.TRANSACTION_MUST_CONTAIN_ROWS"), Sample.store).
Proof.
  apply (@too_few_rows_is_rejected Sample.platform Sample.store
           Sample.editLeavingOneRow Sample.oracle
           (default ∅ (head Sample.loadedR1) :: tail Sample.loadedR1)).
  - exact loadedR1_cons.
  - exact loadedR1_unposted.
  - vm_compute. reflexivity.
  - left. vm_compute. reflexivity.
Qed.

(** The posted check comes first.  Removing one row of the posted
    transaction [R2] would leave a single row, yet the edit is refused as
    [TRANSACTION_ALREADY_POSTED]. *)
Example posted_transaction_is_refused_as_posted :
  rowsLeft Sample.editPosted (find Sample.store "R2" true) = 1
  /\ editTransaction (H := Sample.platform) Sample.editPosted Sample.oracle Sample.store
     = (Err (BadRequest "POSTING_JOURNAL.ERRORS.TRANSACTION_ALREADY_POSTED"),
        Sample.store).
Proof.
  split; [vm_compute; reflexivity|].
  apply (@editTransaction_posted Sample.platform Sample.store Sample.editPosted
           Sample.oracle (default ∅ (head (find Sample.store "R2" true)))
           (tail (find Sample.store "R2" true))).
  - apply lookupTransaction_find_cons. vm_compute. reflexivity.
  - vm_compute. reflexivity.
Qed.

(** C1.  The row count the controller tests is not the count of rows the
    edit would leave.  For a transaction that loads and is not posted, an
    edit that would leave exactly one row, or fewer than two with no row
    added, is refused with [TRANSACTION_MUST_CONTAIN_ROWS] and writes
    nothing; an edit that adds a row and would leave no row, or a negative
    count, passes the check.  On the sample, [R1] has two rows, not
    posted; the request names three rows for removal, the two of [R1] and
    one of [R3], and adds one, so that zero rows would be left.  The edit
    is not refused: it is committed with its history record, and leaves
    [R1] with a single row, and [R3] too. *)
Theorem edit_leaving_no_row_is_committed :
  (forall (P : Platform) st req o existing,
     lookupTransaction st (record_uuid req) = Ok existing ->
     (forall first, head existing = Some first -> truthy (prop first "posted") = false) ->
     rowsLeft req existing < 2 ->
     rowsLeft req existing = 1 \/ added req = [] ->
     editTransaction req o st =
     (Err (BadRequest "POSTING_JOURNAL.ERRORS.TRANSACTION_MUST_CONTAIN_ROWS"), st))
  /\ (forall (P : Platform) st req o existing,
        lookupTransaction st (record_uuid req) = Ok existing ->
        (forall first, head existing = Some first ->
                       truthy (prop first "posted") = false) ->
        rowsLeft req existing < 1 ->
        added req <> [] ->
        editTransaction req o st =
        resolveThen (getTransactionDate (changed req) existing) req o existing st)
  /\ lookupTransaction Sample.store "R1" = Ok Sample.loadedR1
  /\ length Sample.loadedR1 = 2%nat
  /\ Forall (fun row => truthy (prop row "posted") = false) Sample.loadedR1
  /\ rowsLeft Sample.editRemovingTooMany Sample.loadedR1 = 0
  /\ succeeded
       (editTransaction (H := Sample.platform) Sample.editRemovingTooMany Sample.oracle
          Sample.store).1 = true
  /\ length
       (find
          (editTransaction (H := Sample.platform) Sample.editRemovingTooMany
             Sample.oracle Sample.store).2 "R1" true) = 1%nat
  /\ length
       (find
          (editTransaction (H := Sample.platform) Sample.editRemovingTooMany
             Sample.oracle Sample.store).2 "R3" true) = 1%nat
  /\ length
       (transaction_history
          (editTransaction (H := Sample.platform) Sample.editRemovingTooMany
             Sample.oracle Sample.store).2) = 1%nat
  /\ transaction_history Sample.store = [].
Proof.
  split_and!.
  - intros P st req o existing. apply too_few_rows_is_rejected.
  - intros P st req o existing. apply no_row_left_is_not_rejected.
  - apply lookupTransaction_find. vm_compute. reflexivity.
  - vm_compute. reflexivity.
  - apply (bool_decide_unpack _). vm_compute. exact I.
  - vm_compute. reflexivity.
  - vm_compute. reflexivity.
  - vm_compute. reflexivity.
  - vm_compute. reflexivity.
  - vm_compute. reflexivity.
  - reflexivity.
Qed.

(** C4 on the sample: a row is added to [R1] under an account number that
    does not exist. *)
Lemma failed_lookup_leaves_database_unchanged_witness :
  exists e,
    editTransaction (H := Sample.platform) Sample.editUnknownAccount Sample.oracle
      Sample.store = (Err e, Sample.store).
Proof.
  apply (@failed_lookup_leaves_database_unchanged Sample.platform Sample.store
           Sample.editUnknownAccount Sample.oracle
           (default ∅ (head Sample.loadedR1)) (tail Sample.loadedR1) Sample.fiscal2024).
  - exact loadedR1_cons.
  - vm_compute. reflexivity.
  - left. eexists _, _, _. split; [|split].
    + rewrite each_spec. reflexivity.
    + simpl. left.
    + exists (BadRequest "POSTING_JOURNAL.ERRORS.EDIT_INVALID_ACCOUNT").
      intros row. vm_compute. reflexivity.
Defined.

(** C2 on the sample: [R1] is dated 2024-01-01 and its row [a1] is changed
    to the 2024-02-15; the fiscal year is resolved for the latter. *)
Lemma fiscal_year_is_resolved_for_changed_else_existing_date_witness :
  editTransaction (H := Sample.platform) Sample.editRedated Sample.oracle Sample.store
  = resolveThen (H := Sample.platform) (JStr "2024-02-15") Sample.editRedated
      Sample.oracle (default ∅ (head Sample.loadedR1) :: tail Sample.loadedR1)
      Sample.store.
Proof.
  destruct (@fiscal_year_is_resolved_for_changed_else_existing_date Sample.platform
              Sample.store Sample.editRedated Sample.oracle
              (default ∅ (head Sample.loadedR1) :: tail Sample.loadedR1))
    as [Hedit Hdate].
  - exact loadedR1_cons.
  - exact loadedR1_unposted.
  - vm_compute. reflexivity.
  - rewrite Hedit.
    rewrite (Hdate [] "a1" {[ "trans_date" := JStr "2024-02-15" ]} eq_refl eq_refl).
    reflexivity.
Defined.

(** C2 as stated fails.  A row dated 2024-02-15 is added to [R1], dated
    2024-01-01, and no row is changed: were the added rows consulted the
    new row would be stamped with February's period 202; the controller
    resolves the fiscal year of the existing date and stamps period 201. *)
Lemma added_rows_do_not_set_the_effective_date :
  ~ (forall (P : Platform) st req o existing,
       lookupTransaction st (record_uuid req) = Ok existing ->
       (forall first, head existing = Some first ->
                      truthy (prop first "posted") = false) ->
       tooFewRows req existing = false ->
       editTransaction req o st
       = resolveThen (dateWithAdded (changed req) (added req) existing) req o
           existing st).
Proof.
  intros Hclaim.
  specialize (Hclaim Sample.platform Sample.store Sample.editAddingDated Sample.oracle
                _ loadedR1_cons loadedR1_unposted).
  assert (Hrows : tooFewRows Sample.editAddingDated
                    (default ∅ (head Sample.loadedR1) :: tail Sample.loadedR1) = false).
  { vm_compute. reflexivity. }
  specialize (Hclaim Hrows).
  apply (f_equal (fun outcome : Result (list Row) * Store =>
                    (fun row => prop row "period_id") <$> posting_journal outcome.2))
    in Hclaim.
  vm_compute in Hclaim. discriminate Hclaim.
Qed.

(** C3 on the sample: the edit that moves row [a1] to the 2024-02-15. *)
Lemma dated_rows_are_stamped_with_resolved_fiscal_year_witness :
  exists existing fiscalYear result result',
    lookupTransaction Sample.store "R1" = Ok existing
    /\ lookupFiscalYearByDate (Platform := Sample.platform)
         (getTransactionDate (changed Sample.editRedated) existing) = Ok fiscalYear
    /\ transformColumns (H := Sample.platform) Sample.store [] [] true existing
         fiscalYear = Ok result
    /\ transformColumns (H := Sample.platform) Sample.store []
         (changed Sample.editRedated).*2 false existing fiscalYear = Ok result'
    /\ runQueries Sample.store
         (queued Sample.editRedated Sample.oracle (default ∅ (head existing))
            result result')
       = Ok (editTransaction (H := Sample.platform) Sample.editRedated Sample.oracle
               Sample.store).2
    /\ stamped (H := Sample.platform) fiscalYear [] result
    /\ stamped (H := Sample.platform) fiscalYear (changed Sample.editRedated).*2 result'.
Proof.
  apply (proj2 (proj2 (@dated_rows_are_stamped_with_resolved_fiscal_year
                         Sample.platform))
           Sample.editRedated Sample.oracle Sample.store).
  vm_compute. reflexivity.
Defined.

(** Transaction [R3] loads too, and is not posted. *)
Lemma loadedR3_cons :
  lookupTransaction Sample.store "R3"
  = Ok (default ∅ (head Sample.loadedR3) :: tail Sample.loadedR3).
Proof. apply lookupTransaction_find_cons. vm_compute. reflexivity. Qed.

(** C6 on the sample: row [a1] of [R1] (currency 2, rate 2) is changed to a
    [debit_equiv] of 7; the edit succeeds and the row's [debit] is 14. *)
Lemma conversion_sets_amount_or_rejects_witness :
  exists out a row',
    batch (H := Sample.platform) Sample.store Sample.editConverted Sample.oracle
      (default ∅ (head Sample.loadedR1) :: tail Sample.loadedR1) Sample.fiscal2024
      false = Ok out
    /\ convertedAmount (H := Sample.platform) Sample.store
         (conversionOf (H := Sample.platform) (default ∅ (head Sample.loadedR1)) O
            Sample.convertedRow Debit) = Some a
    /\ truthy a = true
    /\ out !! O = Some row'
    /\ row' !! "debit" = Some a.
Proof.
  refine (proj2 (proj2 (proj2 (proj2 (proj2 (proj2 (proj2 (proj2 (proj2 (proj2
    (@conversion_sets_amount_or_rejects Sample.platform Sample.store
       Sample.editConverted Sample.oracle (default ∅ (head Sample.loadedR1))
       (tail Sample.loadedR1) Sample.fiscal2024 false O Sample.convertedRow Debit
       loadedR1_cons _ _ _ _ _ _ _ _ _)))))))))) _).
  - vm_compute. reflexivity.
  - vm_compute. reflexivity.
  - vm_compute. reflexivity.
  - vm_compute. reflexivity.
  - constructor.
  - reflexivity.
  - vm_compute. reflexivity.
  - reflexivity.
  - vm_compute. reflexivity.
  - vm_compute. reflexivity.
Defined.

(** The rows that batch hands to the queue: a [debit] of 14. *)
Example converted_amount_is_written :
  batch (H := Sample.platform) Sample.store Sample.editConverted Sample.oracle
    (default ∅ (head Sample.loadedR1) :: tail Sample.loadedR1) Sample.fiscal2024 false
  = Ok [ {[ "debit_equiv" := JNum 7; "debit" := JNum 14 ]} ].
Proof. vm_compute. reflexivity. Qed.

(** C6 as stated fails.  Row [c1] of [R3] (currency 3, no rate) is changed
    to an account number that does not exist and to a [debit_equiv] of 5:
    the converted amount is [NULL], hence falsy, yet with the lookups
    settling in the order they were issued the edit fails on the account,
    with [EDIT_INVALID_ACCOUNT]. *)
Lemma missing_rate_is_masked_by_earlier_failure :
  ~ (forall (P : Platform) st req o first rest fiscalYear (newRecord : bool) i row side,
       lookupTransaction st (record_uuid req) = Ok (first :: rest) ->
       truthy (prop first "posted") = false ->
       tooFewRows req (first :: rest) = false ->
       lookupFiscalYearByDate (getTransactionDate (changed req) (first :: rest))
         = Ok fiscalYear ->
       truthy (prop fiscalYear "locked") = false ->
       batchRows req newRecord !! i = Some row ->
       truthy (prop row (equivOf side)) = true ->
       ((editTransaction req o st).1
        = Err (BadRequest "POSTING_JOURNAL.ERRORS.MISSING_EXCHANGE_RATE")
        <-> exists a, convertedAmount st (conversionOf first i row side) = Some a
                      /\ truthy a = false)).
Proof.
  intros Hclaim.
  destruct (Hclaim Sample.platform Sample.store Sample.editUnknownAccountNoRate
              Sample.oracle (default ∅ (head Sample.loadedR3)) (tail Sample.loadedR3)
              Sample.fiscal2024 false O
              {[ "account_number" := JNum 9999; "debit_equiv" := JNum 5 ]} Debit
              loadedR3_cons) as [_ Hmissing].
  - vm_compute. reflexivity.
  - vm_compute. reflexivity.
  - vm_compute. reflexivity.
  - vm_compute. reflexivity.
  - reflexivity.
  - vm_compute. reflexivity.
  - assert (Hfalsy : exists a,
      convertedAmount (H := Sample.platform) Sample.store
        (conversionOf (H := Sample.platform) (default ∅ (head Sample.loadedR3)) O
           {[ "account_number" := JNum 9999; "debit_equiv" := JNum 5 ]} Debit) = Some a
      /\ truthy a = false).
    { exists JNull. split; vm_compute; reflexivity. }
    apply Hmissing in Hfalsy. vm_compute in Hfalsy. discriminate Hfalsy.
Qed.

(** The error that edit reports. *)
Example unknown_account_masks_missing_rate :
  (editTransaction (H := Sample.platform) Sample.editUnknownAccountNoRate Sample.oracle
     Sample.store).1
  = Err (BadRequest "POSTING_JOURNAL.ERRORS.EDIT_INVALID_ACCOUNT").
Proof. vm_compute. reflexivity. Qed.

(** With the conversion settling first, the same edit reports the missing
    rate. *)
Example missing_rate_shows_when_it_settles_first :
  (editTransaction (H := Sample.platform) Sample.editUnknownAccountNoRate
     {| addedOrder := []; changedOrder := [1%nat]; historyUuid := "h1" |}
     Sample.store).1
  = Err (BadRequest "POSTING_JOURNAL.ERRORS.MISSING_EXCHANGE_RATE").
Proof. vm_compute. reflexivity. Qed.

(** An equivalent amount of zero does not count as set: no conversion is
    scheduled for it. *)
Example zero_equivalent_schedules_no_conversion :
  lookupsFrom (H := Sample.platform) (default ∅ (head Sample.loadedR1)) O
    [ {[ "debit_equiv" := JNum 0 ]} ] = [].
Proof. reflexivity. Qed.

(** A rate of zero converts to a genuine zero, which counts as missing. *)
Example zero_amount_counts_as_missing :
  editTransaction
    (H := {| Date_parse := Sample.sampleParse;
             GetExchangeRate := fun _ _ _ => JNum 0;
             lookupFiscalYearByDate := Sample.sampleFiscalYear |})
    Sample.editConverted Sample.oracle Sample.store
  = (Err (BadRequest "POSTING_JOURNAL.ERRORS.MISSING_EXCHANGE_RATE"), Sample.store).
Proof. vm_compute. reflexivity. Qed.

(** C9 on the sample: two rows, each under its own account number; the
    lookups settle in the order issued, or in the reverse order. *)
Lemma lookup_results_land_on_their_own_rows_witness :
  transformColumns (H := Sample.platform) Sample.store [1%nat; 0%nat] Sample.twoAccounts
    false (default ∅ (head Sample.loadedR1) :: tail Sample.loadedR1) Sample.fiscal2024
  = Ok [ {[ "account_id" := JNum 10 ]}; {[ "account_id" := JNum 11 ]} ].
Proof.
  refine (proj1
    (@lookup_results_land_on_their_own_rows Sample.platform Sample.store []
       [1%nat; 0%nat] Sample.twoAccounts false (default ∅ (head Sample.loadedR1))
       (tail Sample.loadedR1) Sample.fiscal2024 _ _ _ _ _)).
  - rewrite each_spec. reflexivity.
  - vm_compute. reflexivity.
Defined.

End JournalExamples.

(** ** Opening balances: facts *)

Module AccountExtrasFacts.
Import AccountExtras AccountExtrasSpec.

(** *** A [WHERE] clause as a filter on a decidable property *)

Lemma where_filter {A} (cond : A -> bool) (P : A -> Prop) `{!forall x, Decision (P x)}
    (rows : list A) :
  (forall x, cond x = true <-> P x) ->
  List.filter cond rows = filter P rows.
Proof.
  intros Hcond. induction rows as [|x rows IH]; simpl; [reflexivity|].
  rewrite filter_cons, IH. destruct (decide (P x)) as [HP|HP].
  - apply Hcond in HP. by rewrite HP.
  - destruct (cond x) eqn:Hx; [|reflexivity]. by apply Hcond in Hx.
Qed.

Lemma filter_narrow {A} (P Q : A -> Prop) `{!forall x, Decision (P x)}
    `{!forall x, Decision (Q x)} (rows : list A) :
  (forall x, P x -> Q x) -> filter P rows = filter P (filter Q rows).
Proof.
  intros HPQ. rewrite list_filter_filter. apply list_filter_iff.
  intros x. split; [auto|tauto].
Qed.

Lemma isTrue_sqlAnd a b :
  isTrue (sqlAnd a b) = true <-> isTrue a = true /\ isTrue b = true.
Proof. destruct a as [[]|], b as [[]|]; simpl; intuition discriminate. Qed.

Lemma isTrue_sqlOr a b :
  isTrue (sqlOr a b) = true <-> isTrue a = true \/ isTrue b = true.
Proof. destruct a as [[]|], b as [[]|]; simpl; intuition discriminate. Qed.

Lemma isTrue_ends_before (end_date : option Z) (date : Z) :
  isTrue (sqlCmp Z.ltb (DATE <$> end_date) (Some (DATE date))) = true
  <-> exists e, end_date = Some e /\ DATE e < DATE date.
Proof.
  destruct end_date as [e|]; simpl.
  - rewrite Z.ltb_lt. split; [eauto|]. by intros (? & [= <-] & ?).
  - split; [discriminate|]. by intros (? & [=] & _).
Qed.

Lemma periodCondition_true accountId date fiscalYearId (row : period_total * period) :
  isTrue
    (sqlAnd
       (sqlAnd (Some (pt_account_id row.1 =? accountId))
          (sqlOr (Some (p_number row.2 =? 0))
             (sqlCmp Z.ltb (DATE <$> p_end_date row.2) (Some (DATE date)))))
       (Some (p_fiscal_year_id row.2 =? fiscalYearId))) = true
  <-> beforePeriodOf accountId date fiscalYearId row.
Proof.
  unfold beforePeriodOf.
  rewrite !isTrue_sqlAnd, isTrue_sqlOr, isTrue_ends_before. simpl.
  rewrite !Z.eqb_eq. tauto.
Qed.

Lemma dateOperator_true accountId date periodId (includeMaxDate : bool) line :
  (gl_account_id line =? accountId)
  && dateOperatorCmp (if includeMaxDate then "<=" else "<")
       (DATE (gl_trans_date line)) (DATE date)
  && (gl_period_id line =? periodId) = true
  <-> inPeriodUntil accountId date periodId includeMaxDate line.
Proof.
  unfold inPeriodUntil. rewrite !andb_true_iff, !Z.eqb_eq.
  destruct includeMaxDate; simpl; unfold dateOperatorCmp; simpl;
    rewrite ?Z.leb_le, ?Z.ltb_lt; tauto.
Qed.

(** *** The two summation queries *)

Lemma getPeriodAccountBalanceUntilDate_sums db accountId date fiscalYearId :
  getPeriodAccountBalanceUntilDate db accountId date fiscalYearId =
  let rows := filter (beforePeriodOf accountId date fiscalYearId) (joinPeriod db) in
  Ok {| debit := total (fun row => pt_debit row.1) rows;
        credit := total (fun row => pt_credit row.1) rows;
        balance := total (fun row => pt_debit row.1 - pt_credit row.1)%Q rows |}.
Proof.
  unfold getPeriodAccountBalanceUntilDate, total. cbv zeta.
  rewrite (where_filter _ (beforePeriodOf accountId date fiscalYearId)).
  - simpl. do 2 f_equal; do 2 f_equal;
      apply Forall_fmap_ext_1, Forall_forall; by intros [pt p] _.
  - intros [pt p]. apply (periodCondition_true accountId date fiscalYearId (pt, p)).
Qed.

Lemma getComputedAccountBalanceUntilDate_sums db accountId date periodId includeMaxDate :
  getComputedAccountBalanceUntilDate db accountId date periodId includeMaxDate =
  let rows :=
    filter (inPeriodUntil accountId date periodId includeMaxDate) (ledger db) in
  Ok {| debit := total gl_debit rows;
        credit := total gl_credit rows;
        balance := total (fun line => gl_debit_equiv line - gl_credit_equiv line)%Q rows |}.
Proof.
  unfold getComputedAccountBalanceUntilDate, total. cbv zeta.
  rewrite (where_filter _ (inPeriodUntil accountId date periodId includeMaxDate)).
  - reflexivity.
  - intros line. apply dateOperator_true.
Qed.

Lemma elem_of_joinPeriod db pt p :
  (pt, p) ∈ joinPeriod db
  <-> pt ∈ period_totals db /\ p ∈ periods db /\ p_id p = pt_period_id pt.
Proof.
  unfold joinPeriod. rewrite list_elem_of_bind. split.
  - intros (pt' & Hp & Hpt). apply list_elem_of_bind in Hp as (p' & Hrow & Hp').
    apply list_elem_of_singleton in Hrow. injection Hrow as -> ->.
    apply list_elem_of_In, List.filter_In in Hp' as [Hp' Hid].
    apply Z.eqb_eq in Hid. apply list_elem_of_In in Hp'. done.
  - intros (Hpt & Hp & Hid). exists pt. split; [|done].
    apply list_elem_of_bind. exists p. split; [by apply list_elem_of_singleton|].
    apply list_elem_of_In, List.filter_In. rewrite <- list_elem_of_In.
    split; [done|]. by apply Z.eqb_eq.
Qed.

(** *** Sums and Numbers *)

Lemma total_sum {A} (column : A -> Q) (rows : list A) :
  (total column rows == sumOf column rows)%Q.
Proof.
  unfold total, sumOf, SUM. destruct rows as [|row rows]; [reflexivity|].
  cbn [fmap list_fmap IFNULL default]. apply Qred_correct.
Qed.

Lemma double_Qeq (x y : Q) : (x == y)%Q -> double x = double y.
Proof. intros Heq. unfold double. by rewrite (Qred_complete _ _ Heq). Qed.

Lemma sumOf_nil {A} (column : A -> Q) : sumOf column [] = 0%Q.
Proof. reflexivity. Qed.

Lemma sumOf_singleton {A} (column : A -> Q) (row : A) (q : Q) :
  (column row == q)%Q -> (sumOf column [row] == q)%Q.
Proof. intros Hq. unfold sumOf. cbn [fmap list_fmap foldr]. rewrite Hq. ring. Qed.

(** *** The opening balance *)

Lemma getOpeningBalanceForDate_combines db accountId date includeMaxDate
    fiscalYearId periodId previousPeriodClosing runningPeriod :
  getFiscalYearForDate db date = Ok fiscalYearId ->
  getPeriodForDate db date = Ok periodId ->
  getPeriodAccountBalanceUntilDate db accountId date fiscalYearId
    = Ok previousPeriodClosing ->
  getComputedAccountBalanceUntilDate db accountId date periodId includeMaxDate
    = Ok runningPeriod ->
  getOpeningBalanceForDate db accountId date includeMaxDate =
  Ok {| ob_balance :=
          toFixed4 (jsPlus (jsPlus 0 (double (balance previousPeriodClosing)))
                      (double (balance runningPeriod)));
        ob_credit :=
          toFixed4 (jsPlus (jsPlus 0 (double (credit previousPeriodClosing)))
                      (double (credit runningPeriod)));
        ob_debit :=
          toFixed4 (jsPlus (jsPlus 0 (double (debit previousPeriodClosing)))
                      (double (debit runningPeriod))) |}.
Proof.
  intros Hfy Hperiod Hprevious Hrunning. unfold getOpeningBalanceForDate. cbv zeta.
  rewrite Hfy. cbn [mbind Result_bind]. rewrite Hprevious. cbn [mbind Result_bind].
  rewrite Hperiod. cbn [mbind Result_bind]. rewrite Hrunning. reflexivity.
Qed.

Lemma getOpeningBalanceForDate_resolved db accountId date includeMaxDate
    fiscalYearId periodId :
  getFiscalYearForDate db date = Ok fiscalYearId ->
  getPeriodForDate db date = Ok periodId ->
  getOpeningBalanceForDate db accountId date includeMaxDate =
  let before := filter (beforePeriodOf accountId date fiscalYearId) (joinPeriod db) in
  let within :=
    filter (inPeriodUntil accountId date periodId includeMaxDate) (ledger db) in
  Ok {| ob_balance :=
          toFixed4
            (jsPlus
               (jsPlus 0 (double (sumOf (fun row => pt_debit row.1 - pt_credit row.1)%Q
                                    before)))
               (double (sumOf (fun line => gl_debit_equiv line - gl_credit_equiv line)%Q
                          within)));
        ob_credit :=
          toFixed4
            (jsPlus (jsPlus 0 (double (sumOf (fun row => pt_credit row.1) before)))
               (double (sumOf gl_credit within)));
        ob_debit :=
          toFixed4
            (jsPlus (jsPlus 0 (double (sumOf (fun row => pt_debit row.1) before)))
               (double (sumOf gl_debit within))) |}.
Proof.
  intros Hfy Hperiod.
  rewrite (getOpeningBalanceForDate_combines _ _ _ _ _ _ _ _ Hfy Hperiod
             (getPeriodAccountBalanceUntilDate_sums _ _ _ _)
             (getComputedAccountBalanceUntilDate_sums _ _ _ _ _)).
  cbv zeta. cbn [balance credit debit].
  by rewrite !(double_Qeq _ _ (total_sum _ _)).
Qed.

(** What the two queries sum, as plain sums. *)
Lemma getPeriodAccountBalanceUntilDate_sumOf db accountId date fiscalYearId :
  let before := filter (beforePeriodOf accountId date fiscalYearId) (joinPeriod db) in
  exists previousPeriodClosing,
    getPeriodAccountBalanceUntilDate db accountId date fiscalYearId
    = Ok previousPeriodClosing
    /\ (debit previousPeriodClosing == sumOf (fun row => pt_debit row.1) before)%Q
    /\ (credit previousPeriodClosing == sumOf (fun row => pt_credit row.1) before)%Q
    /\ (balance previousPeriodClosing
        == sumOf (fun row => pt_debit row.1 - pt_credit row.1) before)%Q.
Proof.
  cbv zeta. rewrite getPeriodAccountBalanceUntilDate_sums. cbv zeta.
  eexists. split; [reflexivity|]. cbn [balance credit debit].
  split_and!; apply total_sum.
Qed.

Lemma getComputedAccountBalanceUntilDate_sumOf db accountId date periodId
    includeMaxDate :
  let within :=
    filter (inPeriodUntil accountId date periodId includeMaxDate) (ledger db) in
  exists runningPeriod,
    getComputedAccountBalanceUntilDate db accountId date periodId includeMaxDate
    = Ok runningPeriod
    /\ (debit runningPeriod == sumOf gl_debit within)%Q
    /\ (credit runningPeriod == sumOf gl_credit within)%Q
    /\ (balance runningPeriod
        == sumOf (fun line => gl_debit_equiv line - gl_credit_equiv line) within)%Q.
Proof.
  cbv zeta. rewrite getComputedAccountBalanceUntilDate_sums. cbv zeta.
  eexists. split; [reflexivity|]. cbn [balance credit debit].
  split_and!; apply total_sum.
Qed.

(** C7.  The balance before the date's period sums the account's period
    totals over exactly the periods of the resolved fiscal year that are
    number 0 or end on a day strictly before the date; a period 0 without
    an end date counts.  Each of its three sums reaches JavaScript as a
    Number and is the first summand of the field of the opening balance of
    the same name, the second being the sum over the ledger lines of the
    date's period; the field is printed with four decimals.  In particular
    an account whose only total is a period-0 total of debit 100 and credit
    0, and which has no ledger line in the date's period, opens at debit
    100.0000, credit 0.0000, balance 100.0000.  An opening total of
    900719925474099.1234 is not a Number: with nothing booked before the
    date in its period, the account opens at 900719925474099.1250. *)
Theorem balance_before_period_sums_period_zero_and_ended_periods db accountId date :
  (forall fiscalYearId,
     let before :=
       filter (beforePeriodOf accountId date fiscalYearId) (joinPeriod db) in
     (exists previousPeriodClosing,
        getPeriodAccountBalanceUntilDate db accountId date fiscalYearId
        = Ok previousPeriodClosing
        /\ (debit previousPeriodClosing == sumOf (fun row => pt_debit row.1) before)%Q
        /\ (credit previousPeriodClosing == sumOf (fun row => pt_credit row.1) before)%Q
        /\ (balance previousPeriodClosing
            == sumOf (fun row => pt_debit row.1 - pt_credit row.1) before)%Q)
     /\ forall pt p,
          (pt, p) ∈ before
          <-> pt ∈ period_totals db /\ p ∈ periods db /\ p_id p = pt_period_id pt
              /\ pt_account_id pt = accountId
              /\ p_fiscal_year_id p = fiscalYearId
              /\ (p_number p = 0
                  \/ exists end_date,
                       p_end_date p = Some end_date /\ DATE end_date < DATE date))
  /\ (forall includeMaxDate fiscalYearId periodId,
        getFiscalYearForDate db date = Ok fiscalYearId ->
        getPeriodForDate db date = Ok periodId ->
        let before :=
          filter (beforePeriodOf accountId date fiscalYearId) (joinPeriod db) in
        let within :=
          filter (inPeriodUntil accountId date periodId includeMaxDate) (ledger db) in
        getOpeningBalanceForDate db accountId date includeMaxDate =
        Ok {| ob_balance :=
                toFixed4
                  (jsPlus
                     (jsPlus 0
                        (double (sumOf (fun row => pt_debit row.1 - pt_credit row.1)%Q
                                   before)))
                     (double
                        (sumOf (fun line => gl_debit_equiv line - gl_credit_equiv line)%Q
                           within)));
              ob_credit :=
                toFixed4
                  (jsPlus (jsPlus 0 (double (sumOf (fun row => pt_credit row.1) before)))
                     (double (sumOf gl_credit within)));
              ob_debit :=
                toFixed4
                  (jsPlus (jsPlus 0 (double (sumOf (fun row => pt_debit row.1) before)))
                     (double (sumOf gl_debit within))) |})
  /\ (forall includeMaxDate fiscalYearId periodId pt0 p0,
        getFiscalYearForDate db date = Ok fiscalYearId ->
        getPeriodForDate db date = Ok periodId ->
        filter (fun row => pt_account_id row.1 = accountId) (joinPeriod db)
          = [(pt0, p0)] ->
        p_number p0 = 0 ->
        p_fiscal_year_id p0 = fiscalYearId ->
        (pt_debit pt0 == 100)%Q ->
        (pt_credit pt0 == 0)%Q ->
        filter (fun line => gl_account_id line = accountId
                            /\ gl_period_id line = periodId) (ledger db) = [] ->
        getOpeningBalanceForDate db accountId date includeMaxDate =
        Ok {| ob_balance := "100.0000"; ob_credit := "0.0000"; ob_debit := "100.0000" |})
  /\ getOpeningBalanceForDate Sample.largeBooks 10 Sample.feb10 false =
     Ok {| ob_balance := "900719925474099.1250"; ob_credit := "0.0000";
           ob_debit := "900719925474099.1250" |}.
Proof.
  split_and!.
  - intros fiscalYearId before. split.
    + apply getPeriodAccountBalanceUntilDate_sumOf.
    + intros pt p. subst before.
      rewrite list_elem_of_filter, elem_of_joinPeriod. unfold beforePeriodOf. simpl.
      tauto.
  - intros. by apply getOpeningBalanceForDate_resolved.
  - intros includeMaxDate fiscalYearId periodId pt0 p0 Hfy Hperiod Honly Hzero Hyear
      Hdebit Hcredit Hnone.
    rewrite (getOpeningBalanceForDate_resolved _ _ _ _ _ _ Hfy Hperiod). cbv zeta.
    assert (Haccount : pt_account_id pt0 = accountId).
    { assert (Hin : (pt0, p0) ∈ [(pt0, p0)]) by apply list_elem_of_here.
      rewrite <- Honly in Hin. by apply list_elem_of_filter in Hin as [? _]. }
    rewrite (filter_narrow (beforePeriodOf accountId date fiscalYearId)
               (fun row => pt_account_id row.1 = accountId)), Honly
      by (by intros row (? & _)).
    rewrite filter_cons_True, filter_nil by (unfold beforePeriodOf; auto).
    rewrite (filter_narrow (inPeriodUntil accountId date periodId includeMaxDate)
               (fun line => gl_account_id line = accountId
                            /\ gl_period_id line = periodId)), Hnone, filter_nil
      by (intros line (? & ? & _); done).
    rewrite !sumOf_nil.
    rewrite (double_Qeq _ 100
               (sumOf_singleton (fun row : period_total * period => pt_debit row.1)
                  (pt0, p0) 100%Q Hdebit)).
    rewrite (double_Qeq _ 0
               (sumOf_singleton (fun row : period_total * period => pt_credit row.1)
                  (pt0, p0) 0%Q Hcredit)).
    rewrite (double_Qeq (sumOf (fun row => pt_debit row.1 - pt_credit row.1)%Q _) 100).
    + vm_compute. reflexivity.
    + apply sumOf_singleton. cbn [fst]. rewrite Hdebit, Hcredit. reflexivity.
  - vm_compute. reflexivity.
Qed.

(** C8.  The running balance of the date's period sums the account's
    ledger lines of that period whose day is compared with the date's day
    by [<=] when [includeMaxDate] is set and by [<] when it is not.  Each
    of its three sums reaches JavaScript as a Number and is added to the
    balance before the period, to give the field of the opening balance of
    the same name; the sum of two Numbers is the nearest Number.  On books
    that open at 900719925474099.1234 and hold one line of 0.1, on its
    day the account opens at 900719925474099.2500 when the day is
    included and at 900719925474099.1250 when it is not. *)
Theorem running_balance_compares_dates_by_includeMaxDate db accountId date
    (includeMaxDate : bool) :
  (forall periodId,
     let within :=
       filter (inPeriodUntil accountId date periodId includeMaxDate) (ledger db) in
     (exists runningPeriod,
        getComputedAccountBalanceUntilDate db accountId date periodId includeMaxDate
        = Ok runningPeriod
        /\ (debit runningPeriod == sumOf gl_debit within)%Q
        /\ (credit runningPeriod == sumOf gl_credit within)%Q
        /\ (balance runningPeriod
            == sumOf (fun line => gl_debit_equiv line - gl_credit_equiv line) within)%Q)
     /\ forall line,
          line ∈ within
          <-> line ∈ ledger db
              /\ gl_account_id line = accountId
              /\ gl_period_id line = periodId
              /\ if includeMaxDate
                 then DATE (gl_trans_date line) <= DATE date
                 else DATE (gl_trans_date line) < DATE date)
  /\ (forall fiscalYearId periodId previousPeriodClosing,
        getFiscalYearForDate db date = Ok fiscalYearId ->
        getPeriodForDate db date = Ok periodId ->
        getPeriodAccountBalanceUntilDate db accountId date fiscalYearId
          = Ok previousPeriodClosing ->
        let within :=
          filter (inPeriodUntil accountId date periodId includeMaxDate) (ledger db) in
        getOpeningBalanceForDate db accountId date includeMaxDate =
        Ok {| ob_balance :=
                toFixed4
                  (jsPlus (jsPlus 0 (double (balance previousPeriodClosing)))
                     (double
                        (sumOf (fun line => gl_debit_equiv line - gl_credit_equiv line)%Q
                           within)));
              ob_credit :=
                toFixed4
                  (jsPlus (jsPlus 0 (double (credit previousPeriodClosing)))
                     (double (sumOf gl_credit within)));
              ob_debit :=
                toFixed4
                  (jsPlus (jsPlus 0 (double (debit previousPeriodClosing)))
                     (double (sumOf gl_debit within))) |})
  /\ getOpeningBalanceForDate Sample.largeBooks 10 Sample.feb10 true =
     Ok {| ob_balance := "900719925474099.2500"; ob_credit := "0.0000";
           ob_debit := "900719925474099.2500" |}
  /\ getOpeningBalanceForDate Sample.largeBooks 10 Sample.feb10 false =
     Ok {| ob_balance := "900719925474099.1250"; ob_credit := "0.0000";
           ob_debit := "900719925474099.1250" |}.
Proof.
  split_and!.
  - intros periodId within. split.
    + apply getComputedAccountBalanceUntilDate_sumOf.
    + intros line. subst within. rewrite list_elem_of_filter. unfold inPeriodUntil.
      tauto.
  - intros fiscalYearId periodId previousPeriodClosing Hfy Hperiod Hprevious within.
    rewrite (getOpeningBalanceForDate_combines _ _ _ _ _ _ _ _ Hfy Hperiod Hprevious
               (getComputedAccountBalanceUntilDate_sums _ _ _ _ _)).
    cbv zeta. cbn [balance credit debit]. subst within.
    by rewrite !(double_Qeq _ _ (total_sum _ _)).
  - vm_compute. reflexivity.
  - vm_compute. reflexivity.
Qed.


End AccountExtrasFacts.

(** ** Opening balances on the sample books *)

Module AccountExtrasExamples.
Import AccountExtras AccountExtrasSpec AccountExtrasFacts.

(** C7 on the sample: account 10 on the 2024-02-15. *)
Lemma balance_before_period_sums_period_zero_and_ended_periods_witness :
  getOpeningBalanceForDate Sample.books 10 Sample.feb15 true =
  Ok {| ob_balance := "100.0000"; ob_credit := "0.0000"; ob_debit := "100.0000" |}.
Proof.
  refine (proj1 (proj2 (proj2
    (balance_before_period_sums_period_zero_and_ended_periods Sample.books 10
       Sample.feb15))) true 3 202
    {| pt_account_id := 10; pt_period_id := 200; pt_debit := 100; pt_credit := 0 |}
    {| p_id := 200; p_fiscal_year_id := 3; p_number := 0;
       p_start_date := None; p_end_date := None |} _ _ _ _ _ _ _ _);
    vm_compute; reflexivity.
Defined.

(** C8 on the sample: account 11 on the 2024-02-10, the day of its only
    ledger line, with the boundary day included: the line counts. *)
Lemma running_balance_compares_dates_by_includeMaxDate_witness :
  getOpeningBalanceForDate Sample.books 11 Sample.feb10 true =
  Ok {| ob_balance := "5.0000"; ob_credit := "0.0000"; ob_debit := "10.0000" |}.
Proof.
  rewrite (proj1 (proj2 (running_balance_compares_dates_by_includeMaxDate Sample.books
                           11 Sample.feb10 true)) 3 202
             {| debit := 0; credit := 0; balance := 0 |});
    vm_compute; reflexivity.
Defined.

(** With the boundary day left out the line does not count. *)
Example boundary_day_is_left_out :
  getOpeningBalanceForDate Sample.books 11 Sample.feb10 false =
  Ok {| ob_balance := "0.0000"; ob_credit := "0.0000"; ob_debit := "0.0000" |}.
Proof. vm_compute. reflexivity. Qed.

(** One tenth is not a Number; the nearest one is a little above it. *)
Example one_tenth_is_not_a_number :
  double (1 # 10) = 3602879701896397 # 36028797018963968.
Proof. vm_compute. reflexivity. Qed.

End AccountExtrasExamples.

(** ** The journal controller: further facts *)

Module JournalMoreFacts.
Import Journal JournalSpec JournalFacts JournalEffects.

(** *** The search behind [lookupTransaction] *)

Lemma insertDesc_perm x l : insertDesc x l ≡ₚ x :: l.
Proof.
  induction l as [|y l IH]; simpl; [done|].
  destruct (sqlLt _ _); [|done].
  rewrite IH. apply Permutation_swap.
Qed.

Lemma orderByTransDateDesc_perm l : orderByTransDateDesc l ≡ₚ l.
Proof.
  induction l as [|x l IH]; simpl; [done|].
  by rewrite insertDesc_perm, IH.
Qed.

Lemma find_perm st recordUuid :
  find st recordUuid true
  ≡ₚ buildTransactionQuery st recordUuid true ++ buildTransactionQuery st recordUuid false.
Proof. unfold find, naiveTransactionSearch. simpl. apply orderByTransDateDesc_perm. Qed.

Lemma selectColumns_record_uuid posted p pro per a u c em dm1 dm2 :
  selectColumns posted p pro per a u c em dm1 dm2 !! "record_uuid"
  = Some (col p "record_uuid").
Proof. reflexivity. Qed.

Lemma selectColumns_uuid posted p pro per a u c em dm1 dm2 :
  selectColumns posted p pro per a u c em dm1 dm2 !! "uuid" = Some (col p "uuid").
Proof. reflexivity. Qed.

Lemma selectColumns_posted posted p pro per a u c em dm1 dm2 :
  selectColumns posted p pro per a u c em dm1 dm2 !! "posted"
  = Some (JNum (if posted then 1 else 0)%Q).
Proof. reflexivity. Qed.

Lemma sqlEq_JStr v s : sqlEq v (JStr s) = true <-> v = JStr s.
Proof.
  destruct v as [| |b|q|t|[d|]]; simpl; try (split; [discriminate|by intros [=]]).
  rewrite String.eqb_eq. split; [by intros ->|by intros [= ->]].
Qed.

Lemma elem_of_buildTransactionQuery st recordUuid posted row :
  row ∈ buildTransactionQuery st recordUuid posted ->
  exists p, p ∈ (if posted then general_ledger st else posting_journal st)
    /\ col p "record_uuid" = JStr recordUuid
    /\ row !! "record_uuid" = Some (JStr recordUuid)
    /\ row !! "uuid" = Some (col p "uuid")
    /\ row !! "posted" = Some (JNum (if posted then 1 else 0)%Q).
Proof.
  unfold buildTransactionQuery. cbv zeta.
  intros (p & Hrow & Hp)%list_elem_of_bind. exists p. split; [done|].
  repeat (apply list_elem_of_bind in Hrow as (? & Hrow & _)).
  destruct (sqlEq (col p "record_uuid") (JStr recordUuid)) eqn:Heq;
    [|by apply elem_of_nil in Hrow].
  apply sqlEq_JStr in Heq. apply list_elem_of_singleton in Hrow as ->.
  rewrite selectColumns_record_uuid, selectColumns_uuid, selectColumns_posted.
  by rewrite Heq.
Qed.

Lemma buildTransactionQuery_none st recordUuid (posted : bool) :
  (forall p : Row, p ∈ (if posted then general_ledger st else posting_journal st) ->
                   col p "record_uuid" <> JStr recordUuid) ->
  buildTransactionQuery st recordUuid posted = [].
Proof.
  intros Hnone.
  destruct (buildTransactionQuery st recordUuid posted) as [|row rows] eqn:Hq; [done|].
  assert (Hin : row ∈ buildTransactionQuery st recordUuid posted)
    by (rewrite Hq; apply list_elem_of_here).
  apply elem_of_buildTransactionQuery in Hin as (p & Hp & Hrec & _).
  by apply Hnone in Hp.
Qed.

Lemma sqlLt_asym a b : sqlLt a b = true -> sqlLt b a = false.
Proof.
  destruct a as [| |x|x|s|[s|]], b as [| |y|y|t|[t|]]; simpl; try done.
  - rewrite negb_true_iff, negb_false_iff. intros Hlt.
    apply Qle_bool_iff. destruct (Qlt_le_dec y x) as [Hyx|Hxy]; [|done].
    apply Qlt_le_weak, Qle_bool_iff in Hyx. congruence.
  - unfold String.ltb. rewrite (String.compare_antisym s t).
    by destruct (String.compare t s).
  - intros Hlt%Z.ltb_lt. apply Z.ltb_ge. lia.
Qed.

Lemma insertDesc_sorted x l :
  Sorted (fun a b => sqlLt (col a "trans_date") (col b "trans_date") = false) l ->
  Sorted (fun a b => sqlLt (col a "trans_date") (col b "trans_date") = false)
    (insertDesc x l).
Proof.
  induction 1 as [|y l Hl IH Hhd]; simpl.
  - by repeat constructor.
  - destruct (sqlLt (col x "trans_date") (col y "trans_date")) eqn:Hxy.
    + constructor; [done|].
      destruct Hhd as [|z l Hyz]; simpl.
      * constructor. by apply sqlLt_asym.
      * destruct (sqlLt (col x "trans_date") (col z "trans_date"));
          constructor; [done|by apply sqlLt_asym].
    + repeat constructor; done.
Qed.

Lemma orderByTransDateDesc_sorted l :
  Sorted (fun a b => sqlLt (col a "trans_date") (col b "trans_date") = false)
    (orderByTransDateDesc l).
Proof.
  induction l as [|x l IH]; simpl; [constructor|]. by apply insertDesc_sorted.
Qed.

Lemma lookupTransaction_record_uuid st recordUuid rows row :
  lookupTransaction st recordUuid = Ok rows -> row ∈ rows ->
  row !! "record_uuid" = Some (JStr recordUuid).
Proof.
  unfold lookupTransaction. cbv zeta.
  destruct (length (find st recordUuid true) =? 0)%nat; [done|].
  intros [= <-] Hin. rewrite (find_perm st recordUuid), elem_of_app in Hin.
  by destruct Hin as [(p & _ & _ & ? & _)%elem_of_buildTransactionQuery
                     |(p & _ & _ & ? & _)%elem_of_buildTransactionQuery].
Qed.

(** *** What the queue does to the tables *)

Lemma runQueries_app st qs qs' :
  runQueries st (qs ++ qs') = st' ← runQueries st qs; runQueries st' qs'.
Proof.
  revert st. induction qs as [|q qs IH]; intros st; simpl; [done|].
  destruct (runQuery st q) as [st1|e]; simpl; [apply IH|done].
Qed.

Lemma runQuery_sameElsewhere st q st' :
  runQuery st q = Ok st' -> sameElsewhere st st'.
Proof.
  destruct q as [uuid|row uuid|row|row]; simpl.
  - by intros [= <-].
  - destruct (noAssignment row); [done|]. by intros [= <-].
  - destruct (hasUuid _ _); [done|]. by intros [= <-].
  - destruct (hasUuid _ _); [done|]. by intros [= <-].
Qed.

Lemma runQueries_sameElsewhere qs : forall st st',
  runQueries st qs = Ok st' -> sameElsewhere st st'.
Proof.
  induction qs as [|q qs IH]; intros st st'; simpl.
  - by intros [= <-].
  - destruct (runQuery st q) as [st1|e] eqn:Hq; simpl; [|done].
    intros Hrest%IH. apply runQuery_sameElsewhere in Hq.
    unfold sameElsewhere in *. destruct_and!. split_and!; congruence.
Qed.

Lemma runQueries_history qs : forall st st',
  Forall journalOnly qs -> runQueries st qs = Ok st' ->
  transaction_history st' = transaction_history st.
Proof.
  induction qs as [|q qs IH]; intros st st' Hqs; simpl.
  - by intros [= <-].
  - apply Forall_cons in Hqs as [Hq Hqs].
    destruct (runQuery st q) as [st1|e] eqn:Hrun; simpl; [|done].
    intros Hrest. rewrite (IH _ _ Hqs Hrest).
    destruct q as [uuid|row uuid|row|row]; simpl in *; try done.
    + by injection Hrun as <-.
    + destruct (noAssignment row); [done|]. by injection Hrun as <-.
    + destruct (hasUuid _ _); [done|]. by injection Hrun as <-.
Qed.

Lemma filter_listed_nil (l : list Row) :
  List.filter (fun r => negb (listed [] r)) l = l.
Proof. induction l as [|r l IH]; [done|]. cbn [List.filter]. by rewrite IH. Qed.

Lemma filter_listed_cons row removed (l : list Row) :
  List.filter (fun r => negb (listed (row :: removed) r)) l
  = List.filter (fun r => negb (listed removed r))
      (List.filter (fun r => negb (sqlEq (col r "uuid") (bid (prop row "uuid")))) l).
Proof.
  induction l as [|r l IH]; [done|]. cbn [List.filter]. rewrite IH.
  change (listed (row :: removed) r)
    with (sqlEq (col r "uuid") (bid (prop row "uuid")) || listed removed r).
  destruct (sqlEq (col r "uuid") (bid (prop row "uuid"))); cbn [negb orb List.filter];
    [done|].
  by destruct (listed removed r).
Qed.

Lemma runQueries_removals removed : forall st,
  runQueries st ((fun row => REMOVE_JOURNAL_ROW (bid (prop row "uuid"))) <$> removed)
  = Ok (withJournal st
          (List.filter (fun r => negb (listed removed r)) (posting_journal st))).
Proof.
  induction removed as [|row removed IH]; intros st.
  - rewrite filter_listed_nil. by destruct st.
  - rewrite filter_listed_cons. simpl. by rewrite IH.
Qed.

Section Facts.
Context `{Platform}.

(** Either the edit is rejected before the commit, or the whole queue has
    run and the answer is what the final lookup finds. *)
Lemma editTransaction_outcome req o st :
  (exists e, editTransaction req o st = (Err e, st))
  \/ exists first rest fiscalYear result result' st',
       lookupTransaction st (record_uuid req) = Ok (first :: rest)
       /\ truthy (prop first "posted") = false
       /\ tooFewRows req (first :: rest) = false
       /\ lookupFiscalYearByDate (getTransactionDate (changed req) (first :: rest))
            = Ok fiscalYear
       /\ truthy (prop fiscalYear "locked") = false
       /\ transformColumns st (addedOrder o) (added req) true (first :: rest) fiscalYear
            = Ok result
       /\ transformColumns st (changedOrder o) (changed req).*2 false (first :: rest)
            fiscalYear = Ok result'
       /\ runQueries st (queued req o first result result') = Ok st'
       /\ editTransaction req o st = (lookupTransaction st' (record_uuid req), st').
Proof.
  destruct (lookupTransaction st (record_uuid req)) as [existing|e] eqn:Hload.
  2:{ left. exists e. by apply editTransaction_not_loaded. }
  destruct (lookupTransaction_cons _ _ _ Hload) as (first & rest & ->).
  rewrite (editTransaction_loaded _ _ _ _ _ Hload).
  destruct (truthy (prop first "posted")) eqn:Hposted; [left; eauto|].
  destruct (tooFewRows req (first :: rest)) eqn:Hfew; [left; eauto|].
  rewrite resolveThen_unfold.
  destruct (lookupFiscalYearByDate _) as [fiscalYear|e] eqn:Hfy; [|left; eauto].
  rewrite editWithFiscalYear_unfold.
  destruct (truthy (prop fiscalYear "locked")) eqn:Hlocked; [left; eauto|].
  destruct (transformColumns st (addedOrder o) _ _ _ _) as [result|e] eqn:Hadd;
    [|left; eauto].
  destruct (transformColumns st (changedOrder o) _ _ _ _) as [result'|e] eqn:Hchg;
    [|left; eauto].
  destruct (runQueries st _) as [st'|e] eqn:Hrun; [|left; eauto].
  right. exists first, rest, fiscalYear, result, result', st'. done.
Qed.

(** X1.  A transaction that is found is never empty, and each of its rows
    carries the requested [record_uuid] and stems from a row of that
    record in the general ledger, then reporting [posted] as 1, or in the
    posting journal, then reporting it as 0. *)
Theorem looked_up_rows_belong_to_the_transaction st recordUuid rows :
  lookupTransaction st recordUuid = Ok rows ->
  rows <> []
  /\ forall row, row ∈ rows ->
       row !! "record_uuid" = Some (JStr recordUuid)
       /\ exists p : Row,
            col p "record_uuid" = JStr recordUuid
            /\ row !! "uuid" = Some (col p "uuid")
            /\ (p ∈ general_ledger st /\ row !! "posted" = Some (JNum 1)
                \/ p ∈ posting_journal st /\ row !! "posted" = Some (JNum 0)).
Proof.
  intros Hload. split.
  - by destruct (lookupTransaction_cons _ _ _ Hload) as (? & ? & ->).
  - intros row Hrow. split; [by eapply lookupTransaction_record_uuid|].
    revert Hload Hrow. unfold lookupTransaction. cbv zeta.
    destruct (length (find st recordUuid true) =? 0)%nat; [done|].
    intros [= <-] Hin. rewrite (find_perm st recordUuid), elem_of_app in Hin.
    destruct Hin as [(p & ? & ? & _ & ? & ?)%elem_of_buildTransactionQuery
                    |(p & ? & ? & _ & ? & ?)%elem_of_buildTransactionQuery];
      exists p; eauto 6.
Qed.

(** X2.  When neither the general ledger nor the posting journal holds a
    row of the record, the lookup is rejected with [NotFound], and so is
    every edit of that record, which leaves the database as it was. *)
Theorem unknown_record_is_not_found st recordUuid :
  (forall p : Row, p ∈ general_ledger st ++ posting_journal st ->
                   col p "record_uuid" <> JStr recordUuid) ->
  lookupTransaction st recordUuid = Err NotFound
  /\ forall req o, record_uuid req = recordUuid ->
       editTransaction req o st = (Err NotFound, st).
Proof.
  intros Hnone.
  assert (Hload : lookupTransaction st recordUuid = Err NotFound).
  { unfold lookupTransaction, find, naiveTransactionSearch. simpl.
    rewrite (buildTransactionQuery_none st recordUuid true),
      (buildTransactionQuery_none st recordUuid false); [done| |].
    - intros p Hp. apply Hnone, elem_of_app. by right.
    - intros p Hp. apply Hnone, elem_of_app. by left. }
  split; [done|]. intros req o <-. by apply editTransaction_not_loaded.
Qed.

(** X3.  The rows of a search come newest first: none is immediately
    followed by a row with a later [trans_date]; and they are the matches
    of the general ledger together with those of the posting journal. *)
Theorem search_results_are_newest_first st recordUuid (includeNonPosted : bool) :
  newestFirst (find st recordUuid includeNonPosted)
  /\ find st recordUuid includeNonPosted
     ≡ₚ (if includeNonPosted then buildTransactionQuery st recordUuid true else [])
        ++ buildTransactionQuery st recordUuid false.
Proof.
  unfold newestFirst, find, naiveTransactionSearch.
  destruct includeNonPosted; simpl;
    (split; [apply orderByTransDateDesc_sorted|apply orderByTransDateDesc_perm]).
Qed.

(** X4.  An edit whose effective date falls in a locked fiscal year is
    rejected with [CLOSED_FISCAL_YEAR] and changes nothing. *)
Theorem locked_fiscal_year_refuses_the_edit st req o existing fiscalYear :
  lookupTransaction st (record_uuid req) = Ok existing ->
  (forall first, head existing = Some first -> truthy (prop first "posted") = false) ->
  tooFewRows req existing = false ->
  lookupFiscalYearByDate (getTransactionDate (changed req) existing) = Ok fiscalYear ->
  truthy (prop fiscalYear "locked") = true ->
  editTransaction req o st
  = (Err (BadRequest "POSTING_JOURNAL.ERRORS.CLOSED_FISCAL_YEAR"), st).
Proof.
  intros Hload Hposted Hfew Hfy Hlocked.
  destruct (lookupTransaction_cons _ _ _ Hload) as (first & rest & ->).
  rewrite (editTransaction_loaded _ _ _ _ _ Hload), (Hposted first), Hfew by done.
  by rewrite resolveThen_unfold, Hfy, editWithFiscalYear_unfold, Hlocked.
Qed.

(** X5.  Whatever makes an edit fail, short of the final lookup finding
    nothing, the database is left exactly as it was. *)
Theorem rejected_edit_changes_nothing req o st e :
  (editTransaction req o st).1 = Err e -> e <> NotFound ->
  (editTransaction req o st).2 = st.
Proof.
  intros Herr Hne.
  destruct (editTransaction_outcome req o st)
    as [[e' ->]|(first & rest & fy & result & result' & st' & _ & _ & _ & _ & _ & _ & _
                 & _ & Hedit)]; [done|].
  rewrite Hedit in Herr. simpl in Herr. by apply lookupTransaction_Err in Herr.
Qed.

(** X6.  An edit, whatever its outcome, leaves the general ledger and all
    the tables it only reads as they were. *)
Theorem edit_writes_only_journal_and_history req o st :
  sameElsewhere st (editTransaction req o st).2.
Proof.
  destruct (editTransaction_outcome req o st)
    as [[e' ->]|(first & rest & fy & result & result' & st' & _ & _ & _ & _ & _ & _ & _
                 & Hrun & ->)]; simpl.
  - by repeat split.
  - by apply runQueries_sameElsewhere in Hrun.
Qed.

Lemma queued_journalOnly req (result result' : list Row) :
  Forall journalOnly
    ((removals req
      ++ ((fun row =>
             INSERT_JOURNAL_ROW
               (convert row ["uuid"; "record_uuid"; "entity_uuid"; "reference_uuid"]))
            <$> result))
     ++ ((fun '(uid, row) =>
            UPDATE_JOURNAL_ROW (convert row ["entity_uuid"]) (bid (JStr uid)))
           <$> zip (changed req).*1 result')).
Proof.
  rewrite !Forall_app. unfold removals. rewrite !Forall_fmap. split_and!.
  - by apply Forall_true.
  - by apply Forall_true.
  - apply Forall_true. by intros [uid row].
Qed.

Lemma queued_history req o st first result result' st' :
  first !! "record_uuid" = Some (JStr (record_uuid req)) ->
  runQueries st (queued req o first result result') = Ok st' ->
  transaction_history st' = transaction_history st ++ [historyEntry req o].
Proof.
  intros Hrecord. unfold queued. rewrite runQueries_app.
  destruct (runQueries st _) as [st1|e] eqn:Hrun; simpl; [|done].
  apply runQueries_history in Hrun; [|apply queued_journalOnly].
  destruct (hasUuid _ _); simpl; [done|]. intros [= <-]. simpl. rewrite Hrun.
  do 2 f_equal. unfold historyEntry, bid, prop. rewrite Hrecord. simpl.
  by rewrite !fmap_insert, map_fmap_singleton.
Qed.

(** X7.  An edit that succeeds adds exactly one row to the transaction
    history: it carries the identifier drawn for it, the record of the
    edit and the session's user.  Whatever the outcome, the history is
    either untouched or longer by that one row. *)
Theorem successful_edit_records_one_history_entry req o st :
  (succeeded (editTransaction req o st).1 = true ->
   transaction_history (editTransaction req o st).2
   = transaction_history st ++ [historyEntry req o])
  /\ (transaction_history (editTransaction req o st).2 = transaction_history st
      \/ transaction_history (editTransaction req o st).2
         = transaction_history st ++ [historyEntry req o]).
Proof.
  destruct (editTransaction_outcome req o st)
    as [[e' ->]|(first & rest & fy & result & result' & st' & Hload & _ & _ & _ & _ & _
                 & _ & Hrun & ->)]; simpl.
  - split; [done|by left].
  - apply queued_history in Hrun.
    + split; [done|by right].
    + eapply lookupTransaction_record_uuid; [done|]. apply list_elem_of_here.
Qed.

Lemma transformColumns_nil st picks newRecord first rest setFiscalData :
  transformColumns st picks [] newRecord (first :: rest) setFiscalData = Ok [].
Proof. reflexivity. Qed.

(** X8.  An edit that only removes rows and succeeds deletes from the
    posting journal exactly the rows whose [uuid] one of the [removed]
    rows names, in whichever transaction they are, and leaves every other
    row as it was. *)
Theorem removal_deletes_the_named_rows req o st :
  added req = [] -> changed req = [] ->
  succeeded (editTransaction req o st).1 = true ->
  posting_journal (editTransaction req o st).2
  = List.filter (fun r => negb (listed (removed req) r)) (posting_journal st).
Proof.
  intros Hadded Hchanged.
  destruct (editTransaction_outcome req o st)
    as [[e' ->]|(first & rest & fy & result & result' & st' & _ & _ & _ & _ & _ & Hadd
                 & Hchg & Hrun & ->)]; simpl; [done|].
  intros _. rewrite Hadded, transformColumns_nil in Hadd.
  rewrite Hchanged, transformColumns_nil in Hchg. simplify_eq.
  revert Hrun. unfold queued. rewrite Hchanged. simpl. rewrite !app_nil_r.
  rewrite runQueries_app. unfold removals. rewrite runQueries_removals. simpl.
  destruct (hasUuid _ _); [done|]. by intros [= <-].
Qed.

(** X9.  The order in which the lookups of the two batches settle shows
    in nothing but the error of a rejected edit: two runs that draw the
    same history identifier fulfil with the same rows or both reject, and
    they leave the same database. *)
Theorem settling_order_changes_at_most_the_error req o o' st :
  historyUuid o = historyUuid o' ->
  fulfilled (editTransaction req o st).1 = fulfilled (editTransaction req o' st).1
  /\ (editTransaction req o st).2 = (editTransaction req o' st).2.
Proof.
  intros Huuid.
  destruct (lookupTransaction st (record_uuid req)) as [existing|e] eqn:Hload.
  2:{ by rewrite !(editTransaction_not_loaded _ _ _ _ Hload). }
  destruct (lookupTransaction_cons _ _ _ Hload) as (first & rest & ->).
  rewrite !(editTransaction_loaded _ _ _ _ _ Hload).
  destruct (truthy (prop first "posted")); [done|].
  destruct (tooFewRows req (first :: rest)); [done|].
  rewrite !resolveThen_unfold.
  destruct (lookupFiscalYearByDate _) as [fiscalYear|e]; [|done].
  rewrite !editWithFiscalYear_unfold.
  destruct (truthy (prop fiscalYear "locked")); [done|].
  pose proof (transformColumns_order_irrelevant st (addedOrder o) (addedOrder o')
                (added req) true (first :: rest) fiscalYear) as Hadd.
  pose proof (transformColumns_order_irrelevant st (changedOrder o) (changedOrder o')
                (changed req).*2 false (first :: rest) fiscalYear) as Hchg.
  destruct (transformColumns st (addedOrder o) _ _ _ _) as [result|e],
    (transformColumns st (addedOrder o') _ _ _ _) as [result0|e0];
    simpl in Hadd; simplify_eq; [|done].
  destruct (transformColumns st (changedOrder o) _ _ _ _) as [result'|e],
    (transformColumns st (changedOrder o') _ _ _ _) as [result0'|e0];
    simpl in Hchg; simplify_eq; [|done].
  replace (queued req o' first result0 result0')
    with (queued req o first result0 result0') by (unfold queued; by rewrite Huuid).
  by destruct (runQueries st _).
Qed.

(** *** The loop over a batch *)

(** X10.  A batch of new rows in which some row names no account is
    rejected with [EDIT_INVALID_ACCOUNT], whatever the database holds and
    whatever else the batch asks for. *)
Theorem new_rows_must_name_an_account st picks rows first rest setFiscalData row :
  row ∈ rows -> truthy (prop row "account_number") = false ->
  transformColumns st picks rows true (first :: rest) setFiscalData
  = Err (BadRequest "POSTING_JOURNAL.ERRORS.EDIT_INVALID_ACCOUNT").
Proof.
  intros Hrow Hnone. rewrite transformColumns_spec.
  replace (existsb _ rows) with true; [done|].
  symmetry. apply existsb_exists. exists row. split; [by apply list_elem_of_In|].
  by rewrite Hnone.
Qed.

Lemma prop_insert_ne (row : Row) k k' v : k <> k' -> prop (<[k := v]> row) k' = prop row k'.
Proof. intros Hne. unfold prop. by rewrite lookup_insert_ne. Qed.

Lemma prop_dropTruthy_eq (row : Row) k : truthy (prop (dropTruthy k row) k) = false.
Proof.
  unfold dropTruthy. destruct (truthy (prop row k)) eqn:Hk; [|done].
  unfold prop. by rewrite lookup_delete_eq.
Qed.

Lemma afterLoop_codeFields setFiscalData row k :
  k ∈ codeFields -> truthy (prop (afterLoop setFiscalData row) k) = false.
Proof.
  intros Hk. unfold afterLoop.
  assert (Hdrop : truthy (prop
            (dropTruthy "hrReference"
               (dropTruthy "hrEntity"
                  (dropTruthy "account_label"
                     (dropTruthy "account_name" (dropTruthy "account_number" row))))) k)
          = false).
  { unfold codeFields in Hk. set_unfold in Hk.
    destruct Hk as [->|[->|[->|[->|[->|[]]]]]];
      rewrite ?prop_dropTruthy_eq; try done;
      repeat (rewrite prop_dropTruthy_ne by done); apply prop_dropTruthy_eq. }
  destruct (truthy (prop row "trans_date")); [|done].
  unfold codeFields in Hk. set_unfold in Hk.
  rewrite !prop_insert_ne; [done|..];
    destruct Hk as [->|[->|[->|[->|[->|[]]]]]]; done.
Qed.

(** X11.  No row leaves a batch with an account number, an account name,
    an account label, an entity code or a reference code that counts as
    set: the loop deletes them and no lookup writes them back. *)
Theorem code_fields_are_discarded st picks rows newRecord existing setFiscalData out :
  transformColumns st picks rows newRecord existing setFiscalData = Ok out ->
  codeFree out.
Proof.
  destruct existing as [|first rest]; [done|].
  intros (Hlen & _ & Hout)%transformColumns_rows.
  unfold codeFree. apply Forall_lookup. intros i row' Hrow' k Hk.
  destruct (lookup_lt_is_Some_2 rows i) as [row Hrow].
  { rewrite <- Hlen. by eapply lookup_lt_Some. }
  destruct (Hout i row k Hrow) as (row'' & Hrow'' & Heq).
  { apply untouched_by_lookups. unfold codeFields in Hk. set_unfold in Hk.
    intros a. destruct Hk as [->|[->|[->|[->|[->|[]]]]]]; by destruct a. }
  simplify_eq. unfold prop. rewrite Heq. by apply afterLoop_codeFields.
Qed.

Lemma lookupsOf_untriggered first index row :
  (forall k, k ∈ editableFields -> truthy (prop row k) = false) ->
  lookupsOf first index row = [].
Proof.
  intros Hnone. unfold lookupsOf. cbv zeta.
  rewrite !Hnone; [done|..]; unfold editableFields, codeFields; set_solver.
Qed.

Lemma afterLoop_untriggered setFiscalData row :
  (forall k, k ∈ editableFields -> truthy (prop row k) = false) ->
  afterLoop setFiscalData row = row.
Proof.
  intros Hnone. unfold afterLoop, dropTruthy.
  rewrite !Hnone; [done|..]; unfold editableFields, codeFields; set_solver.
Qed.

(** X12.  A changed row that sets none of the properties the loop reacts
    to leaves the batch exactly as it entered it. *)
Theorem untriggered_rows_pass_through st picks rows existing setFiscalData out i row :
  transformColumns st picks rows false existing setFiscalData = Ok out ->
  rows !! i = Some row ->
  (forall k, k ∈ editableFields -> truthy (prop row k) = false) ->
  out !! i = Some row.
Proof.
  destruct existing as [|first rest]; [done|].
  intros (Hlen & _ & Hout)%transformColumns_rows Hrow Hnone.
  destruct (lookup_lt_is_Some_2 out i) as [row' Hrow'].
  { rewrite Hlen. by eapply lookup_lt_Some. }
  rewrite Hrow'. f_equal. apply map_eq. intros k.
  destruct (Hout i row k Hrow) as (row'' & Hrow'' & Heq).
  - intros (job & Hjob & Hkey)%Exists_exists.
    apply lookupsFrom_elem_of in Hjob as (i' & row0 & Hrow0 & Hjob).
    pose proof (lookupsOf_target _ _ _ _ Hjob) as Htarget.
    injection Hkey as Hi _. simpl in Htarget. simplify_eq.
    rewrite lookupsOf_untriggered in Hjob by done. by apply elem_of_nil in Hjob.
  - simplify_eq. by rewrite Heq, afterLoop_untriggered.
Qed.

Lemma elem_of_exec_exchange st amount currencyId currencyId' transDate projectId r0 :
  r0 ∈ exec st (EXCHANGE_RATE_QUERY amount currencyId currencyId' transDate projectId) ->
  exists e : Row,
    e ∈ enterprise st
    /\ r0 = {[ "amount" :=
                sqlTimes amount
                  (if sqlEq (col e "currency_id") currencyId then JNum 1
                   else GetExchangeRate (col e "id") currencyId' transDate) ]}.
Proof.
  simpl. intros (e & Hrow & He)%list_elem_of_bind. exists e. split; [done|].
  apply list_elem_of_bind in Hrow as (p & Hrow & _).
  destruct (sqlEq (col p "id") projectId); [|by apply elem_of_nil in Hrow].
  by apply list_elem_of_singleton in Hrow.
Qed.

(** X13.  In a transaction held in the enterprise's own currency an
    equivalent amount is carried over to [debit] or [credit] as it is: no
    exchange rate is applied. *)
Theorem enterprise_currency_amounts_are_kept st picks rows newRecord first rest
    setFiscalData out i row side q :
  transformColumns st picks rows newRecord (first :: rest) setFiscalData = Ok out ->
  rows !! i = Some row ->
  prop row (equivOf side) = JNum q -> ~ (q == 0)%Q ->
  (forall e : Row, e ∈ enterprise st ->
     sqlEq (col e "currency_id") (prop first "currency_id") = true) ->
  exists (row' : Row) q',
    out !! i = Some row' /\ row' !! amountOf side = Some (JNum q') /\ (q' == q)%Q.
Proof.
  intros (_ & Hjobs & _)%transformColumns_rows Hrow Hequiv Hq Hcurrency.
  assert (Htruthy : truthy (prop row (equivOf side)) = true).
  { rewrite Hequiv. simpl. apply negb_true_iff.
    destruct (Qeq_bool q 0) eqn:Hz; [|done]. by apply Qeq_bool_iff in Hz. }
  destruct (Hjobs (conversionOf first i row side)) as (v & row' & Hv & Hrow' & Hfield).
  { apply lookupsFrom_elem_of. exists i, row. split; [done|].
    by apply conversionOf_scheduled. }
  apply (conversion_outcome_Ok _ _ side) in Hv as [Hamount _]; [|done].
  unfold convertedAmount in Hamount.
  destruct (exec st (request (conversionOf first i row side)))
    as [|r0 results] eqn:Hexec; [done|].
  assert (Hr0 : r0 ∈ exec st (request (conversionOf first i row side)))
    by (rewrite Hexec; apply list_elem_of_here).
  cbn [request conversionOf] in Hr0.
  apply elem_of_exec_exchange in Hr0 as (e & He & ->).
  rewrite (Hcurrency e He), Hequiv in Hamount. injection Hamount as <-.
  exists row', (Qred (q * 1)). split_and!.
  - done.
  - by destruct side.
  - rewrite Qred_correct. apply Qmult_1_r.
Qed.

Lemma codeLookup_scheduled first index row code :
  truthy (prop row (codeField code)) = true ->
  codeLookup index row code ∈ lookupsOf first index row.
Proof.
  intros Hcode. unfold lookupsOf. cbv zeta.
  destruct code; simpl in Hcode; rewrite Hcode; set_solver.
Qed.

Lemma codeLookup_outcome st index row code v :
  outcome st (codeLookup index row code) = Ok v ->
  exists r : Row,
    r ∈ codeTable st code
    /\ sqlEq (col r (codeColumn code)) (prop row (codeField code)) = true
    /\ v = col r (idColumn code).
Proof.
  unfold outcome.
  destruct code; cbn [codeLookup request assignment exec codeTable codeColumn
                        codeField idColumn];
    match goal with
    | |- context [List.filter ?f ?t] =>
        destruct (List.filter f t) as [|r rs] eqn:Hfilter; [done|];
        assert (Hin : In r (List.filter f t)) by (rewrite Hfilter; by left);
        apply List.filter_In in Hin as [Hin Hcond]
    end;
    cbn [fmap list_fmap extract]; intros [= <-]; exists r;
    (split; [by apply list_elem_of_In|]); (split; [done|]);
    unfold prop; by rewrite lookup_singleton_eq.
Qed.

(** X20.  A code that a row carries is resolved against its table: when
    the batch is fulfilled, the row holds, under the identifier's name, the
    identifier of a row of the table that bears the code. *)
Theorem codes_resolve_to_a_row_bearing_them st picks rows newRecord existing
    setFiscalData out i row code :
  transformColumns st picks rows newRecord existing setFiscalData = Ok out ->
  rows !! i = Some row ->
  truthy (prop row (codeField code)) = true ->
  exists r row' : Row,
    r ∈ codeTable st code
    /\ sqlEq (col r (codeColumn code)) (prop row (codeField code)) = true
    /\ out !! i = Some row'
    /\ row' !! idField code = Some (col r (idColumn code)).
Proof.
  destruct existing as [|first rest]; [done|].
  intros (_ & Hjobs & _)%transformColumns_rows Hrow Hcode.
  destruct (Hjobs (codeLookup i row code)) as (v & row' & Hv & Hrow' & Hfield).
  { apply lookupsFrom_elem_of. exists i, row. split; [done|].
    by apply codeLookup_scheduled. }
  apply codeLookup_outcome in Hv as (r & Hr & Hmatch & ->).
  exists r, row'. split_and!; try done; by destruct code.
Qed.

Lemma lookupTransaction_withHistory st history recordUuid :
  lookupTransaction (withHistory st history) recordUuid = lookupTransaction st recordUuid.
Proof. reflexivity. Qed.

(** X19.  An edit that asks for nothing, on an unposted transaction of at
    least two rows in an open fiscal year, still succeeds: it answers with
    the transaction as it was and the only thing it writes is its history
    row. *)
Theorem empty_edit_only_records_history st req o existing fiscalYear :
  added req = [] -> changed req = [] -> removed req = [] ->
  lookupTransaction st (record_uuid req) = Ok existing ->
  (forall first, head existing = Some first -> truthy (prop first "posted") = false) ->
  length existing <> 1%nat ->
  lookupFiscalYearByDate (getTransactionDate [] existing) = Ok fiscalYear ->
  truthy (prop fiscalYear "locked") = false ->
  hasUuid (transaction_history st) (JStr (historyUuid o)) = false ->
  editTransaction req o st
  = (Ok existing, withHistory st (transaction_history st ++ [historyEntry req o])).
Proof.
  intros Hadded Hchanged Hremoved Hload Hposted Hrows Hfy Hlocked Hfresh.
  destruct (lookupTransaction_cons _ _ _ Hload) as (first & rest & ->).
  rewrite (editTransaction_loaded _ _ _ _ _ Hload), (Hposted first) by done.
  replace (tooFewRows req (first :: rest)) with false.
  2:{ unfold tooFewRows. rewrite Hadded, Hremoved. cbn [length] in *.
      symmetry. apply orb_false_iff. split.
      - apply andb_false_iff. right. apply Nat.leb_gt. lia.
      - apply Z.eqb_neq. lia. }
  rewrite Hchanged, resolveThen_unfold, Hfy, editWithFiscalYear_unfold, Hlocked.
  rewrite Hadded, Hchanged, !transformColumns_nil.
  unfold queued, removals. rewrite Hremoved, Hchanged. cbn [fmap list_fmap zip app].
  cbn [runQueries runQuery mbind Result_bind].
  assert (Hentry :
    escape <$> ({[ "uuid" := bid (JStr (historyUuid o));
                   "record_uuid" := bid (prop first "record_uuid");
                   "user_id" := user_id req ]} : Row)
    = historyEntry req o).
  { unfold historyEntry, bid, prop.
    rewrite (lookupTransaction_record_uuid _ _ _ first Hload) by apply list_elem_of_here.
    simpl. by rewrite !fmap_insert, map_fmap_singleton. }
  rewrite Hentry.
  change (col (historyEntry req o) "uuid") with (JStr (historyUuid o)).
  rewrite Hfresh. cbn [mbind Result_bind].
  by rewrite lookupTransaction_withHistory, Hload.
Qed.

(** *** The journal after an edit *)

Lemma runQuery_spares st q st' (r : Row) :
  runQuery st q = Ok st' -> spares r q ->
  r ∈ posting_journal st -> r ∈ posting_journal st'.
Proof.
  destruct q as [uuid|row uuid|row|row]; simpl.
  - intros [= <-] Hspared Hr. simpl.
    apply list_elem_of_In, List.filter_In. split; [by apply list_elem_of_In|].
    by rewrite Hspared.
  - destruct (noAssignment row); [done|].
    intros [= <-] Hspared Hr. simpl. apply list_elem_of_fmap. exists r.
    by rewrite Hspared.
  - destruct (hasUuid _ _); [done|]. intros [= <-] _ Hr. simpl.
    apply elem_of_app. by left.
  - destruct (hasUuid _ _); [done|]. by intros [= <-].
Qed.

Lemma runQueries_spares qs (r : Row) : forall st st',
  runQueries st qs = Ok st' -> Forall (spares r) qs ->
  r ∈ posting_journal st -> r ∈ posting_journal st'.
Proof.
  induction qs as [|q qs IH]; intros st st'; simpl.
  - by intros [= <-].
  - destruct (runQuery st q) as [st1|e] eqn:Hq; simpl; [|done].
    intros Hrest [Hspared Hall]%Forall_cons Hr.
    eapply IH; [done..|]. by eapply runQuery_spares.
Qed.

Lemma updates_spare req (result' : list Row) (r : Row) :
  unchangedBy (changed req) r ->
  Forall (spares r)
    ((fun '(uid, row) =>
        UPDATE_JOURNAL_ROW (convert row ["entity_uuid"]) (bid (JStr uid)))
       <$> zip (changed req).*1 result').
Proof.
  unfold unchangedBy. intros Hkeys. apply Forall_fmap, Forall_forall.
  intros [uid row] Hin. simpl.
  apply elem_of_zip_l in Hin. rewrite Forall_forall in Hkeys. by apply Hkeys.
Qed.

Lemma runQueries_inserts (rows : list Row) (row : Row) : forall st st',
  runQueries st
    ((fun row =>
        INSERT_JOURNAL_ROW
          (convert row ["uuid"; "record_uuid"; "entity_uuid"; "reference_uuid"]))
       <$> rows) = Ok st' ->
  row ∈ rows -> (escape <$> row) ∈ posting_journal st'.
Proof.
  induction rows as [|row0 rows IH]; intros st st' Hrun Hrow.
  - by apply elem_of_nil in Hrow.
  - rewrite fmap_cons in Hrun. cbn [runQueries] in Hrun.
    destruct (runQuery st _) as [st1|e] eqn:Hq; [|done].
    cbn [mbind Result_bind] in Hrun.
    apply elem_of_cons in Hrow as [->|Hrow]; [|by eapply IH].
    eapply runQueries_spares; [done| |].
    + apply Forall_fmap, Forall_true. done.
    + revert Hq. cbn [runQuery]. unfold convert.
      destruct (hasUuid _ _); [done|]. intros [= <-]. simpl.
      apply elem_of_app. right. apply list_elem_of_here.
Qed.

(** X21.  An edit that succeeds leaves alone the rows of the posting
    journal it does not name: a row whose [uuid] is neither that of a
    [removed] row nor a key of [changed] is still there, unaltered. *)
Theorem edit_leaves_unnamed_rows_alone req o st (r : Row) :
  succeeded (editTransaction req o st).1 = true ->
  r ∈ posting_journal st ->
  listed (removed req) r = false ->
  unchangedBy (changed req) r ->
  r ∈ posting_journal (editTransaction req o st).2.
Proof.
  destruct (editTransaction_outcome req o st)
    as [[e' ->]|(first & rest & fy & result & result' & st' & _ & _ & _ & _ & _ & _ & _
                 & Hrun & ->)]; simpl; [done|].
  intros _ Hr Hremoved Hchanged.
  eapply runQueries_spares; [done| |done].
  unfold queued, removals. rewrite !Forall_app, !Forall_fmap. split_and!.
  - apply Forall_forall. intros row Hrow. simpl.
    unfold listed in Hremoved. apply not_true_iff_false in Hremoved.
    apply not_true_iff_false. intros Heq. apply Hremoved, existsb_exists.
    exists row. split; [by apply list_elem_of_In|done].
  - by apply Forall_true.
  - rewrite <- Forall_fmap. by apply updates_spare.
  - by repeat constructor.
Qed.

(** X22.  An edit that succeeds has inserted its added rows: each row
    of the transformed batch is in the posting journal, as the driver
    stores it, unless a key of [changed] names it. *)
Theorem added_rows_are_inserted req o st :
  succeeded (editTransaction req o st).1 = true ->
  exists existing fiscalYear result,
    lookupTransaction st (record_uuid req) = Ok existing
    /\ transformColumns st (addedOrder o) (added req) true existing fiscalYear
       = Ok result
    /\ forall row : Row,
         row ∈ result ->
         unchangedBy (changed req) (escape <$> row) ->
         (escape <$> row) ∈ posting_journal (editTransaction req o st).2.
Proof.
  destruct (editTransaction_outcome req o st)
    as [[e' ->]|(first & rest & fy & result & result' & st' & Hload & _ & _ & _ & _
                 & Hadd & _ & Hrun & ->)]; simpl; [done|].
  intros _. exists (first :: rest), fy, result. split; [done|]. split; [done|].
  intros row Hrow Hchanged.
  revert Hrun. unfold queued. rewrite !runQueries_app.
  destruct (runQueries st (removals req)) as [st1|e]; [|done].
  cbn [mbind Result_bind].
  destruct (runQueries st1 _) as [st2|e] eqn:Hinserts; [|done].
  cbn [mbind Result_bind].
  destruct (runQueries st2 _) as [st3|e] eqn:Hupdates; [|done].
  cbn [mbind Result_bind]. intros Hhistory.
  eapply runQueries_spares; [exact Hhistory|by repeat constructor|].
  eapply runQueries_spares; [exact Hupdates|by apply updates_spare|].
  by eapply runQueries_inserts.
Qed.

End Facts.

(** *** On the sample data *)

Lemma sample_R1_loaded :
  lookupTransaction Sample.store "R1"
  = Ok (default ∅ (head Sample.loadedR1) :: tail Sample.loadedR1).
Proof. apply lookupTransaction_find_cons. vm_compute. reflexivity. Qed.

Lemma sample_R1_unposted first :
  head (default ∅ (head Sample.loadedR1) :: tail Sample.loadedR1) = Some first ->
  truthy (prop first "posted") = false.
Proof.
  intros Hhead.
  change (Some (default ∅ (head Sample.loadedR1)) = Some first) in Hhead.
  assert (Hfirst : first = default ∅ (head Sample.loadedR1)) by congruence.
  rewrite Hfirst. vm_compute. reflexivity.
Qed.

Lemma sample_R4_loaded :
  lookupTransaction Scenarios.store "R4"
  = Ok (default ∅ (head Scenarios.loadedR4) :: tail Scenarios.loadedR4).
Proof. apply lookupTransaction_find_cons. vm_compute. reflexivity. Qed.

Lemma head_elem_of {A} (d : A) (l : list A) :
  (length l =? 0)%nat = false -> default d (head l) ∈ l.
Proof. destruct l as [|x l]; [done|]. intros _. apply list_elem_of_here. Qed.

(** X1 on the sample: the first row of the transaction [R1]. *)
Lemma looked_up_rows_belong_to_the_transaction_witness :
  default ∅ (head Sample.loadedR1) !! "record_uuid" = Some (JStr "R1").
Proof.
  destruct (looked_up_rows_belong_to_the_transaction Sample.store "R1" Sample.loadedR1)
    as [_ Hrows].
  - apply lookupTransaction_find. vm_compute. reflexivity.
  - apply Hrows, head_elem_of. vm_compute. reflexivity.
Defined.

(** X2 on the sample: no row belongs to a record [R9]. *)
Lemma unknown_record_is_not_found_witness :
  lookupTransaction Sample.store "R9" = Err NotFound.
Proof.
  apply (@unknown_record_is_not_found Sample.platform Sample.store "R9").
  intros p Hp Heq.
  assert (Hall : Forall (fun p : Row => sqlEq (col p "record_uuid") (JStr "R9") = false)
                   (general_ledger Sample.store ++ posting_journal Sample.store)).
  { apply (bool_decide_unpack _). vm_compute. exact I. }
  rewrite Forall_forall in Hall. specialize (Hall p Hp).
  apply sqlEq_JStr in Heq. congruence.
Defined.

(** X4 on the sample: row [a1] of [R1] is moved to the 2023-01-01, a day
    of the locked fiscal year 2023. *)
Lemma locked_fiscal_year_refuses_the_edit_witness :
  editTransaction (H := Sample.platform) Scenarios.editBackdated Sample.oracle
    Sample.store
  = (Err (BadRequest "POSTING_JOURNAL.ERRORS.CLOSED_FISCAL_YEAR"), Sample.store).
Proof.
  apply (@locked_fiscal_year_refuses_the_edit Sample.platform Sample.store
           Scenarios.editBackdated Sample.oracle
           (default ∅ (head Sample.loadedR1) :: tail Sample.loadedR1)
           Scenarios.fiscal2023).
  - exact sample_R1_loaded.
  - exact sample_R1_unposted.
  - vm_compute. reflexivity.
  - vm_compute. reflexivity.
  - reflexivity.
Defined.

(** X5 on the sample: a row added under an unknown account number. *)
Lemma rejected_edit_changes_nothing_witness :
  (editTransaction (H := Sample.platform) Sample.editUnknownAccount Sample.oracle
     Sample.store).2 = Sample.store.
Proof.
  apply (@rejected_edit_changes_nothing Sample.platform Sample.editUnknownAccount
           Sample.oracle Sample.store
           (BadRequest "POSTING_JOURNAL.ERRORS.EDIT_INVALID_ACCOUNT")).
  - vm_compute. reflexivity.
  - discriminate.
Defined.

(** X7 on the sample: row [a1] of [R1] is moved to the 2024-02-15. *)
Lemma successful_edit_records_one_history_entry_witness :
  transaction_history
    (editTransaction (H := Sample.platform) Sample.editRedated Sample.oracle
       Sample.store).2
  = transaction_history Sample.store ++ [historyEntry Sample.editRedated Sample.oracle].
Proof.
  apply (@successful_edit_records_one_history_entry Sample.platform Sample.editRedated
           Sample.oracle Sample.store).
  vm_compute. reflexivity.
Defined.

(** X8 on the sample: the third row of [R4] is removed. *)
Lemma removal_deletes_the_named_rows_witness :
  posting_journal
    (editTransaction (H := Sample.platform) Scenarios.editRemovingOne Sample.oracle
       Scenarios.store).2
  = List.filter (fun r => negb (listed (removed Scenarios.editRemovingOne) r))
      (posting_journal Scenarios.store).
Proof.
  apply (@removal_deletes_the_named_rows Sample.platform Scenarios.editRemovingOne
           Sample.oracle Scenarios.store).
  - reflexivity.
  - reflexivity.
  - vm_compute. reflexivity.
Defined.

(** X9 on the sample: the same edit under two settling orders. *)
Lemma settling_order_changes_at_most_the_error_witness :
  fulfilled
    (editTransaction (H := Sample.platform) Sample.editRedated Sample.oracle
       Sample.store).1
  = fulfilled
      (editTransaction (H := Sample.platform) Sample.editRedated Scenarios.otherOrder
         Sample.store).1
  /\ (editTransaction (H := Sample.platform) Sample.editRedated Sample.oracle
        Sample.store).2
     = (editTransaction (H := Sample.platform) Sample.editRedated Scenarios.otherOrder
          Sample.store).2.
Proof.
  apply (@settling_order_changes_at_most_the_error Sample.platform Sample.editRedated
           Sample.oracle Scenarios.otherOrder Sample.store).
  reflexivity.
Defined.

(** X10 on the sample: a new row with an amount and no account. *)
Lemma new_rows_must_name_an_account_witness :
  transformColumns (H := Sample.platform) Sample.store [] [Scenarios.unnamedRow] true
    (default ∅ (head Sample.loadedR1) :: tail Sample.loadedR1) Sample.fiscal2024
  = Err (BadRequest "POSTING_JOURNAL.ERRORS.EDIT_INVALID_ACCOUNT").
Proof.
  apply (@new_rows_must_name_an_account Sample.platform Sample.store []
           [Scenarios.unnamedRow] (default ∅ (head Sample.loadedR1))
           (tail Sample.loadedR1) Sample.fiscal2024 Scenarios.unnamedRow).
  - apply list_elem_of_here.
  - reflexivity.
Defined.

Lemma sample_twoAccounts_resolved :
  transformColumns (H := Sample.platform) Sample.store [] Sample.twoAccounts false
    Sample.loadedR1 Sample.fiscal2024
  = Ok [ {[ "account_id" := JNum 10 ]}; {[ "account_id" := JNum 11 ]} ].
Proof. vm_compute. reflexivity. Qed.

(** X11 on the sample: two rows that name their accounts by number. *)
Lemma code_fields_are_discarded_witness :
  codeFree [ {[ "account_id" := JNum 10 ]}; {[ "account_id" := JNum 11 ]} ].
Proof.
  apply (@code_fields_are_discarded Sample.platform Sample.store [] Sample.twoAccounts
           false Sample.loadedR1 Sample.fiscal2024).
  exact sample_twoAccounts_resolved.
Defined.

(** X12 on the sample: a changed row that only sets a description. *)
Lemma untriggered_rows_pass_through_witness :
  [Scenarios.describedRow] !! 0%nat = Some Scenarios.describedRow.
Proof.
  apply (@untriggered_rows_pass_through Sample.platform Sample.store []
           [Scenarios.describedRow] Sample.loadedR1 Sample.fiscal2024
           [Scenarios.describedRow] 0%nat Scenarios.describedRow).
  - vm_compute. reflexivity.
  - reflexivity.
  - apply Forall_forall. apply (bool_decide_unpack _). vm_compute. exact I.
Defined.

(** X13 on the sample: an amount of 7 on a row of [R4], which is held in
    the enterprise's currency. *)
Lemma enterprise_currency_amounts_are_kept_witness :
  exists (row' : Row) q',
    [ ({[ "debit_equiv" := JNum 7; "debit" := JNum 7 ]} : Row) ] !! 0%nat = Some row'
    /\ row' !! "debit" = Some (JNum q') /\ (q' == 7)%Q.
Proof.
  apply (@enterprise_currency_amounts_are_kept Sample.platform Scenarios.store []
           [Sample.convertedRow] false (default ∅ (head Scenarios.loadedR4))
           (tail Scenarios.loadedR4) Sample.fiscal2024
           [ {[ "debit_equiv" := JNum 7; "debit" := JNum 7 ]} ] 0%nat
           Sample.convertedRow Debit 7%Q).
  - vm_compute. reflexivity.
  - reflexivity.
  - reflexivity.
  - intros Hzero. vm_compute in Hzero. discriminate Hzero.
  - apply Forall_forall. apply (bool_decide_unpack _). vm_compute. exact I.
Defined.

(** X19 on the sample: an edit of [R1] that asks for nothing. *)
Lemma empty_edit_only_records_history_witness :
  editTransaction (H := Sample.platform) Scenarios.editNothing Sample.oracle Sample.store
  = (Ok (default ∅ (head Sample.loadedR1) :: tail Sample.loadedR1),
     withHistory Sample.store
       (transaction_history Sample.store
        ++ [historyEntry Scenarios.editNothing Sample.oracle])).
Proof.
  apply (@empty_edit_only_records_history Sample.platform Sample.store
           Scenarios.editNothing Sample.oracle
           (default ∅ (head Sample.loadedR1) :: tail Sample.loadedR1)
           Sample.fiscal2024).
  - reflexivity.
  - reflexivity.
  - reflexivity.
  - exact sample_R1_loaded.
  - exact sample_R1_unposted.
  - vm_compute. discriminate.
  - vm_compute. reflexivity.
  - reflexivity.
  - reflexivity.
Defined.

(** X20 on the sample: the account number 1100 of the first of two rows. *)
Lemma codes_resolve_to_a_row_bearing_them_witness :
  exists r row' : Row,
    r ∈ codeTable Sample.store AccountNumber
    /\ sqlEq (col r (codeColumn AccountNumber)) (JNum 1100) = true
    /\ [ ({[ "account_id" := JNum 10 ]} : Row); {[ "account_id" := JNum 11 ]} ] !! 0%nat
       = Some row'
    /\ row' !! idField AccountNumber = Some (col r (idColumn AccountNumber)).
Proof.
  exact (@codes_resolve_to_a_row_bearing_them Sample.platform Sample.store []
           Sample.twoAccounts false Sample.loadedR1 Sample.fiscal2024
           [ {[ "account_id" := JNum 10 ]}; {[ "account_id" := JNum 11 ]} ] 0%nat
           {[ "account_number" := JNum 1100 ]} AccountNumber
           sample_twoAccounts_resolved eq_refl eq_refl).
Defined.

(** X21 on the sample: [R1] is edited; row [c1] of [R3] is not named. *)
Lemma edit_leaves_unnamed_rows_alone_witness :
  Sample.journalRow "c1" "R3" Sample.jan01 10 3
  ∈ posting_journal
      (editTransaction (H := Sample.platform) Sample.editRedated Sample.oracle
         Sample.store).2.
Proof.
  apply (@edit_leaves_unnamed_rows_alone Sample.platform Sample.editRedated
           Sample.oracle Sample.store).
  - vm_compute. reflexivity.
  - apply (list_elem_of_lookup_2 _ 2%nat). reflexivity.
  - reflexivity.
  - unfold unchangedBy. apply (bool_decide_unpack _). vm_compute. exact I.
Defined.

(** X22 on the sample: a row is added to [R1]. *)
Lemma added_rows_are_inserted_witness :
  exists existing fiscalYear result,
    lookupTransaction Sample.store "R1" = Ok existing
    /\ transformColumns (H := Sample.platform) Sample.store [] (added Sample.editAddingDated)
         true existing fiscalYear = Ok result
    /\ forall row : Row,
         row ∈ result ->
         unchangedBy [] (escape <$> row) ->
         (escape <$> row)
         ∈ posting_journal
             (editTransaction (H := Sample.platform) Sample.editAddingDated
                Sample.oracle Sample.store).2.
Proof.
  apply (@added_rows_are_inserted Sample.platform Sample.editAddingDated Sample.oracle
           Sample.store).
  vm_compute. reflexivity.
Defined.

End JournalMoreFacts.

(** ** The other endpoints: facts *)

Module JournalQueriesFacts.
Import Journal JournalSpec JournalFacts JournalEffects JournalMoreFacts JournalQueries.

#[local] Opaque selectColumns.

(** *** Unique record identifiers *)

Lemma strictEq_trans a b c :
  strictEq a b = true -> strictEq b c = true -> strictEq a c = true.
Proof.
  destruct a as [| |x|x|s|t], b as [| |y|y|s'|t'], c as [| |z|z|s''|t'']; simpl; try done.
  - rewrite !Bool.eqb_true_iff. congruence.
  - rewrite !Qeq_bool_iff. intros -> ->. reflexivity.
  - rewrite !String.eqb_eq. congruence.
Qed.

Lemma sqlEq_strictEq x w v :
  w = v \/ strictEq w v = true -> sqlEq x w = sqlEq x v.
Proof.
  intros [->|Heq]; [done|].
  destruct w as [| |a|a|s|t], v as [| |b|b|s'|t']; simpl in Heq; try done.
  - apply Bool.eqb_prop in Heq. by subst.
  - destruct x as [| |c|c|s|t]; simpl; try done.
    apply Qeq_bool_iff in Heq. apply eq_true_iff_eq.
    rewrite !Qeq_bool_iff. by rewrite Heq.
  - apply String.eqb_eq in Heq. by subst.
Qed.

Lemma elem_of_unique arr v : v ∈ unique arr -> v ∈ arr.
Proof.
  unfold unique. intros (o & Ho & Hv)%list_elem_of_omap. simpl in Hv. subst o.
  apply elem_of_lookup_imap in Ho as (i & w & Heq & Hw).
  destruct (firstOccurrence arr i w); simplify_eq. by eapply list_elem_of_lookup_2.
Qed.

Lemma unique_covers arr : forall i v,
  arr !! i = Some v -> exists w, w ∈ unique arr /\ (w = v \/ strictEq w v = true).
Proof.
  intros i. induction i as [i IH] using lt_wf_ind. intros v Hv.
  destruct (firstOccurrence arr i v) eqn:Hfirst.
  - exists v. split; [|by left].
    unfold unique. apply list_elem_of_omap. exists (Some v). split; [|done].
    apply elem_of_lookup_imap. exists i, v. by rewrite Hfirst.
  - unfold firstOccurrence in Hfirst. apply negb_false_iff, existsb_exists in Hfirst
      as (earlier & Hin & Heq).
    apply list_elem_of_In, list_elem_of_lookup_1 in Hin as [j Hj].
    assert (Hlt : (j < i)%nat).
    { apply lookup_lt_Some in Hj. rewrite length_take in Hj. lia. }
    rewrite lookup_take_lt in Hj by done.
    destruct (IH j Hlt earlier Hj) as (w & Hw & [->|Hwe]).
    + exists earlier. auto.
    + exists w. split; [done|]. right. by eapply strictEq_trans.
Qed.

(** *** The second pass of a listing *)

Lemma elem_of_find_records st records (includeNonPosted : bool) (row : Row) :
  row ∈ JournalQueries.find st records includeNonPosted
  <-> (includeNonPosted = true
       /\ row ∈ JournalQueries.buildTransactionQuery st records true)
      \/ row ∈ JournalQueries.buildTransactionQuery st records false.
Proof.
  unfold JournalQueries.find, JournalQueries.naiveTransactionSearch.
  destruct includeNonPosted; cbn [negb]; cbv zeta; rewrite orderByTransDateDesc_perm.
  - rewrite elem_of_app. split.
    + intros [Hp|Hn]; [left; split; [reflexivity|exact Hp]|right; exact Hn].
    + intros [[_ Hp]|Hn]; [left; exact Hp|right; exact Hn].
  - split.
    + intros Hn. right. exact Hn.
    + intros [[Hf _]|Hn]; [discriminate Hf|exact Hn].
Qed.

Lemma elem_of_find_record st recordUuid (includeNonPosted : bool) (row : Row) :
  row ∈ Journal.find st recordUuid includeNonPosted
  <-> (includeNonPosted = true
       /\ row ∈ Journal.buildTransactionQuery st recordUuid true)
      \/ row ∈ Journal.buildTransactionQuery st recordUuid false.
Proof.
  unfold Journal.find, Journal.naiveTransactionSearch.
  destruct includeNonPosted; cbn [negb]; cbv zeta; rewrite orderByTransDateDesc_perm.
  - rewrite elem_of_app. split.
    + intros [Hp|Hn]; [left; split; [reflexivity|exact Hp]|right; exact Hn].
    + intros [[_ Hp]|Hn]; [left; exact Hp|right; exact Hn].
  - split.
    + intros Hn. right. exact Hn.
    + intros [[Hf _]|Hn]; [discriminate Hf|exact Hn].
Qed.

Lemma buildTransactionQuery_record_uuids st records posted row :
  row ∈ JournalQueries.buildTransactionQuery st records posted ->
  exists v, v ∈ records /\ sqlEq (prop row "record_uuid") v = true.
Proof.
  unfold JournalQueries.buildTransactionQuery. cbv zeta.
  intros (p & Hrow & Hp)%list_elem_of_bind.
  repeat (apply list_elem_of_bind in Hrow as (? & Hrow & _)).
  destruct (existsb _ _) eqn:Hin; [|by apply elem_of_nil in Hrow].
  apply existsb_exists in Hin as (v & Hv & Heq).
  apply list_elem_of_singleton in Hrow as ->.
  apply list_elem_of_In, list_elem_of_fmap in Hv as (v' & -> & Hv).
  exists v'. split; [done|]. unfold prop. by rewrite selectColumns_record_uuid.
Qed.

Lemma buildTransactionQuery_widen st recordUuid records posted row :
  JStr recordUuid ∈ records ->
  row ∈ Journal.buildTransactionQuery st recordUuid posted ->
  row ∈ JournalQueries.buildTransactionQuery st records posted.
Proof.
  intros Hrecord.
  unfold Journal.buildTransactionQuery, JournalQueries.buildTransactionQuery. cbv zeta.
  intros Hrow.
  do 9 (let x := fresh "x" in
        let Hx := fresh "Hx" in
        apply list_elem_of_bind in Hrow as (x & Hrow & Hx);
        apply list_elem_of_bind; exists x; split; [|exact Hx]).
  destruct (sqlEq _ (JStr recordUuid)) eqn:Heq; [|by apply elem_of_nil in Hrow].
  replace (existsb _ _) with true; [done|].
  symmetry. apply existsb_exists. exists (JStr recordUuid). split; [|done].
  apply list_elem_of_In, list_elem_of_fmap. by exists (JStr recordUuid).
Qed.

(** X14.  A listing that asks for full transactions returns whole
    transactions and nothing else: each of its rows belongs to the record
    of some row the filters found, and every row a search for the record
    of such a row finds is in it. *)
Theorem full_transactions_are_whole st journalResults (includeNonPosted : bool) :
  let out := listJournal st journalResults includeNonPosted true in
  (forall row : Row, row ∈ out ->
     exists r : Row,
       r ∈ journalResults
       /\ sqlEq (prop row "record_uuid") (prop r "record_uuid") = true)
  /\ (forall (r : Row) u (row : Row),
        r ∈ journalResults -> prop r "record_uuid" = JStr u ->
        row ∈ Journal.find st u includeNonPosted -> row ∈ out).
Proof.
  unfold listJournal. cbv zeta. destruct journalResults as [|r0 rows].
  { change (negb (length (@nil Row) =? 0)%nat && true) with false. cbv iota.
    split; [intros row Hrow; by apply elem_of_nil in Hrow
           |intros r u row Hr; by apply elem_of_nil in Hr]. }
  change (negb (length (r0 :: rows) =? 0)%nat && true) with true. cbv iota.
  set (results := r0 :: rows).
  unfold postProcessFullTransactions. cbv zeta.
  set (arr := (fun row => prop row "record_uuid") <$> results).
  split.
  - intros row Hrow. apply elem_of_find_records in Hrow.
    assert (Hv : exists v, v ∈ unique arr /\ sqlEq (prop row "record_uuid") v = true).
    { destruct Hrow as [[_ Hrow]|Hrow];
        by apply buildTransactionQuery_record_uuids in Hrow. }
    destruct Hv as (v & Hv & Heq).
    apply elem_of_unique, list_elem_of_fmap in Hv as (r & -> & Hr). eauto.
  - intros r u row Hr Hu Hrow.
    assert (Hin : JStr u ∈ unique arr).
    { assert (Harr : JStr u ∈ arr).
      { apply list_elem_of_fmap. exists r. by rewrite Hu. }
      apply list_elem_of_lookup_1 in Harr as [i Hi].
      destruct (unique_covers arr i _ Hi) as (w & Hw & [->|Heq]); [done|].
      destruct w as [| |x|x|s|t]; simpl in Heq; try done.
      apply String.eqb_eq in Heq. by subst. }
    apply elem_of_find_records. apply elem_of_find_record in Hrow.
    destruct Hrow as [[-> Hrow]|Hrow]; [left; split; [done|]|right];
      by eapply buildTransactionQuery_widen.
Qed.

(** *** The edit history *)

Lemma editors_joined (users : list Row) (h : Row) :
  editors
    (innerJoin users (fun u => sqlEq (col u "id") (col h "user_id"))
     ≫= fun u => [ {[ "display_name" := col u "display_name";
                      "timestamp" := col h "timestamp" ]} ])
  = (fun u => col u "display_name")
      <$> List.filter (fun u => sqlEq (col u "id") (col h "user_id")) users.
Proof.
  unfold innerJoin, editors.
  induction (List.filter _ users) as [|u us IH]; [done|].
  cbn [mbind list_bind fmap list_fmap app]. by rewrite <- IH.
Qed.

Section History.
Context `{Platform}.

(** X15.  After an edit that succeeds, the edit history of its record
    lists, in some order, what it listed before together with the name of
    every user whose [id] is the session's user id: once, when that user
    exists, and not at all when the [user] table does not hold them. *)
Theorem successful_edit_shows_in_the_edit_history req o st :
  succeeded (editTransaction req o st).1 = true ->
  editors (getTransactionEditHistory (editTransaction req o st).2 (record_uuid req))
  ≡ₚ editors (getTransactionEditHistory st (record_uuid req))
     ++ ((fun u => col u "display_name")
           <$> List.filter (fun u => sqlEq (col u "id") (escape (user_id req))) (user st)).
Proof.
  destruct (editTransaction_outcome req o st)
    as [[e' ->]|(first & rest & fy & result & result' & st' & Hload & _ & _ & _ & _ & _
                 & _ & Hrun & ->)]; simpl; [done|].
  intros _.
  pose proof (runQueries_sameElsewhere _ _ _ Hrun) as (_ & _ & _ & _ & Huser & _).
  apply queued_history in Hrun.
  2:{ eapply lookupTransaction_record_uuid; [done|]. apply list_elem_of_here. }
  unfold getTransactionEditHistory. rewrite Hrun, Huser, bind_app.
  unfold editors at 1. rewrite fmap_app. apply Permutation_app; [reflexivity|].
  cbn [mbind list_bind]. rewrite app_nil_r.
  change (col (historyEntry req o) "record_uuid") with (JStr (record_uuid req)).
  change (col (historyEntry req o) "user_id") with (escape (user_id req)).
  unfold bid. cbn [sqlEq]. rewrite String.eqb_refl.
  apply reflexive_eq. exact (editors_joined (user st) (historyEntry req o)).
Qed.

End History.

(** *** Comments *)

Lemma col_insert_ne (r : Row) k k' v : k <> k' -> col (<[k := v]> r) k' = col r k'.
Proof. intros Hne. unfold col. by rewrite lookup_insert_ne. Qed.

Lemma updateComment_twice comment comment' uids t :
  updateComment comment' uids (updateComment comment uids t)
  = updateComment comment' uids t.
Proof.
  unfold updateComment. rewrite <- list_fmap_compose.
  apply list_fmap_ext. intros _ r _. simpl.
  destruct (existsb (fun uid => sqlEq (col r "uuid") uid) uids) eqn:Hin.
  - rewrite col_insert_ne, Hin by done. apply insert_insert_eq.
  - by rewrite Hin.
Qed.

(** X16.  Of two comments put one after the other on the same rows the
    second is the one that stays: the database is the one the second
    comment alone would have left.  Putting the same comment twice changes
    nothing more than putting it once. *)
Theorem last_comment_wins uuids comment comment' st :
  uuids <> [] ->
  (commentPostingJournal uuids comment'
     (commentPostingJournal uuids comment st).2).2
  = (commentPostingJournal uuids comment' st).2.
Proof.
  intros Hsome. unfold commentPostingJournal. cbv zeta.
  destruct uuids as [|uuid uuids]; [done|]. rewrite fmap_cons.
  unfold withLedger, withJournal. simpl.
  by rewrite !updateComment_twice.
Qed.



#[local] Transparent selectColumns.


#[local] Opaque selectColumns.









(** X18.  A comment changes nothing but comments: the posting journal
    and the general ledger keep their rows, in order and equal in every
    other column, and with the old journal and ledger put back the
    database is the one before. *)
Theorem comment_changes_only_comments uuids comment st :
  let st' := (commentPostingJournal uuids comment st).2 in
  delete "comment" <$> posting_journal st' = delete "comment" <$> posting_journal st
  /\ delete "comment" <$> general_ledger st' = delete "comment" <$> general_ledger st
  /\ withLedger (withJournal st' (posting_journal st)) (general_ledger st) = st.
Proof.
  assert (Hrows : forall uids t,
             delete "comment" <$> updateComment comment uids t
             = (delete "comment" <$> t : list Row)).
  { intros uids t. unfold updateComment. rewrite <- list_fmap_compose.
    apply list_fmap_ext. intros _ r _. simpl.
    destruct (existsb _ uids); [|done]. apply delete_insert_eq. }
  unfold commentPostingJournal. cbv zeta.
  destruct uuids as [|uuid uuids]; simpl.
  - by destruct st.
  - rewrite !Hrows. by destruct st.
Qed.

(** *** On the sample data *)

(** X14 on the sample: the filters found one row of [R1]; the first row
    a search for [R1] finds is in the listing. *)
Lemma full_transactions_are_whole_witness :
  default ∅ (head (Journal.find Sample.store "R1" true))
  ∈ listJournal Sample.store [Scenarios.hit] true true.
Proof.
  apply (proj2 (full_transactions_are_whole Sample.store [Scenarios.hit] true)
           Scenarios.hit "R1").
  - apply list_elem_of_here.
  - reflexivity.
  - apply head_elem_of. vm_compute. reflexivity.
Defined.

(** X15 on the sample: row [a1] of [R1] is moved to the 2024-02-15 by
    user 1. *)
Lemma successful_edit_shows_in_the_edit_history_witness :
  editors
    (getTransactionEditHistory
       (editTransaction (H := Sample.platform) Sample.editRedated Sample.oracle
          Sample.store).2 "R1")
  ≡ₚ editors (getTransactionEditHistory Sample.store "R1")
     ++ ((fun u => col u "display_name")
           <$> List.filter (fun u => sqlEq (col u "id") (escape (JNum 1)))
                 (user Sample.store)).
Proof.
  apply (@successful_edit_shows_in_the_edit_history Sample.platform Sample.editRedated
           Sample.oracle Sample.store).
  vm_compute. reflexivity.
Defined.

(** X16 on the sample: two comments on row [a1]. *)
Lemma last_comment_wins_witness :
  (commentPostingJournal [JStr "a1"] (JStr "checked")
     (commentPostingJournal [JStr "a1"] (JStr "to check") Sample.store).2).2
  = (commentPostingJournal [JStr "a1"] (JStr "checked") Sample.store).2.
Proof.
  apply (last_comment_wins [JStr "a1"] (JStr "to check") (JStr "checked") Sample.store).
  discriminate.
Defined.


End JournalQueriesFacts.

(** ** Opening balances: further facts *)

Module AccountExtrasMoreFacts.
Import AccountExtras AccountExtrasSpec AccountExtrasFacts BalanceTerms.

(** *** Sums *)

Lemma sum_minus {A} (f g : A -> Q) (rows : list A) :
  (foldr Qplus 0 ((fun row => f row - g row) <$> rows)
   == foldr Qplus 0 (f <$> rows) - foldr Qplus 0 (g <$> rows))%Q.
Proof.
  induction rows as [|row rows IH]; [reflexivity|].
  cbn [fmap list_fmap foldr]. rewrite IH. ring.
Qed.

Lemma sum_split {A} (column : A -> Q) (P Q R : A -> Prop)
    `{!forall x, Decision (P x)} `{!forall x, Decision (Q x)}
    `{!forall x, Decision (R x)} (rows : list A) :
  (forall x, P x <-> Q x \/ R x) -> (forall x, Q x -> R x -> False) ->
  (foldr Qplus 0 (column <$> filter P rows)
   == foldr Qplus 0 (column <$> filter Q rows)
      + foldr Qplus 0 (column <$> filter R rows))%Q.
Proof.
  intros Hsplit Hdisjoint. induction rows as [|row rows IH]; [reflexivity|].
  rewrite !filter_cons.
  destruct (decide (P row)) as [HP|HP], (decide (Q row)) as [HQ|HQ],
    (decide (R row)) as [HR|HR]; cbn [fmap list_fmap foldr]; rewrite ?IH; try ring;
    exfalso; first [by eapply Hdisjoint | apply HP, Hsplit; auto
                   | apply Hsplit in HP as [?|?]; auto].
Qed.

(** *** Resolving the calendar *)

Lemma getFiscalYearForDate_Ok db date fiscalYearId :
  getFiscalYearForDate db date = Ok fiscalYearId ->
  exists f, f ∈ fiscal_years db /\ fy_id f = fiscalYearId
            /\ fiscalYearCovers (DATE date) f.
Proof.
  unfold getFiscalYearForDate.
  destruct (List.filter _ (fiscal_years db)) as [|f fs] eqn:Hfilter; [done|].
  cbn [one mbind Result_bind]. intros [= <-]. exists f.
  assert (Hin : In f (List.filter
                        (fun f => (fy_start_date f <=? DATE date)
                                  && (DATE date <=? fy_end_date f))
                        (fiscal_years db))) by (rewrite Hfilter; by left).
  apply List.filter_In in Hin as [Hin Hcond].
  apply andb_true_iff in Hcond as [?%Z.leb_le ?%Z.leb_le].
  split; [by apply list_elem_of_In|]. split; [done|]. by split.
Qed.

Lemma getFiscalYearForDate_Err db date :
  (forall f, f ∈ fiscal_years db -> ~ fiscalYearCovers (DATE date) f) ->
  getFiscalYearForDate db date = Err NotFound.
Proof.
  intros Hnone. unfold getFiscalYearForDate.
  destruct (List.filter _ (fiscal_years db)) as [|f fs] eqn:Hfilter; [done|].
  assert (Hin : In f (List.filter
                        (fun f => (fy_start_date f <=? DATE date)
                                  && (DATE date <=? fy_end_date f))
                        (fiscal_years db))) by (rewrite Hfilter; by left).
  apply List.filter_In in Hin as [Hin Hcond].
  apply andb_true_iff in Hcond as [?%Z.leb_le ?%Z.leb_le].
  destruct (Hnone f); [by apply list_elem_of_In|by split].
Qed.

Lemma periodCondition_covers day (p : period) :
  isTrue (sqlAnd (sqlCmp Z.leb (p_start_date p) (Some day))
                 (sqlCmp Z.leb (Some day) (p_end_date p))) = true
  <-> periodCovers day p.
Proof.
  unfold periodCovers. rewrite isTrue_sqlAnd.
  destruct (p_start_date p) as [s|], (p_end_date p) as [e|]; simpl;
    rewrite ?Z.leb_le; split;
    try (by intros [? ?]); try (by intros (? & ? & ? & ? & _)).
  - intros [? ?]. by exists s, e.
  - by intros (? & ? & [= <-] & [= <-] & ? & ?).
Qed.

Lemma getPeriodForDate_Ok db date periodId :
  getPeriodForDate db date = Ok periodId ->
  exists p, p ∈ periods db /\ p_id p = periodId /\ periodCovers (DATE date) p.
Proof.
  unfold getPeriodForDate.
  destruct (List.filter _ (periods db)) as [|p ps] eqn:Hfilter; [done|].
  cbn [one mbind Result_bind]. intros [= <-]. exists p.
  assert (Hin : In p (List.filter
                        (fun p => isTrue (sqlAnd
                                    (sqlCmp Z.leb (p_start_date p) (Some (DATE date)))
                                    (sqlCmp Z.leb (Some (DATE date)) (p_end_date p))))
                        (periods db))) by (rewrite Hfilter; by left).
  apply List.filter_In in Hin as [Hin Hcond%periodCondition_covers].
  split; [by apply list_elem_of_In|done].
Qed.

Lemma getPeriodForDate_Err db date :
  (forall p, p ∈ periods db -> ~ periodCovers (DATE date) p) ->
  getPeriodForDate db date = Err NotFound.
Proof.
  intros Hnone. unfold getPeriodForDate.
  destruct (List.filter _ (periods db)) as [|p ps] eqn:Hfilter; [done|].
  assert (Hin : In p (List.filter
                        (fun p => isTrue (sqlAnd
                                    (sqlCmp Z.leb (p_start_date p) (Some (DATE date)))
                                    (sqlCmp Z.leb (Some (DATE date)) (p_end_date p))))
                        (periods db))) by (rewrite Hfilter; by left).
  apply List.filter_In in Hin as [Hin Hcond%periodCondition_covers].
  destruct (Hnone p); [by apply list_elem_of_In|done].
Qed.

(** X23.  Only the day of the date counts: two moments of one day open
    every account at the same balance. *)
Theorem opening_balance_depends_on_the_day_only db accountId date date'
    (includeMaxDate : bool) :
  DATE date = DATE date' ->
  getOpeningBalanceForDate db accountId date includeMaxDate
  = getOpeningBalanceForDate db accountId date' includeMaxDate.
Proof.
  intros Hday.
  unfold getOpeningBalanceForDate, getFiscalYearForDate, getPeriodForDate,
    getPeriodAccountBalanceUntilDate, getComputedAccountBalanceUntilDate.
  cbv zeta. by rewrite Hday.
Qed.

(** X24.  The fiscal year and the period that are resolved cover the day
    of the date: the fiscal year starts on or before it and ends on or
    after it, and so does the period, which therefore has both its dates;
    a period without dates, as period 0 is, is never the resolved one. *)
Theorem resolved_calendar_covers_the_day db date :
  (forall fiscalYearId,
     getFiscalYearForDate db date = Ok fiscalYearId ->
     exists f, f ∈ fiscal_years db /\ fy_id f = fiscalYearId
               /\ fiscalYearCovers (DATE date) f)
  /\ (forall periodId,
        getPeriodForDate db date = Ok periodId ->
        exists p, p ∈ periods db /\ p_id p = periodId
                  /\ periodCovers (DATE date) p).
Proof.
  split; intros id; [apply getFiscalYearForDate_Ok|apply getPeriodForDate_Ok].
Qed.

(** X25.  A date that no fiscal year covers, or that no period covers,
    has no opening balance: the query is rejected with [NotFound]. *)
Theorem date_outside_the_calendar_is_not_found db accountId date
    (includeMaxDate : bool) :
  (forall f, f ∈ fiscal_years db -> ~ fiscalYearCovers (DATE date) f)
  \/ (forall p, p ∈ periods db -> ~ periodCovers (DATE date) p) ->
  getOpeningBalanceForDate db accountId date includeMaxDate = Err NotFound.
Proof.
  intros [Hyear|Hperiod]; unfold getOpeningBalanceForDate; cbv zeta.
  - by rewrite getFiscalYearForDate_Err.
  - destruct (getFiscalYearForDate db date) as [fiscalYearId|e] eqn:Hfy.
    + cbn [mbind Result_bind]. rewrite getPeriodAccountBalanceUntilDate_sums.
      cbn [mbind Result_bind]. by rewrite getPeriodForDate_Err.
    + cbn [mbind Result_bind]. f_equal. revert Hfy. unfold getFiscalYearForDate.
      destruct (List.filter _ (fiscal_years db)); [by intros [= <-]|done].
Qed.

(** *** The sums *)

Lemma filter_none {A} (P : A -> Prop) `{!forall x, Decision (P x)} (l : list A) :
  (forall x, x ∈ l -> ~ P x) -> filter P l = [].
Proof.
  intros Hnone. induction l as [|x l IH]; [done|].
  rewrite filter_cons_False by (apply Hnone; left).
  apply IH. intros y Hy. apply Hnone. by right.
Qed.

(** X26.  An account without period totals and without ledger lines opens
    at zero on every date the calendar covers: all three amounts read
    [0.0000]. *)
Theorem account_without_entries_opens_at_zero db accountId date
    (includeMaxDate : bool) fiscalYearId periodId :
  getFiscalYearForDate db date = Ok fiscalYearId ->
  getPeriodForDate db date = Ok periodId ->
  (forall pt, pt ∈ period_totals db -> pt_account_id pt <> accountId) ->
  (forall line, line ∈ ledger db -> gl_account_id line <> accountId) ->
  getOpeningBalanceForDate db accountId date includeMaxDate = Ok zeroBalance.
Proof.
  intros Hfy Hperiod Htotals Hlines.
  rewrite (getOpeningBalanceForDate_resolved _ _ _ _ _ _ Hfy Hperiod). cbv zeta.
  rewrite (filter_none (beforePeriodOf accountId date fiscalYearId)).
  - rewrite (filter_none (inPeriodUntil accountId date periodId includeMaxDate)).
    + reflexivity.
    + intros line Hline (Haccount & _). by apply Hlines in Hline.
  - intros [pt p] (Hpt & _)%elem_of_joinPeriod (Haccount & _).
    by apply Htotals in Hpt.
Qed.

(** X27.  Before the date's period the balance is the debit less the
    credit: the three sums over the period totals always agree. *)
Theorem balance_before_period_is_debit_less_credit db accountId date fiscalYearId :
  exists closing,
    getPeriodAccountBalanceUntilDate db accountId date fiscalYearId = Ok closing
    /\ (balance closing == debit closing - credit closing)%Q.
Proof.
  rewrite getPeriodAccountBalanceUntilDate_sums. cbv zeta.
  eexists. split; [reflexivity|]. cbn [balance debit credit].
  rewrite !total_sum. apply sum_minus.
Qed.

(** X28.  Including the boundary day adds to each of the three running
    sums exactly the account's lines of the period that are dated on the
    day of the date. *)
Theorem boundary_day_adds_the_lines_of_that_day db accountId date periodId :
  exists upTo before,
    getComputedAccountBalanceUntilDate db accountId date periodId true = Ok upTo
    /\ getComputedAccountBalanceUntilDate db accountId date periodId false = Ok before
    /\ let sameDay := filter (onDayOf accountId date periodId) (ledger db) in
       (debit upTo == debit before + sumOf gl_debit sameDay)%Q
       /\ (credit upTo == credit before + sumOf gl_credit sameDay)%Q
       /\ (balance upTo
           == balance before
              + sumOf (fun line => gl_debit_equiv line - gl_credit_equiv line) sameDay)%Q.
Proof.
  rewrite !getComputedAccountBalanceUntilDate_sums. cbv zeta.
  eexists _, _. split; [reflexivity|]. split; [reflexivity|].
  cbn [balance debit credit]. unfold sumOf. rewrite !total_sum.
  assert (Hsplit : forall line,
             inPeriodUntil accountId date periodId true line
             <-> inPeriodUntil accountId date periodId false line
                 \/ onDayOf accountId date periodId line).
  { intros line. unfold inPeriodUntil, onDayOf. intuition lia. }
  assert (Hdisjoint : forall line,
             inPeriodUntil accountId date periodId false line ->
             onDayOf accountId date periodId line -> False).
  { intros line. unfold inPeriodUntil, onDayOf. intuition lia. }
  split_and!; by apply sum_split.
Qed.

Lemma joinPeriod_of_account (P : period_total * period -> Prop)
    `{!forall row, Decision (P row)} accountId (ps : list period)
    (pts : list period_total) :
  (forall row, P row -> pt_account_id row.1 = accountId) ->
  filter P
    (pts ≫= fun pt =>
       List.filter (fun p => p_id p =? pt_period_id pt) ps ≫= fun p => [(pt, p)])
  = filter (fun pt => pt_account_id pt = accountId) pts
    ≫= fun pt =>
         filter P
           (List.filter (fun p => p_id p =? pt_period_id pt) ps ≫= fun p => [(pt, p)]).
Proof.
  intros Haccount. induction pts as [|pt pts IH]; [done|].
  rewrite bind_cons, filter_app, IH, filter_cons.
  destruct (decide (pt_account_id pt = accountId)) as [Hyes|Hno].
  - by rewrite bind_cons.
  - rewrite filter_none; [done|].
    intros [pt' p] (p' & Hrow & _)%list_elem_of_bind HP.
    apply list_elem_of_singleton in Hrow. injection Hrow as -> ->.
    by apply Haccount in HP.
Qed.

(** X29.  What is booked on other accounts does not move the opening
    balance of an account: two databases with the same calendar that
    agree on the account's period totals and ledger lines give it the
    same opening balance. *)
Theorem other_accounts_do_not_matter db db' accountId date (includeMaxDate : bool) :
  fiscal_years db' = fiscal_years db ->
  periods db' = periods db ->
  filter (fun pt => pt_account_id pt = accountId) (period_totals db')
  = filter (fun pt => pt_account_id pt = accountId) (period_totals db) ->
  filter (fun line => gl_account_id line = accountId) (ledger db')
  = filter (fun line => gl_account_id line = accountId) (ledger db) ->
  getOpeningBalanceForDate db' accountId date includeMaxDate
  = getOpeningBalanceForDate db accountId date includeMaxDate.
Proof.
  intros Hyears Hperiods Htotals Hlines.
  assert (Hfy : getFiscalYearForDate db' date = getFiscalYearForDate db date)
    by (unfold getFiscalYearForDate; by rewrite Hyears).
  assert (Hper : getPeriodForDate db' date = getPeriodForDate db date)
    by (unfold getPeriodForDate; by rewrite Hperiods).
  assert (Hbefore : forall fiscalYearId,
             getPeriodAccountBalanceUntilDate db' accountId date fiscalYearId
             = getPeriodAccountBalanceUntilDate db accountId date fiscalYearId).
  { intros fiscalYearId. rewrite !getPeriodAccountBalanceUntilDate_sums. cbv zeta.
    unfold joinPeriod.
    rewrite !(joinPeriod_of_account _ accountId) by (by intros row (? & _)).
    by rewrite Htotals, Hperiods. }
  assert (Hwithin : forall periodId,
             getComputedAccountBalanceUntilDate db' accountId date periodId
               includeMaxDate
             = getComputedAccountBalanceUntilDate db accountId date periodId
                 includeMaxDate).
  { intros periodId. rewrite !getComputedAccountBalanceUntilDate_sums. cbv zeta.
    rewrite (filter_narrow (inPeriodUntil accountId date periodId includeMaxDate)
               (fun line => gl_account_id line = accountId) (ledger db')),
      (filter_narrow (inPeriodUntil accountId date periodId includeMaxDate)
         (fun line => gl_account_id line = accountId) (ledger db))
      by (by intros line (? & _)).
    by rewrite Hlines. }
  unfold getOpeningBalanceForDate. cbv zeta. rewrite Hfy, Hper.
  destruct (getFiscalYearForDate db date) as [fiscalYearId|e]; [|done].
  cbn [mbind Result_bind]. rewrite Hbefore.
  destruct (getPeriodAccountBalanceUntilDate db accountId date fiscalYearId)
    as [closing|e]; [|done].
  cbn [mbind Result_bind].
  destruct (getPeriodForDate db date) as [periodId|e]; [|done].
  cbn [mbind Result_bind]. by rewrite Hwithin.
Qed.

(** *** On the sample books *)

(** X23 on the sample: account 11 at midnight and at one o'clock of the
    2024-02-10. *)
Lemma opening_balance_depends_on_the_day_only_witness :
  getOpeningBalanceForDate Sample.books 11 Sample.feb10 true
  = getOpeningBalanceForDate Sample.books 11 (Sample.feb10 + 3600000) true.
Proof.
  apply (opening_balance_depends_on_the_day_only Sample.books 11 Sample.feb10
           (Sample.feb10 + 3600000) true).
  vm_compute. reflexivity.
Defined.

(** X24 on the sample: the 2024-02-15 falls in period 202. *)
Lemma resolved_calendar_covers_the_day_witness :
  exists p, p ∈ periods Sample.books /\ p_id p = 202
            /\ periodCovers (DATE Sample.feb15) p.
Proof.
  apply (proj2 (resolved_calendar_covers_the_day Sample.books Sample.feb15) 202).
  vm_compute. reflexivity.
Defined.

(** X25 on the sample: the 2023-01-01 lies before the only fiscal year. *)
Lemma date_outside_the_calendar_is_not_found_witness :
  getOpeningBalanceForDate Sample.books 10 Scenarios.y2023 true = Err NotFound.
Proof.
  apply (date_outside_the_calendar_is_not_found Sample.books 10 Scenarios.y2023 true).
  left. intros f Hf. apply list_elem_of_singleton in Hf as ->.
  unfold fiscalYearCovers. vm_compute. intros [Hstart _]. by apply Hstart.
Defined.

(** X26 on the sample: nothing is booked on account 12. *)
Lemma account_without_entries_opens_at_zero_witness :
  getOpeningBalanceForDate Sample.books 12 Sample.feb15 true = Ok zeroBalance.
Proof.
  apply (account_without_entries_opens_at_zero Sample.books 12 Sample.feb15 true 3 202).
  - vm_compute. reflexivity.
  - vm_compute. reflexivity.
  - intros pt Hpt. apply list_elem_of_singleton in Hpt as ->. discriminate.
  - intros line Hline. apply list_elem_of_singleton in Hline as ->. discriminate.
Defined.

(** X29 on the sample: a line booked on account 99 does not move
    account 11. *)
Lemma other_accounts_do_not_matter_witness :
  getOpeningBalanceForDate Scenarios.otherBooks 11 Sample.feb15 true
  = getOpeningBalanceForDate Sample.books 11 Sample.feb15 true.
Proof.
  apply (other_accounts_do_not_matter Sample.books Scenarios.otherBooks 11
           Sample.feb15 true); reflexivity.
Defined.

End AccountExtrasMoreFacts.
